(** * DHCPv6 client device (dhcp6/device.c): shallow embedding and properties

  The per-interface DHCPv6 device of [src/dhcp6/device.c] is embedded as
  pure functions over an explicit device record.  External effects (the
  clock, the random source, the multicast socket, the allocator) are made
  explicit: clock readings, random draws and send results are arguments,
  and calls that free or send are recorded in an effect log.

  Conventions: C integers are [Z]; [unsigned int] is 32 bit and [long] is
  64 bit (LP64); the host is little-endian, as the IAID byte order in the
  specification assumes.  The fields of the device and of its
  retransmission block are declared in device.h, outside this file; their
  counters and durations are kept as unbounded [Z], and the arithmetic and
  the conversions whose types device.c itself fixes (the [long] uptime and
  its return as [unsigned int], the [struct timeval] arithmetic, the
  32 bit IAID) are written out with their wrap-around. *)

From Stdlib Require Import ZArith List String Ascii Bool Lia.
From Stdlib.Strings Require Import Byte.
Import ListNotations.
Local Open Scope Z_scope.

Set Implicit Arguments.

(** ** C integer arithmetic

    [long], and with it [time_t] and [suseconds_t], is 64 bit two's
    complement.  Signed arithmetic that leaves the range wraps around, as
    the compiled code does. *)

Definition LONG_MAX : Z := 2 ^ 63 - 1.

Definition wrap_long (z : Z) : Z := (z + 2 ^ 63) mod 2 ^ 64 - 2 ^ 63.

(** ** struct timeval and the <sys/time.h> timer macros *)

Module Timeval.

Record timeval : Type := mk_timeval { tv_sec : Z; tv_usec : Z }.

Definition zero : timeval := mk_timeval 0 0.

(** A clock reading is normalised: [0 <= tv_usec < 1000000]. *)
Definition normalized (t : timeval) : Prop := 0 <= tv_usec t < 1000000.

(** [timerisset(tvp)]: [(tvp)->tv_sec || (tvp)->tv_usec]. *)
Definition timerisset (t : timeval) : bool :=
  negb (tv_sec t =? 0) || negb (tv_usec t =? 0).

(** [timercmp(a, b, >)]:
    [(a->tv_sec == b->tv_sec) ? (a->tv_usec > b->tv_usec) : (a->tv_sec > b->tv_sec)]. *)
Definition timercmp_gt (a b : timeval) : bool :=
  if tv_sec a =? tv_sec b then tv_usec b <? tv_usec a
  else tv_sec b <? tv_sec a.

(** [timersub(a, b, result)]: both fields are subtracted, then a negative
    [tv_usec] borrows from [tv_sec]; all of it in [long]. *)
Definition timersub (a b : timeval) : timeval :=
  let sec := wrap_long (tv_sec a - tv_sec b) in
  let usec := wrap_long (tv_usec a - tv_usec b) in
  if usec <? 0 then mk_timeval (wrap_long (sec - 1)) (wrap_long (usec + 1000000))
  else mk_timeval sec usec.

(** Modelled from the spec: the deadline arithmetic of the absent
    [ni_timeout_arm_msec] ("set deadline = now + RT", RT in milliseconds). *)
Definition add_msec (t : timeval) (msec : Z) : timeval :=
  let usec := tv_usec t + (msec mod 1000) * 1000 in
  let sec := tv_sec t + msec / 1000 in
  if 1000000 <=? usec then mk_timeval (sec + 1) (usec - 1000000)
  else mk_timeval sec usec.

(** A point in time in microseconds. *)
Definition to_usec (t : timeval) : Z := tv_sec t * 1000000 + tv_usec t.

End Timeval.
Export Timeval.

(** ** Data model (dhcp6/device.h, wicked/netinfo.h) *)

Definition byte : Type := Byte.byte.

Definition AF_UNSPEC : Z := 0.
Definition AF_INET : Z := 2.
Definition AF_INET6 : Z := 10.

(** [NI_DHCP6_WAIT_READY_MSEC] (device.c, line 80). *)
Definition NI_DHCP6_WAIT_READY_MSEC : Z := 2000.

(** [NI_DHCP6_VENDOR_ENTERPRISE_NUMBER] and the default vendor string
    (device.c, lines 50-75, without config.h). *)
Definition NI_DHCP6_VENDOR_ENTERPRISE_NUMBER : Z := 7075.
Definition NI_DHCP6_VENDOR_VERSION_STRING : string := "wicked-dhcp6/0.0.0".

(** [ni_int_range_t]: a jitter window. *)
Record ni_int_range_t : Type := mk_range { range_min : Z; range_max : Z }.

(** Modelled from the spec: the fields of [ni_timeout_param_t] (declared
    outside device.c) that the data model names: the retry ceiling
    [nretries], the current [timeout] (RT) and the [jitter] window. *)
Record ni_timeout_param_t : Type := mk_params {
  tp_nretries : Z;
  tp_timeout : Z;
  tp_jitter : ni_int_range_t
}.

(** The [retrans] block of [ni_dhcp6_device_t]. *)
Record retrans_t : Type := mk_retrans {
  rt_delay : Z;
  rt_jitter : Z;
  rt_duration : Z;
  rt_start : timeval;
  rt_deadline : timeval;
  rt_count : Z;
  rt_params : ni_timeout_param_t
}.

(** [memset(&dev->retrans, 0, sizeof(dev->retrans))]. *)
Definition retrans_zero : retrans_t :=
  mk_retrans 0 0 0 Timeval.zero Timeval.zero 0 (mk_params 0 0 (mk_range 0 0)).

(** Modelled from the spec: the FSM states (the enum lives in the FSM
    headers); only [INIT], [WAIT_READY] and [SELECTING] are named by
    device.c. *)
Inductive fsm_state_t : Type :=
| NI_DHCP6_STATE_INIT
| NI_DHCP6_STATE_WAIT_READY
| NI_DHCP6_STATE_SELECTING
| NI_DHCP6_STATE_REQUESTING
| NI_DHCP6_STATE_BOUND
| NI_DHCP6_STATE_RENEWING
| NI_DHCP6_STATE_REBINDING
| NI_DHCP6_STATE_RELEASING
| NI_DHCP6_STATE_DECLINING
| NI_DHCP6_STATE_CONFIRMING
| NI_DHCP6_STATE_INFO_REQUESTING.

Definition fsm_state_eqb (a b : fsm_state_t) : bool :=
  match a, b with
  | NI_DHCP6_STATE_INIT, NI_DHCP6_STATE_INIT
  | NI_DHCP6_STATE_WAIT_READY, NI_DHCP6_STATE_WAIT_READY
  | NI_DHCP6_STATE_SELECTING, NI_DHCP6_STATE_SELECTING
  | NI_DHCP6_STATE_REQUESTING, NI_DHCP6_STATE_REQUESTING
  | NI_DHCP6_STATE_BOUND, NI_DHCP6_STATE_BOUND
  | NI_DHCP6_STATE_RENEWING, NI_DHCP6_STATE_RENEWING
  | NI_DHCP6_STATE_REBINDING, NI_DHCP6_STATE_REBINDING
  | NI_DHCP6_STATE_RELEASING, NI_DHCP6_STATE_RELEASING
  | NI_DHCP6_STATE_DECLINING, NI_DHCP6_STATE_DECLINING
  | NI_DHCP6_STATE_CONFIRMING, NI_DHCP6_STATE_CONFIRMING
  | NI_DHCP6_STATE_INFO_REQUESTING, NI_DHCP6_STATE_INFO_REQUESTING => true
  | _, _ => false
  end.

(** The [fsm] cursor of the device.  Modelled from the spec: "exactly one
    FSM timer may be live per device"; [fsm_timer] holds the armed duration
    in milliseconds, [None] when no timer is live. *)
Record fsm_t : Type := mk_fsm {
  fsm_state : fsm_state_t;
  fsm_timer : option Z;
  fsm_fail_on_timeout : bool
}.

(** Modelled from the spec: the outbound buffer ([ni_buffer_t] is declared
    outside device.c): the pending bytes and the size of the allocation;
    it is "capable of being cleared without freeing". *)
Record ni_buffer_t : Type := mk_buffer {
  buf_data : list byte;
  buf_size : Z
}.

Definition ni_buffer_count (b : ni_buffer_t) : Z := Z.of_nat (List.length (buf_data b)).
Definition ni_buffer_clear (b : ni_buffer_t) : ni_buffer_t := mk_buffer [] (buf_size b).

(** [struct sockaddr_storage] as far as device.c looks at it. *)
Record ni_sockaddr_t : Type := mk_sockaddr {
  ss_family : Z;
  sin6_addr : list byte
}.

Definition sockaddr_unspec : ni_sockaddr_t := mk_sockaddr AF_UNSPEC [].

(** [ni_address_t]: the three flag fields hold what the accessors
    [ni_address_is_linklocal], [ni_address_is_duplicate] and
    [ni_address_is_tentative] report. *)
Record ni_address_t : Type := mk_address {
  addr_family : Z;
  addr_local_addr : ni_sockaddr_t;
  addr_is_linklocal : bool;
  addr_is_duplicate : bool;
  addr_is_tentative : bool
}.

(** [ni_netdev_t]: an interface of the netlink mirror. *)
Record ni_netdev_t : Type := mk_netdev {
  nd_name : string;
  nd_ifindex : Z;
  nd_arp_type : Z;
  nd_hwaddr : list byte;
  nd_vlan : option Z;
  nd_link_is_up : bool;
  nd_addrs : list ni_address_t
}.

(** [ni_dhcp6_ia_t] as far as acquire builds it. *)
Record ni_dhcp6_ia_t : Type := mk_ia {
  ia_type : Z;
  ia_iaid : Z;
  ia_renewal_time : Z;
  ia_rebind_time : Z
}.

(** [ni_dhcp6_config_t]. *)
Record ni_dhcp6_config_t : Type := mk_config {
  cfg_uuid : list byte;
  cfg_update : Z;
  cfg_info_only : bool;
  cfg_rapid_commit : bool;
  cfg_lease_time : Z;
  cfg_client_duid : list byte;
  cfg_ia_list : list ni_dhcp6_ia_t;
  cfg_hostname : string;
  cfg_user_class : list string;
  cfg_vendor_class_en : Z;
  cfg_vendor_class_data : list string;
  cfg_vendor_opts_en : Z;
  cfg_vendor_opts_data : list (string * string)
}.

(** [ni_dhcp6_request_t]; [None] stands for a NULL pointer field. *)
Record ni_dhcp6_request_t : Type := mk_request {
  req_uuid : list byte;
  req_update : Z;
  req_info_only : bool;
  req_rapid_commit : bool;
  req_clientid : option string;
  req_hostname : option string;
  req_ia_list : option (list ni_dhcp6_ia_t)
}.

(** A lease is held by pointer: [set_lease] compares addresses. *)
Definition lease_ptr : Type := Z.

(** [ni_dhcp6_device_t]. *)
Record ni_dhcp6_device_t : Type := mk_device {
  dev_ifname : option string;
  dev_link_ifindex : Z;
  dev_link_addr : ni_sockaddr_t;
  dev_iaid : Z;
  dev_xid : Z;
  dev_message : ni_buffer_t;
  dev_retrans : retrans_t;
  dev_fsm : fsm_t;
  dev_failed : bool;
  dev_config : option ni_dhcp6_config_t;
  dev_lease : option lease_ptr;
  dev_mcast_sock : option Z
}.

(** Calls into the allocator, the socket layer and the DUID store, in the
    order they are made. *)
Inductive effect : Type :=
| EffLeaseFree (p : option lease_ptr)
| EffConfigFree (c : ni_dhcp6_config_t)
| EffSocketSend (payload : list byte)
| EffMcastSocketClose
| EffSaveDuid (duid : list byte).

(** A device together with the log of the effects performed so far
    (most recent first). *)
Record world : Type := mk_world {
  w_dev : ni_dhcp6_device_t;
  w_log : list effect
}.

(** *** Field updates *)

Definition set_retrans (r : retrans_t) (d : ni_dhcp6_device_t) : ni_dhcp6_device_t :=
  mk_device (dev_ifname d) (dev_link_ifindex d) (dev_link_addr d) (dev_iaid d)
    (dev_xid d) (dev_message d) r (dev_fsm d) (dev_failed d) (dev_config d)
    (dev_lease d) (dev_mcast_sock d).

Definition set_fsm (f : fsm_t) (d : ni_dhcp6_device_t) : ni_dhcp6_device_t :=
  mk_device (dev_ifname d) (dev_link_ifindex d) (dev_link_addr d) (dev_iaid d)
    (dev_xid d) (dev_message d) (dev_retrans d) f (dev_failed d) (dev_config d)
    (dev_lease d) (dev_mcast_sock d).

Definition set_xid (x : Z) (d : ni_dhcp6_device_t) : ni_dhcp6_device_t :=
  mk_device (dev_ifname d) (dev_link_ifindex d) (dev_link_addr d) (dev_iaid d)
    x (dev_message d) (dev_retrans d) (dev_fsm d) (dev_failed d) (dev_config d)
    (dev_lease d) (dev_mcast_sock d).

Definition set_message (m : ni_buffer_t) (d : ni_dhcp6_device_t) : ni_dhcp6_device_t :=
  mk_device (dev_ifname d) (dev_link_ifindex d) (dev_link_addr d) (dev_iaid d)
    (dev_xid d) m (dev_retrans d) (dev_fsm d) (dev_failed d) (dev_config d)
    (dev_lease d) (dev_mcast_sock d).

Definition set_link_addr (a : ni_sockaddr_t) (d : ni_dhcp6_device_t) : ni_dhcp6_device_t :=
  mk_device (dev_ifname d) (dev_link_ifindex d) a (dev_iaid d)
    (dev_xid d) (dev_message d) (dev_retrans d) (dev_fsm d) (dev_failed d) (dev_config d)
    (dev_lease d) (dev_mcast_sock d).

Definition set_failed (b : bool) (d : ni_dhcp6_device_t) : ni_dhcp6_device_t :=
  mk_device (dev_ifname d) (dev_link_ifindex d) (dev_link_addr d) (dev_iaid d)
    (dev_xid d) (dev_message d) (dev_retrans d) (dev_fsm d) b (dev_config d)
    (dev_lease d) (dev_mcast_sock d).

Definition set_config (c : option ni_dhcp6_config_t) (d : ni_dhcp6_device_t) : ni_dhcp6_device_t :=
  mk_device (dev_ifname d) (dev_link_ifindex d) (dev_link_addr d) (dev_iaid d)
    (dev_xid d) (dev_message d) (dev_retrans d) (dev_fsm d) (dev_failed d) c
    (dev_lease d) (dev_mcast_sock d).

Definition set_lease (l : option lease_ptr) (d : ni_dhcp6_device_t) : ni_dhcp6_device_t :=
  mk_device (dev_ifname d) (dev_link_ifindex d) (dev_link_addr d) (dev_iaid d)
    (dev_xid d) (dev_message d) (dev_retrans d) (dev_fsm d) (dev_failed d) (dev_config d)
    l (dev_mcast_sock d).

Definition set_mcast_sock (s : option Z) (d : ni_dhcp6_device_t) : ni_dhcp6_device_t :=
  mk_device (dev_ifname d) (dev_link_ifindex d) (dev_link_addr d) (dev_iaid d)
    (dev_xid d) (dev_message d) (dev_retrans d) (dev_fsm d) (dev_failed d) (dev_config d)
    (dev_lease d) s.

Definition on_dev (f : ni_dhcp6_device_t -> ni_dhcp6_device_t) (w : world) : world :=
  mk_world (f (w_dev w)) (w_log w).

Definition emit (e : effect) (w : world) : world :=
  mk_world (w_dev w) (e :: w_log w).

(** ** External collaborators

    What one call observes of its environment: the clock readings of
    [ni_timer_get_time] (the first one, and the one taken when the deadline
    is armed), the draw of the random source, the return value of
    [ni_dhcp6_socket_send] and the UUID that [ni_uuid_generate] produces. *)
Record oracle : Type := mk_oracle {
  o_now : timeval;
  o_arm_now : timeval;
  o_sample : Z;
  o_send_rv : Z;
  o_uuid : list byte
}.

(** Functions, constants and sizes of the repository that device.c uses
    and that are declared in other files, taken as parameters.  A function
    that writes through a pointer takes the prior content and returns the
    content afterwards together with its return value. *)
Record externals : Type := mk_externals {
  ni_timeout_recompute : ni_timeout_param_t -> ni_timeout_param_t * bool;
  ni_dhcp6_fsm_retransmit : world -> world * Z;
  ni_dhcp6_fsm_start : world -> world * Z;
  ni_duid_parse_hex : list byte -> string -> list byte * bool;
  ni_dhcp6_load_duid : list byte -> list byte * Z;
  ni_duid_init_llt : list byte -> Z -> list byte -> list byte * bool;
  ni_duid_init_uuid : list byte -> list byte -> list byte;
  ni_check_domain_name : string -> bool;
  ni_dhcp6_ia_na_new : Z -> ni_dhcp6_ia_t;
  ni_dhcp6_ia_set_default_lifetimes : ni_dhcp6_ia_t -> Z -> ni_dhcp6_ia_t;
  NI_DHCP6_PREFERRED_LIFETIME : Z;
  NI_DHCP6_WBUF_SIZE : Z;
  hostname_size : nat
}.

(** Modelled from the spec: [ni_dhcp6_fsm_set_timeout_msec] (FSM glue):
    "arming a new timer replaces (cancels) the prior". *)
Definition ni_dhcp6_fsm_set_timeout_msec (msec : Z) (d : ni_dhcp6_device_t) : ni_dhcp6_device_t :=
  set_fsm (mk_fsm (fsm_state (dev_fsm d)) (Some msec) (fsm_fail_on_timeout (dev_fsm d))) d.

(** Modelled from the spec: [ni_dhcp6_jitter_rebase] (protocol.c): the
    jitter base is "in tenths of a percent of the current timeout", so the
    window bounds are [msec * bound / 1000] milliseconds. *)
Definition ni_dhcp6_jitter_rebase (msec lower upper : Z) : ni_int_range_t :=
  mk_range (Z.quot (msec * lower) 1000) (Z.quot (msec * upper) 1000).

(** Modelled from the spec: [ni_timeout_randomize] (timer code): "randomize
    the delay in the window"; the sampled jitter is the draw of the random
    source, kept inside the window and, where the window holds more than
    one value, above its lower bound (for the window [[0, +j]]: "RAND in
    (0, +0.1] (never zero, never negative)"); it is added to the timeout
    ("sampled jitter +37 => 1037 ms"). *)
Definition ni_timeout_randomize (timeout : Z) (jitter : ni_int_range_t) (sample : Z) : Z :=
  let lowest := Z.min (range_min jitter + 1) (range_max jitter) in
  timeout + Z.max lowest (Z.min sample (range_max jitter)).

(** Modelled from the spec: [ni_timeout_arm_msec] (timer code): compute the
    randomized RT of the parameters and "set deadline = now + RT"; returns
    RT and the deadline. *)
Definition ni_timeout_arm_msec (now : timeval) (tp : ni_timeout_param_t) (sample : Z) : Z * timeval :=
  let rt := ni_timeout_randomize (tp_timeout tp) (tp_jitter tp) sample in
  (rt, add_msec now rt).

(** Modelled from the spec: [ni_dhcp6_mcast_socket_close] (socket layer):
    "close the multicast socket". *)
Definition ni_dhcp6_mcast_socket_close (w : world) : world :=
  on_dev (set_mcast_sock None) (emit EffMcastSocketClose w).

(** ** Retransmission scheduler (device.c, lines 508-724) *)

Definition with_params (p : ni_timeout_param_t) (r : retrans_t) : retrans_t :=
  mk_retrans (rt_delay r) (rt_jitter r) (rt_duration r) (rt_start r)
    (rt_deadline r) (rt_count r) p.

Definition with_deadline (t : timeval) (r : retrans_t) : retrans_t :=
  mk_retrans (rt_delay r) (rt_jitter r) (rt_duration r) (rt_start r)
    t (rt_count r) (rt_params r).

Definition with_jitter (j : ni_int_range_t) (p : ni_timeout_param_t) : ni_timeout_param_t :=
  mk_params (tp_nretries p) (tp_timeout p) j.

Definition with_timeout (t : Z) (p : ni_timeout_param_t) : ni_timeout_param_t :=
  mk_params (tp_nretries p) t (tp_jitter p).

(** [ni_dhcp6_device_transmit_arm_delay]. *)
Definition ni_dhcp6_device_transmit_arm_delay (o : oracle) (d : ni_dhcp6_device_t)
  : ni_dhcp6_device_t * bool :=
  let r := dev_retrans d in
  if rt_delay r =? 0 then (d, false)
  else
    let jitter := mk_range (0 - rt_jitter r) (0 + rt_jitter r) in
    let delay := ni_timeout_randomize (rt_delay r) jitter (o_sample o) in
    (ni_dhcp6_fsm_set_timeout_msec delay d, true).

(** The common tail of both branches of [retransmit_arm] and of
    [retransmit_advance]: rebase the jitter on the current timeout with the
    given bounds, then arm the deadline and store the randomized timeout. *)
Definition rebase_and_arm (o : oracle) (lower upper : Z) (d : ni_dhcp6_device_t)
  : ni_dhcp6_device_t :=
  let r := dev_retrans d in
  let p1 := with_jitter
              (ni_dhcp6_jitter_rebase (tp_timeout (rt_params r)) lower upper)
              (rt_params r) in
  let '(rt, deadline) := ni_timeout_arm_msec (o_arm_now o) p1 (o_sample o) in
  set_retrans (with_params (with_timeout rt p1) (with_deadline deadline r)) d.

(** [ni_dhcp6_device_retransmit_arm]. *)
Definition ni_dhcp6_device_retransmit_arm (o : oracle) (d : ni_dhcp6_device_t)
  : ni_dhcp6_device_t :=
  let r := dev_retrans d in
  (* dev->retrans.delay = 0; ni_timer_get_time(&dev->retrans.start); *)
  let d := set_retrans
             (mk_retrans 0 (rt_jitter r) (rt_duration r) (o_now o)
                (rt_deadline r) (rt_count r) (rt_params r)) d in
  let r := dev_retrans d in
  if tp_nretries (rt_params r) =? 0 then d
  else if fsm_state_eqb (fsm_state (dev_fsm d)) NI_DHCP6_STATE_SELECTING
          && (rt_count r =? 1) then
    let d := rebase_and_arm o 0 (0 + rt_jitter r) d in
    ni_dhcp6_fsm_set_timeout_msec (tp_timeout (rt_params (dev_retrans d))) d
  else
    let d := rebase_and_arm o (0 - rt_jitter r) (0 + rt_jitter r) d in
    if negb (rt_duration (dev_retrans d) =? 0)
    then ni_dhcp6_fsm_set_timeout_msec (rt_duration (dev_retrans d)) d
    else d.

(** [ni_dhcp6_device_retransmit_disarm]. *)
Definition ni_dhcp6_device_retransmit_disarm (d : ni_dhcp6_device_t) : ni_dhcp6_device_t :=
  set_retrans retrans_zero (set_xid 0 d).

(** [ni_dhcp6_device_retransmit_advance]. *)
Definition ni_dhcp6_device_retransmit_advance (X : externals) (o : oracle)
  (d : ni_dhcp6_device_t) : ni_dhcp6_device_t * bool :=
  let r := dev_retrans d in
  let '(p, continue) := ni_timeout_recompute X (rt_params r) in
  let d := set_retrans (with_params p r) d in
  if continue
  then (rebase_and_arm o (0 - rt_jitter r) (0 + rt_jitter r) d, true)
  else (d, false).

(** [ni_dhcp6_device_retransmit]. *)
Definition ni_dhcp6_device_retransmit (X : externals) (o : oracle) (w : world)
  : world * Z :=
  let '(d, advanced) := ni_dhcp6_device_retransmit_advance X o (w_dev w) in
  let w := mk_world d (w_log w) in
  if negb advanced then (on_dev ni_dhcp6_device_retransmit_disarm w, -1)
  else
    let '(w, rv) := ni_dhcp6_fsm_retransmit X w in
    if rv <? 0 then (w, -1) else (w, 0).

(** ** Send path (device.c, lines 1109-1157) *)

Definition ni_dhcp6_device_clear_buffer (d : ni_dhcp6_device_t) : ni_dhcp6_device_t :=
  set_message (ni_buffer_clear (dev_message d)) d.

Definition incr_count (d : ni_dhcp6_device_t) : ni_dhcp6_device_t :=
  let r := dev_retrans d in
  set_retrans (mk_retrans (rt_delay r) (rt_jitter r) (rt_duration r) (rt_start r)
                 (rt_deadline r) (rt_count r + 1) (rt_params r)) d.

(** [ni_dhcp6_device_transmit]; [o_send_rv] is what [ni_dhcp6_socket_send]
    returns for the buffer it is handed. *)
Definition ni_dhcp6_device_transmit (o : oracle) (w : world) : world * Z :=
  let cnt := ni_buffer_count (dev_message (w_dev w)) in
  if cnt =? 0 then (w, -1)
  else
    let w := emit (EffSocketSend (buf_data (dev_message (w_dev w)))) w in
    let rv := o_send_rv o in
    if (rv <? 0) || negb (rv =? ni_buffer_count (dev_message (w_dev w))) then
      let w := ni_dhcp6_mcast_socket_close w in
      (on_dev ni_dhcp6_device_clear_buffer w, -1)
    else
      let w := on_dev incr_count w in
      (on_dev ni_dhcp6_device_clear_buffer w, 0).

(** [ni_dhcp6_device_transmit_start]. *)
Definition ni_dhcp6_device_transmit_start (o : oracle) (w : world) : world * Z :=
  ni_dhcp6_device_transmit o (on_dev (ni_dhcp6_device_retransmit_arm o) w).

(** [ni_dhcp6_device_transmit_init]. *)
Definition ni_dhcp6_device_transmit_init (o : oracle) (w : world) : world * Z :=
  let '(d, armed) := ni_dhcp6_device_transmit_arm_delay o (w_dev w) in
  if armed then (mk_world d (w_log w), 0)
  else ni_dhcp6_device_transmit_start o (mk_world d (w_log w)).

(** ** Uptime (device.c, lines 315-330) *)

(** [ni_dhcp6_device_uptime]: [uptime] is a [long], [clamp] an
    [unsigned int]; the product and the sum are computed in [long], the
    comparison is made in [long] and the result is converted to
    [unsigned int] on return. *)
Definition ni_dhcp6_device_uptime (o : oracle) (d : ni_dhcp6_device_t) (clamp : Z) : Z :=
  let now := o_now o in
  let start := rt_start (dev_retrans d) in
  let uptime :=
    if timerisset start && timercmp_gt now start then
      let delta := timersub now start in
      wrap_long (wrap_long (tv_sec delta * 100) + Z.quot (tv_usec delta) 10000)
    else 0 in
  (if uptime <? clamp then uptime else clamp) mod 2 ^ 32.

(** ** IAID derivation (device.c, lines 332-364) *)

(** The process-wide netlink mirror behind [ni_global_state_handle(0)];
    [None] is a NULL handle. *)
Definition ni_netconfig_t : Type := list ni_netdev_t.

(** Modelled from the spec: [ni_netdev_by_index] (netlink mirror): the
    interface with that index, if any. *)
Definition ni_netdev_by_index (nc : ni_netconfig_t) (ifindex : Z) : option ni_netdev_t :=
  find (fun ifp => nd_ifindex ifp =? ifindex) nc.

Definition byte_val (b : byte) : Z := Z.of_N (Byte.to_N b).

Definition byte_of_Z (z : Z) : byte :=
  match Byte.of_N (Z.to_N (z mod 256)) with
  | Some b => b
  | None => Byte.x00
  end.

(** The value of a little-endian integer object with the given bytes. *)
Fixpoint le_decode (bs : list byte) : Z :=
  match bs with
  | [] => 0
  | b :: rest => byte_val b + 256 * le_decode rest
  end.

(** The [n] bytes of an integer object holding [v], little-endian. *)
Fixpoint le_encode (n : nat) (v : Z) : list byte :=
  match n with
  | O => []
  | S k => byte_of_Z v :: le_encode k (v / 256)
  end.

(** [memcpy(dst, src, n)] on the byte images of the two objects. *)
Definition memcpy (dst src : list byte) (n : nat) : list byte :=
  firstn n src ++ skipn n dst.

(** [ni_string_len]: 0 for a NULL pointer. *)
Definition ni_string_len (s : option string) : nat :=
  match s with
  | None => O
  | Some s => String.length s
  end.

Definition string_bytes (s : option string) : list byte :=
  match s with
  | None => []
  | Some s => list_byte_of_string s
  end.

(** [ni_dhcp6_device_iaid]: returns the return code and the content of
    [*iaid] afterwards.  [iaid0] is the prior content of [*iaid] and [tmp0]
    the indeterminate content of the uninitialised local [tmp]. *)
Definition ni_dhcp6_device_iaid (nc : option ni_netconfig_t) (tmp0 : Z)
  (d : ni_dhcp6_device_t) (iaid0 : Z) : Z * Z :=
  match nc with
  | None => (-1, iaid0)
  | Some nc =>
    match ni_netdev_by_index nc (dev_link_ifindex d) with
    | None => (-1, iaid0)
    | Some ifp =>
      let iaid := 0 in
      let hwlen := List.length (nd_hwaddr ifp) in
      if (4 <? hwlen)%nat then
        let off := (hwlen - 4)%nat in
        (0, le_decode (memcpy (le_encode 4 iaid) (skipn off (nd_hwaddr ifp)) 4))
      else
        let len := ni_string_len (dev_ifname d) in
        if negb (len =? 0)%nat then
          let tmp := le_decode (memcpy (le_encode 4 tmp0)
                                  (string_bytes (dev_ifname d)) (len mod 4)) in
          let iaid := Z.lxor iaid tmp in
          let iaid := match nd_vlan ifp with
                      | Some tag => if 0 <? tag then Z.lxor iaid tag else iaid
                      | None => iaid
                      end in
          let iaid := Z.lxor iaid (dev_link_ifindex d) in
          (0, iaid)
        else (-1, iaid)
    end
  end.

(** ** Lease handle (device.c, lines 263-270) *)

Definition lease_eqb (a b : option lease_ptr) : bool :=
  match a, b with
  | None, None => true
  | Some p, Some q => p =? q
  | _, _ => false
  end.

(** [ni_dhcp6_device_set_lease]. *)
Definition ni_dhcp6_device_set_lease (lease : option lease_ptr) (w : world) : world :=
  if negb (lease_eqb (dev_lease (w_dev w)) lease) then
    let w := emit (EffLeaseFree (dev_lease (w_dev w))) w in
    on_dev (set_lease lease) w
  else w.

(** ** Process configuration (device.c, lines 1159-1229) *)

(** [struct ni_config_dhcp6] as far as device.c reads it; a [None] or
    empty string is what [ni_string_empty] accepts. *)
Record ni_config_dhcp6 : Type := mk_dhconf {
  default_duid : option string;
  vendor_class_en : Z;
  vendor_class_data : list string;
  vendor_opts_en : Z;
  vendor_opts_data : list (option string * string);
  ignore_servers : list string
}.

(** The process-wide state: the netlink mirror and the configuration. *)
Record global_state : Type := mk_global {
  gs_netconfig : option ni_netconfig_t;
  gs_dhconf : ni_config_dhcp6
}.

Definition ni_string_empty (s : option string) : bool :=
  match s with
  | None => true
  | Some s => (String.length s =? 0)%nat
  end.

(** [ni_dhcp6_config_default_duid], as the transformer of [*duid]. *)
Definition ni_dhcp6_config_default_duid (X : externals) (G : global_state)
  (duid : list byte) : list byte :=
  match default_duid (gs_dhconf G) with
  | Some s => if ni_string_empty (Some s) then duid
              else fst (ni_duid_parse_hex X duid s)
  | None => duid
  end.

(** [ni_dhcp6_config_vendor_class]: the enterprise number and the data. *)
Definition ni_dhcp6_config_vendor_class (G : global_state) : Z * list string :=
  let en := vendor_class_en (gs_dhconf G) in
  if negb (en =? 0) then (en, vendor_class_data (gs_dhconf G))
  else (NI_DHCP6_VENDOR_ENTERPRISE_NUMBER, [NI_DHCP6_VENDOR_VERSION_STRING]).

(** Modelled from the spec: [ni_var_array_set] (util code) on the "ordered
    mapping from option name to value": replace the value of an existing
    name, else append. *)
Fixpoint ni_var_array_set (l : list (string * string)) (name value : string)
  : list (string * string) :=
  match l with
  | [] => [(name, value)]
  | (n, v) :: rest =>
    if String.eqb n name then (n, value) :: rest
    else (n, v) :: ni_var_array_set rest name value
  end.

(** [ni_dhcp6_config_vendor_opts]. *)
Definition ni_dhcp6_config_vendor_opts (G : global_state) : Z * list (string * string) :=
  let en := vendor_opts_en (gs_dhconf G) in
  if negb (en =? 0) then
    (en, fold_left (fun acc var =>
                      if ni_string_empty (fst var) then acc
                      else match fst var with
                           | Some name => ni_var_array_set acc name (snd var)
                           | None => acc
                           end)
           (vendor_opts_data (gs_dhconf G)) [])
  else (en, []).

Definition ascii_tolower (c : ascii) : ascii :=
  let n := nat_of_ascii c in
  if ((65 <=? n) && (n <=? 90))%nat then ascii_of_nat (n + 32) else c.

Fixpoint string_tolower (s : string) : string :=
  match s with
  | EmptyString => EmptyString
  | String c rest => String (ascii_tolower c) (string_tolower rest)
  end.

(** Modelled from the spec: the comparison of [ni_string_array_index]
    (util code) as the ignore list uses it: "textual comparison is
    case-insensitive". *)
Definition string_eq_nocase (a b : string) : bool :=
  String.eqb (string_tolower a) (string_tolower b).

(** Modelled from the spec: [ni_string_array_index] (util code): the index
    of the first matching entry, or -1. *)
Fixpoint ni_string_array_index_from (i : Z) (nsa : list string) (str : string) : Z :=
  match nsa with
  | [] => -1
  | s :: rest => if string_eq_nocase s str then i
                 else ni_string_array_index_from (i + 1) rest str
  end.

Definition ni_string_array_index (nsa : list string) (str : string) : Z :=
  ni_string_array_index_from 0 nsa str.

Fixpoint decimal_digits (fuel : nat) (n : nat) (acc : string) : string :=
  match fuel with
  | O => acc
  | S fuel' =>
    let acc' := String (ascii_of_nat (48 + n mod 10)) acc in
    if (n / 10 =? 0)%nat then acc' else decimal_digits fuel' (n / 10) acc'
  end.

(** A byte printed with ["%u"]. *)
Definition decimal_of_byte (b : byte) : string :=
  decimal_digits 3 (N.to_nat (Byte.to_N b)) EmptyString.

(** [inet_ntop(AF_INET, src, ...)] of the C library: the first four bytes
    at [src] in dotted-decimal notation. *)
Definition inet_ntop_AF_INET (src : list byte) : string :=
  let b i := decimal_of_byte (nth i src Byte.x00) in
  (b 0%nat ++ "." ++ b 1%nat ++ "." ++ b 2%nat ++ "." ++ b 3%nat)%string.

(** [ni_dhcp6_config_ignore_server]: [addr] holds the 16 bytes of the
    [struct in6_addr]. *)
Definition ni_dhcp6_config_ignore_server (G : global_state) (addr : list byte) : bool :=
  let astr := inet_ntop_AF_INET addr in
  0 <=? ni_string_array_index (ignore_servers (gs_dhconf G)) astr.

(** ** Readiness gate (device.c, lines 434-489) *)

(** [ni_dhcp6_device_set_lladdr]. *)
Definition ni_dhcp6_device_set_lladdr (d : ni_dhcp6_device_t) (addr : ni_address_t)
  : ni_dhcp6_device_t * Z :=
  if addr_is_duplicate addr then (d, -1)
  else if addr_is_tentative addr then (d, 1)
  else (set_link_addr (addr_local_addr addr) d, 0).

(** The [for] loop of [ni_dhcp6_device_find_lladdr]; [rv] is the value of
    the local of that name on entry ([cnt] only feeds a debug message). *)
Fixpoint find_lladdr_scan (d : ni_dhcp6_device_t) (addrs : list ni_address_t) (rv : Z)
  : ni_dhcp6_device_t * Z :=
  match addrs with
  | [] => (d, rv)
  | addr :: rest =>
    if negb (addr_family addr =? AF_INET6) || negb (addr_is_linklocal addr)
    then find_lladdr_scan d rest rv
    else
      let '(d', rv') := ni_dhcp6_device_set_lladdr d addr in
      if rv' =? 0 then (d', 0) else find_lladdr_scan d' rest rv'
  end.

(** [ni_dhcp6_device_find_lladdr]. *)
Definition ni_dhcp6_device_find_lladdr (G : global_state) (d : ni_dhcp6_device_t)
  : ni_dhcp6_device_t * Z :=
  match gs_netconfig G with
  | None => (d, -1)
  | Some nc =>
    match ni_netdev_by_index nc (dev_link_ifindex d) with
    | None => (d, -1)
    | Some ifp =>
      if negb (nd_link_is_up ifp) then (d, -1)
      else find_lladdr_scan d (nd_addrs ifp) 1
    end
  end.

(** ** DUID derivation (device.c, lines 726-800) *)

Definition ARPHRD_ETHER : Z := 1.
Definition ARPHRD_IEEE802 : Z := 6.
Definition ARPHRD_INFINIBAND : Z := 32.

Definition hwaddr_len (ifp : ni_netdev_t) : Z := Z.of_nat (List.length (nd_hwaddr ifp)).

(** The "then another one" loop of [ni_dhcp6_generate_duid]: the content
    of [*duid] and whether the function has returned from inside it. *)
Fixpoint generate_duid_scan (X : externals) (ifindex : Z) (devs : list ni_netdev_t)
  (duid : list byte) : list byte * bool :=
  match devs with
  | [] => (duid, false)
  | ifp :: rest =>
    if nd_ifindex ifp =? ifindex then generate_duid_scan X ifindex rest duid
    else if (nd_arp_type ifp =? ARPHRD_ETHER) || (nd_arp_type ifp =? ARPHRD_IEEE802)
            || (nd_arp_type ifp =? ARPHRD_INFINIBAND) then
      if negb (hwaddr_len ifp =? 0) then
        let '(duid', ok) := ni_duid_init_llt X duid (nd_arp_type ifp) (nd_hwaddr ifp) in
        if ok then (duid', true) else generate_duid_scan X ifindex rest duid'
      else generate_duid_scan X ifindex rest duid
    else generate_duid_scan X ifindex rest duid
  end.

(** [ni_dhcp6_generate_duid], as the transformer of [*duid]. *)
Definition ni_dhcp6_generate_duid (X : externals) (G : global_state) (o : oracle)
  (d : ni_dhcp6_device_t) (duid : list byte) : list byte :=
  match gs_netconfig G with
  | None => duid
  | Some nc =>
    match ni_netdev_by_index nc (dev_link_ifindex d) with
    | None => duid
    | Some ifp =>
      let '(duid, ok) :=
        if negb (hwaddr_len ifp =? 0)
        then ni_duid_init_llt X duid (nd_arp_type ifp) (nd_hwaddr ifp)
        else (duid, false) in
      if ok then duid
      else
        let '(duid, returned) := generate_duid_scan X (dev_link_ifindex d) nc duid in
        if returned then duid
        else ni_duid_init_uuid X duid (o_uuid o)
    end
  end.

Definition duid_len (duid : list byte) : Z := Z.of_nat (List.length duid).

Definition with_client_duid (duid : list byte) (c : ni_dhcp6_config_t) : ni_dhcp6_config_t :=
  mk_config (cfg_uuid c) (cfg_update c) (cfg_info_only c) (cfg_rapid_commit c)
    (cfg_lease_time c) duid (cfg_ia_list c) (cfg_hostname c) (cfg_user_class c)
    (cfg_vendor_class_en c) (cfg_vendor_class_data c)
    (cfg_vendor_opts_en c) (cfg_vendor_opts_data c).

(** [ni_dhcp6_config_init_duid]: the config, the world (the DUID store may
    be written) and the boolean result. *)
Definition ni_dhcp6_config_init_duid (X : externals) (G : global_state) (o : oracle)
  (config : ni_dhcp6_config_t) (preferred : option string) (w : world)
  : ni_dhcp6_config_t * world * bool :=
  let save := true in
  let duid := cfg_client_duid config in
  let duid := match preferred with
              | Some p => fst (ni_duid_parse_hex X duid p)
              | None => duid
              end in
  let duid := if duid_len duid =? 0 then ni_dhcp6_config_default_duid X G duid
              else duid in
  let '(duid, save) :=
    if duid_len duid =? 0 then
      let '(duid', rv) := ni_dhcp6_load_duid X duid in
      (duid', if rv =? 0 then false else save)
    else (duid, save) in
  let duid := if duid_len duid =? 0 then ni_dhcp6_generate_duid X G o (w_dev w) duid
              else duid in
  let w := if (0 <? duid_len duid) && save then emit (EffSaveDuid duid) w else w in
  (with_client_duid duid config, w, 0 <? duid_len duid).

(** ** Acquire (device.c, lines 401-415 and 802-873) *)

(** [__ni_dhcp6_device_config_free] of a non-NULL config. *)
Definition ni_dhcp6_device_config_free (c : ni_dhcp6_config_t) (w : world) : world :=
  emit (EffConfigFree c) w.

(** [ni_dhcp6_device_set_config]. *)
Definition ni_dhcp6_device_set_config (config : option ni_dhcp6_config_t) (w : world) : world :=
  let w := match dev_config (w_dev w) with
           | Some old => ni_dhcp6_device_config_free old w
           | None => w
           end in
  on_dev (set_config config) w.

(** Modelled from the spec: [ni_buffer_ensure_tailroom] followed by
    [ni_buffer_clear] (buffer code): the buffer is "sized >= the DHCPv6
    working maximum" and empty. *)
Definition ni_dhcp6_device_alloc_buffer (X : externals) (d : ni_dhcp6_device_t)
  : ni_dhcp6_device_t :=
  let m := dev_message d in
  let m := if buf_size m <? NI_DHCP6_WBUF_SIZE X
           then mk_buffer (buf_data m) (NI_DHCP6_WBUF_SIZE X) else m in
  set_message (ni_buffer_clear m) d.

(** [ni_dhcp6_device_start]. *)
Definition ni_dhcp6_device_start (X : externals) (w : world) : world * Z :=
  match dev_config (w_dev w) with
  | None => (w, -1)
  | Some _ =>
    let w := on_dev (set_failed false) w in
    let w := on_dev (ni_dhcp6_device_alloc_buffer X) w in
    ni_dhcp6_fsm_start X w
  end.

Definition string_prefix (n : nat) (s : string) : string := String.substring 0 n s.

(** The first part of [ni_dhcp6_acquire] (lines 814-854): the fresh
    config with the copied fields, the client DUID, the IA list, the
    hostname and the vendor data; with the world after the DUID derivation
    and its result.  When the DUID derivation fails the config is the one
    that is freed at that point. *)
Definition acquire_build_config (X : externals) (G : global_state) (o : oracle)
  (info : ni_dhcp6_request_t) (w : world) : ni_dhcp6_config_t * world * bool :=
  (* config = xcalloc(1, sizeof( *config)) and the copied fields *)
  let config := mk_config (req_uuid info) (req_update info) (req_info_only info)
                  (req_rapid_commit info) (NI_DHCP6_PREFERRED_LIFETIME X)
                  [] [] EmptyString [] 0 [] 0 [] in
  let '(config, w, have_duid) :=
    ni_dhcp6_config_init_duid X G o config (req_clientid info) w in
  if negb have_duid then (config, w, false)
  else
    let ia_list :=
      if negb (cfg_info_only config) then
        match req_ia_list info with
        | None =>
          let ia := ni_dhcp6_ia_na_new X (dev_iaid (w_dev w)) in
          let ia := ni_dhcp6_ia_set_default_lifetimes X ia (cfg_lease_time config) in
          cfg_ia_list config ++ [ia]
        | Some l => l
        end
      else cfg_ia_list config in
    let hostname :=
      match req_hostname info with
      | Some h =>
        if (0 <? String.length h)%nat && ni_check_domain_name X h
        then string_prefix (hostname_size X - 1) h
        else cfg_hostname config
      | None => cfg_hostname config
      end in
    let '(vclass_en, vclass_data) := ni_dhcp6_config_vendor_class G in
    let '(vopts_en, vopts_data) := ni_dhcp6_config_vendor_opts G in
    (mk_config (cfg_uuid config) (cfg_update config) (cfg_info_only config)
       (cfg_rapid_commit config) (cfg_lease_time config)
       (cfg_client_duid config) ia_list hostname (cfg_user_class config)
       vclass_en vclass_data vopts_en vopts_data, w, true).

(** The three assignments of the "not yet" branch (lines 867-869). *)
Definition wait_ready (d : ni_dhcp6_device_t) : ni_dhcp6_device_t :=
  let d := set_fsm (mk_fsm NI_DHCP6_STATE_WAIT_READY (fsm_timer (dev_fsm d))
                      (fsm_fail_on_timeout (dev_fsm d))) d in
  let d := ni_dhcp6_fsm_set_timeout_msec NI_DHCP6_WAIT_READY_MSEC d in
  set_fsm (mk_fsm (fsm_state (dev_fsm d)) (fsm_timer (dev_fsm d)) true) d.

(** [ni_dhcp6_acquire]. *)
Definition ni_dhcp6_acquire (X : externals) (G : global_state) (o : oracle)
  (info : ni_dhcp6_request_t) (w : world) : world * Z :=
  let '(config, w, have_duid) := acquire_build_config X G o info w in
  if negb have_duid then (ni_dhcp6_device_config_free config w, -1)
  else
    let '(d, rv) := ni_dhcp6_device_find_lladdr G (w_dev w) in
    let w := mk_world d (w_log w) in
    if rv <? 0 then (ni_dhcp6_device_config_free config w, rv)
    else
      let w := ni_dhcp6_device_set_config (Some config) w in
      if 0 <? rv then (on_dev wait_ready w, rv)
      else ni_dhcp6_device_start X w.

(** The addresses the readiness scan looks at, and the usable ones. *)
Definition is_lladdr (a : ni_address_t) : bool :=
  (addr_family a =? AF_INET6) && addr_is_linklocal a.

Definition usable_lladdr (a : ni_address_t) : bool :=
  negb (addr_is_duplicate a) && negb (addr_is_tentative a).

Definition link_locals (addrs : list ni_address_t) : list ni_address_t :=
  filter is_lladdr addrs.

(** ** The scheduler as a transition system *)

(** The test of the first branch of [retransmit_arm]. *)
Definition first_solicit (d : ni_dhcp6_device_t) : bool :=
  fsm_state_eqb (fsm_state (dev_fsm d)) NI_DHCP6_STATE_SELECTING
  && (rt_count (dev_retrans d) =? 1).

(** The operations on the retransmission block: the two entry points
    [transmit_init] and [transmit_start], the initial delay, arming,
    advancing, disarming, the retransmit driver and the send
    [ni_dhcp6_device_transmit] itself. *)
Inductive scheduler_op : Type :=
| OpTransmitInit
| OpTransmitStart
| OpArmDelay
| OpRetransmitArm
| OpRetransmitAdvance
| OpRetransmitDisarm
| OpRetransmit
| OpTransmit.

Definition scheduler_step (X : externals) (op : scheduler_op) (o : oracle) (w : world)
  : world :=
  match op with
  | OpTransmitInit => fst (ni_dhcp6_device_transmit_init o w)
  | OpTransmitStart => fst (ni_dhcp6_device_transmit_start o w)
  | OpArmDelay => on_dev (fun d => fst (ni_dhcp6_device_transmit_arm_delay o d)) w
  | OpRetransmitArm => on_dev (ni_dhcp6_device_retransmit_arm o) w
  | OpRetransmitAdvance =>
    on_dev (fun d => fst (ni_dhcp6_device_retransmit_advance X o d)) w
  | OpRetransmitDisarm => on_dev ni_dhcp6_device_retransmit_disarm w
  | OpRetransmit => fst (ni_dhcp6_device_retransmit X o w)
  | OpTransmit => fst (ni_dhcp6_device_transmit o w)
  end.

(** A sequence of scheduler operations, each with what it observes. *)
Fixpoint scheduler_run (X : externals) (ops : list (scheduler_op * oracle)) (w : world)
  : world :=
  match ops with
  | [] => w
  | (op, o) :: rest => scheduler_run X rest (scheduler_step X op o w)
  end.

(** The exclusivity invariant of the retransmission block. *)
Definition exclusive (r : retrans_t) : Prop :=
  0 < rt_delay r -> timerisset (rt_start r) = false /\ rt_count r = 0.

(** The operations that hand a message to the send path: the send itself
    and the retransmit driver, through the FSM. *)
Definition sends (op : scheduler_op) : bool :=
  match op with
  | OpRetransmit | OpTransmit => true
  | _ => false
  end.

(** Along the run of a sequence, no message is sent while an initial delay
    is pending. *)
Fixpoint sends_after_delay (X : externals) (ops : list (scheduler_op * oracle))
  (w : world) : Prop :=
  match ops with
  | [] => True
  | (op, o) :: rest =>
    (sends op = true -> rt_delay (dev_retrans (w_dev w)) = 0)
    /\ sends_after_delay X rest (scheduler_step X op o w)
  end.

(** The frame of the FSM collaborator that the retransmit driver hands
    the device to: the FSM's retransmission rebuilds and sends the message
    and leaves [retrans.delay] as it finds it. *)
Definition fsm_keeps_delay (X : externals) : Prop :=
  forall w, rt_delay (dev_retrans (w_dev (fst (ni_dhcp6_fsm_retransmit X w))))
            = rt_delay (dev_retrans (w_dev w)).

(** A sequence that runs the retransmit driver, and with it the FSM. *)
Definition uses_driver (ops : list (scheduler_op * oracle)) : Prop :=
  exists o, In (OpRetransmit, o) ops.

(** ** Sample values

    Concrete devices, clock readings and collaborators at which the
    properties below are instantiated. *)

Definition sample_params : ni_timeout_param_t := mk_params 3 1000 (mk_range 0 0).

Definition sample_retrans : retrans_t :=
  mk_retrans 0 100 0 (mk_timeval 90 250000) Timeval.zero 1 sample_params.

Definition sample_device : ni_dhcp6_device_t :=
  mk_device (Some "eth0"%string) 3 sockaddr_unspec 0 0 (mk_buffer [] 0)
    sample_retrans (mk_fsm NI_DHCP6_STATE_SELECTING None false) false None None
    (Some 5).

Definition sample_oracle : oracle :=
  mk_oracle (mk_timeval 100 500000) (mk_timeval 100 500001) 37 0 [].

Definition sample_loaded_world : world :=
  mk_world (set_message (mk_buffer [Byte.x01; Byte.x02] 1500) sample_device) [].

(** A timeout policy that counts retries down and doubles the timeout, an
    FSM whose calls succeed without touching the device, a DUID layer that
    only ever produces the UUID-based DUID. *)
Definition sample_externals : externals :=
  mk_externals
    (fun p => if tp_nretries p =? 0 then (p, false)
              else (mk_params (tp_nretries p - 1) (2 * tp_timeout p) (tp_jitter p), true))
    (fun w => (w, 0))
    (fun w => (w, 0))
    (fun duid _ => (duid, false))
    (fun duid => (duid, -1))
    (fun duid _ _ => (duid, false))
    (fun _ uuid => Byte.x00 :: Byte.x04 :: uuid)
    (fun _ => true)
    (fun iaid => mk_ia 3 iaid 0 0)
    (fun ia lt => mk_ia (ia_type ia) (ia_iaid ia) (lt / 2) (lt * 4 / 5))
    36000 65536 256.


(** The same collaborators with an FSM that rebuilds a one byte message
    and hands it to the send path. *)
Definition sending_fsm_externals : externals :=
  mk_externals (ni_timeout_recompute sample_externals)
    (fun w => ni_dhcp6_device_transmit
                (mk_oracle Timeval.zero Timeval.zero 0 1 [])
                (on_dev (set_message (mk_buffer [Byte.x01] 1500)) w))
    (ni_dhcp6_fsm_start sample_externals)
    (ni_duid_parse_hex sample_externals)
    (ni_dhcp6_load_duid sample_externals)
    (ni_duid_init_llt sample_externals)
    (ni_duid_init_uuid sample_externals)
    (ni_check_domain_name sample_externals)
    (ni_dhcp6_ia_na_new sample_externals)
    (ni_dhcp6_ia_set_default_lifetimes sample_externals)
    36000 65536 256.




(** A device waiting for its initial delay. *)
Definition delayed_device : ni_dhcp6_device_t :=
  set_message (mk_buffer [Byte.x01] 1500)
    (set_retrans (mk_retrans 1000 100 0 Timeval.zero Timeval.zero 0 sample_params)
       sample_device).

(** The interface of boundary scenario 2: [eth0], index 3, VLAN tag 7, no
    hardware address; and the one of scenario 1, with an 8 byte address. *)
Definition eth0_netdev : ni_netdev_t :=
  mk_netdev "eth0" 3 ARPHRD_ETHER [] (Some 7) true [].

Definition mac8_netdev : ni_netdev_t :=
  mk_netdev "eth0" 3 ARPHRD_ETHER
    [Byte.x02; Byte.x11; Byte.x22; Byte.x33; Byte.x44; Byte.x55; Byte.x66; Byte.x77]
    None true [].

(** Link-local addresses in the three states of duplicate address
    detection, and interfaces that carry them. *)
Definition fe80_1 : ni_sockaddr_t :=
  mk_sockaddr AF_INET6
    [Byte.xfe; Byte.x80; Byte.x00; Byte.x00; Byte.x00; Byte.x00; Byte.x00; Byte.x00;
     Byte.x00; Byte.x00; Byte.x00; Byte.x00; Byte.x00; Byte.x00; Byte.x00; Byte.x01].

Definition usable_addr : ni_address_t := mk_address AF_INET6 fe80_1 true false false.
Definition tentative_addr : ni_address_t := mk_address AF_INET6 fe80_1 true false true.
Definition duplicate_addr : ni_address_t := mk_address AF_INET6 fe80_1 true true false.

Definition sample_dhconf : ni_config_dhcp6 :=
  mk_dhconf None 0 [] 0 [] ["fe80::1"%string].

Definition global_with (addrs : list ni_address_t) : global_state :=
  mk_global (Some [mk_netdev "eth0" 3 ARPHRD_ETHER [] None true addrs]) sample_dhconf.

Definition sample_request : ni_dhcp6_request_t :=
  mk_request [] 0 false false None (Some "host"%string) None.

(** A freshly created device in [INIT], and the world it starts in. *)
Definition init_device : ni_dhcp6_device_t :=
  set_fsm (mk_fsm NI_DHCP6_STATE_INIT None false)
    (set_retrans retrans_zero sample_device).

Definition init_world : world := mk_world init_device [].

(** What the scan keeps in [rv] after an address that is not usable. *)
Definition lladdr_status (rv : Z) (a : ni_address_t) : Z :=
  if addr_is_duplicate a then -1 else 1.

(** ** The rest of the device handle (device.c, lines 100-313)

    The fields of [ni_dhcp6_device_t] that the functions above do not
    touch: the reference count, the creation time, the request and the
    best offer.  A handle is the device record together with them. *)

Record best_offer_t : Type := mk_best_offer {
  bo_weight : Z;
  bo_lease : option lease_ptr
}.

Record ni_dhcp6_handle_t : Type := mk_handle {
  h_dev : ni_dhcp6_device_t;
  h_users : Z;
  h_start_time : timeval;
  h_request : option ni_dhcp6_request_t;
  h_best_offer : best_offer_t
}.

(** The calls that the handle functions make besides those of [effect]. *)
Inductive handle_effect : Type :=
| HDev (e : effect)
| HRequestFree (r : ni_dhcp6_request_t)
| HLeaseFileRemove (ifname : option string) (type family : Z)
| HTimerCancel (msec : Z)
| HBufferDestroy
| HDeviceFree (p : Z).

Record hworld : Type := mk_hworld {
  hw_handle : ni_dhcp6_handle_t;
  hw_log : list handle_effect
}.

Definition with_dev (d : ni_dhcp6_device_t) (h : ni_dhcp6_handle_t) : ni_dhcp6_handle_t :=
  mk_handle d (h_users h) (h_start_time h) (h_request h) (h_best_offer h).

Definition with_users (n : Z) (h : ni_dhcp6_handle_t) : ni_dhcp6_handle_t :=
  mk_handle (h_dev h) n (h_start_time h) (h_request h) (h_best_offer h).

Definition with_request (r : option ni_dhcp6_request_t) (h : ni_dhcp6_handle_t)
  : ni_dhcp6_handle_t :=
  mk_handle (h_dev h) (h_users h) (h_start_time h) r (h_best_offer h).

Definition with_best_offer (b : best_offer_t) (h : ni_dhcp6_handle_t) : ni_dhcp6_handle_t :=
  mk_handle (h_dev h) (h_users h) (h_start_time h) (h_request h) b.

Definition set_ifname (n : option string) (d : ni_dhcp6_device_t) : ni_dhcp6_device_t :=
  mk_device n (dev_link_ifindex d) (dev_link_addr d) (dev_iaid d)
    (dev_xid d) (dev_message d) (dev_retrans d) (dev_fsm d) (dev_failed d) (dev_config d)
    (dev_lease d) (dev_mcast_sock d).

Definition set_link_ifindex (i : Z) (d : ni_dhcp6_device_t) : ni_dhcp6_device_t :=
  mk_device (dev_ifname d) i (dev_link_addr d) (dev_iaid d)
    (dev_xid d) (dev_message d) (dev_retrans d) (dev_fsm d) (dev_failed d) (dev_config d)
    (dev_lease d) (dev_mcast_sock d).

Definition set_iaid (i : Z) (d : ni_dhcp6_device_t) : ni_dhcp6_device_t :=
  mk_device (dev_ifname d) (dev_link_ifindex d) (dev_link_addr d) i
    (dev_xid d) (dev_message d) (dev_retrans d) (dev_fsm d) (dev_failed d) (dev_config d)
    (dev_lease d) (dev_mcast_sock d).

Definition hemit (e : handle_effect) (hw : hworld) : hworld :=
  mk_hworld (hw_handle hw) (e :: hw_log hw).

Definition on_handle (f : ni_dhcp6_handle_t -> ni_dhcp6_handle_t) (hw : hworld) : hworld :=
  mk_hworld (f (hw_handle hw)) (hw_log hw).

Definition on_handle_dev (f : ni_dhcp6_device_t -> ni_dhcp6_device_t) (hw : hworld) : hworld :=
  on_handle (fun h => with_dev (f (h_dev h)) h) hw.

(** Run a function of the device and its effect log on a handle. *)
Definition lift_world (f : world -> world) (hw : hworld) : hworld :=
  let w := f (mk_world (h_dev (hw_handle hw)) []) in
  mk_hworld (with_dev (w_dev w) (hw_handle hw)) (map HDev (w_log w) ++ hw_log hw).

(** [ni_dhcp6_device_set_request]. *)
Definition ni_dhcp6_device_set_request (request : option ni_dhcp6_request_t) (hw : hworld)
  : hworld :=
  let hw := match h_request (hw_handle hw) with
            | Some old => hemit (HRequestFree old) hw
            | None => hw
            end in
  on_handle (with_request request) hw.

(** Modelled from the spec: [ni_buffer_destroy] (buffer code): the buffer
    is "fully released on teardown". *)
Definition ni_dhcp6_device_drop_buffer (hw : hworld) : hworld :=
  on_handle_dev (set_message (mk_buffer [] 0)) (hemit HBufferDestroy hw).

(** [ni_dhcp6_device_drop_lease]; [L] gives the [type] and [family] fields
    of the lease object behind a pointer. *)
Definition ni_dhcp6_device_drop_lease (L : lease_ptr -> Z * Z) (hw : hworld) : hworld :=
  match dev_lease (h_dev (hw_handle hw)) with
  | Some lease =>
    let hw := hemit (HLeaseFileRemove (dev_ifname (h_dev (hw_handle hw)))
                       (fst (L lease)) (snd (L lease))) hw in
    let hw := hemit (HDev (EffLeaseFree (Some lease))) hw in
    on_handle_dev (set_lease None) hw
  | None => hw
  end.

(** [ni_dhcp6_device_drop_best_offer]. *)
Definition ni_dhcp6_device_drop_best_offer (hw : hworld) : hworld :=
  let hw := on_handle (fun h => with_best_offer
                                  (mk_best_offer (-1) (bo_lease (h_best_offer h))) h) hw in
  let hw := match bo_lease (h_best_offer (hw_handle hw)) with
            | Some lease => hemit (HDev (EffLeaseFree (Some lease))) hw
            | None => hw
            end in
  on_handle (fun h => with_best_offer (mk_best_offer (bo_weight (h_best_offer h)) None) h) hw.

(** [ni_dhcp6_device_close]. *)
Definition ni_dhcp6_device_close (hw : hworld) : hworld :=
  let hw := lift_world ni_dhcp6_mcast_socket_close hw in
  match fsm_timer (dev_fsm (h_dev (hw_handle hw))) with
  | Some msec =>
    let hw := hemit (HTimerCancel msec) hw in
    on_handle_dev (fun d => set_fsm (mk_fsm (fsm_state (dev_fsm d)) None
                                       (fsm_fail_on_timeout (dev_fsm d))) d) hw
  | None => hw
  end.

(** [ni_dhcp6_device_stop] (the active [#else] branch). *)
Definition ni_dhcp6_device_stop (L : lease_ptr -> Z * Z) (hw : hworld) : hworld :=
  let hw := ni_dhcp6_device_drop_lease L hw in
  let hw := ni_dhcp6_device_drop_best_offer hw in
  let hw := on_handle_dev (fun d => set_fsm (mk_fsm NI_DHCP6_STATE_INIT
                                               (fsm_timer (dev_fsm d))
                                               (fsm_fail_on_timeout (dev_fsm d))) d) hw in
  let hw := ni_dhcp6_device_close hw in
  let hw := lift_world (ni_dhcp6_device_set_config None) hw in
  ni_dhcp6_device_set_request None hw.

(** ** Device registry and reference counts (device.c, lines 100-226) *)

(** The list [ni_dhcp6_active]: the live handles in list order, each with
    the address it was allocated at. *)
Definition registry : Type := list (Z * ni_dhcp6_handle_t).

Record system : Type := mk_system {
  sys_active : registry;
  sys_log : list handle_effect
}.

(** A zeroed [struct sockaddr_storage]. *)
Definition sockaddr_zeroed : ni_sockaddr_t :=
  mk_sockaddr AF_UNSPEC (repeat Byte.x00 16).

(** [ni_dhcp6_device_new]: [p] is the address that [xcalloc] returns;
    the return value is [p]. *)
Definition ni_dhcp6_device_new (G : global_state) (tmp0 : Z) (o : oracle) (p : Z)
  (ifname : option string) (link_ifindex : Z) (sys : system) : system :=
  (* dev = xcalloc(1, sizeof( *dev)) with users, ifname and ifindex set *)
  let d := mk_device ifname link_ifindex sockaddr_zeroed 0 0 (mk_buffer [] 0)
             retrans_zero (mk_fsm NI_DHCP6_STATE_INIT None false) false None None None in
  let d := set_iaid (snd (ni_dhcp6_device_iaid (gs_netconfig G) tmp0 d (dev_iaid d))) d in
  let h := mk_handle d 1 (o_now o) None (mk_best_offer 0 None) in
  mk_system (sys_active sys ++ [(p, h)]) (sys_log sys).


(** Dereferencing a device pointer. *)
Definition deref (p : Z) (reg : registry) : option ni_dhcp6_handle_t :=
  option_map snd (find (fun e => fst e =? p) reg).

Fixpoint store (p : Z) (h : ni_dhcp6_handle_t) (reg : registry) : registry :=
  match reg with
  | [] => []
  | (q, h') :: rest => if q =? p then (q, h) :: rest else (q, h') :: store p h rest
  end.

(** The loop that splices a device out of [ni_dhcp6_active]. *)
Fixpoint splice_out (p : Z) (reg : registry) : registry :=
  match reg with
  | [] => []
  | (q, h) :: rest => if q =? p then rest else (q, h) :: splice_out p rest
  end.

(** [ni_dhcp6_device_free]; [None] is a failed [ni_assert] or a pointer
    to no live device. *)
Definition ni_dhcp6_device_free (L : lease_ptr -> Z * Z) (p : Z) (sys : system)
  : option system :=
  match deref p (sys_active sys) with
  | None => None
  | Some h =>
    if negb (h_users h =? 0) then None
    else
      let hw := mk_hworld h (sys_log sys) in
      let hw := ni_dhcp6_device_drop_buffer hw in
      let hw := ni_dhcp6_device_drop_lease L hw in
      let hw := ni_dhcp6_device_drop_best_offer hw in
      let hw := ni_dhcp6_device_close hw in
      let hw := lift_world (ni_dhcp6_device_set_config None) hw in
      let hw := ni_dhcp6_device_set_request None hw in
      let hw := on_handle_dev (fun d => set_link_ifindex 0 (set_ifname None d)) hw in
      Some (mk_system (splice_out p (sys_active sys)) (HDeviceFree p :: hw_log hw))
  end.

(** [ni_dhcp6_device_get]. *)
Definition ni_dhcp6_device_get (p : Z) (sys : system) : option system :=
  match deref p (sys_active sys) with
  | None => None
  | Some h =>
    if h_users h =? 0 then None
    else Some (mk_system (store p (with_users (h_users h + 1) h) (sys_active sys))
                 (sys_log sys))
  end.

(** [ni_dhcp6_device_put]. *)
Definition ni_dhcp6_device_put (L : lease_ptr -> Z * Z) (p : Z) (sys : system)
  : option system :=
  match deref p (sys_active sys) with
  | None => None
  | Some h =>
    if h_users h =? 0 then None
    else
      let sys := mk_system (store p (with_users (h_users h - 1) h) (sys_active sys))
                   (sys_log sys) in
      if h_users h - 1 =? 0 then ni_dhcp6_device_free L p sys else Some sys
  end.

(** ** Event adapter (device.c, lines 1034-1106) *)

(** The events that device.c distinguishes; any other value of
    [ni_event_t] takes the [default] branch. *)
Inductive ni_event_t : Type :=
| NI_EVENT_DEVICE_UP
| NI_EVENT_DEVICE_DOWN
| NI_EVENT_NETWORK_DOWN
| NI_EVENT_NETWORK_UP
| NI_EVENT_LINK_DOWN
| NI_EVENT_LINK_UP
| NI_EVENT_ADDRESS_UPDATE
| NI_EVENT_ADDRESS_DELETE
| NI_EVENT_OTHER (code : Z).

(** Modelled from the spec: [ni_string_eq] (util code) as the rename
    check uses it: "if ifname differs, update it". *)
Definition ni_string_eq (a : option string) (b : option string) : bool :=
  match a, b with
  | Some x, Some y => String.eqb x y
  | None, None => true
  | _, _ => false
  end.

(** [ni_dhcp6_device_event]. *)
Definition ni_dhcp6_device_event (L : lease_ptr -> Z * Z) (hw : hworld)
  (ifp : ni_netdev_t) (event : ni_event_t) : hworld :=
  match event with
  | NI_EVENT_DEVICE_UP =>
    if negb (ni_string_eq (dev_ifname (h_dev (hw_handle hw))) (Some (nd_name ifp)))
    then on_handle_dev (set_ifname (Some (nd_name ifp))) hw
    else hw
  | NI_EVENT_DEVICE_DOWN => ni_dhcp6_device_stop L hw
  | _ => hw
  end.

Fixpoint bytes_eqb (a b : list byte) : bool :=
  match a, b with
  | [], [] => true
  | x :: a', y :: b' => Byte.eqb x y && bytes_eqb a' b'
  | _, _ => false
  end.



(** ** Server preference (device.c, lines 1231-1259) *)

(** [ni_server_preference_t]. *)
Record ni_server_preference_t : Type := mk_preference {
  pref_serverid : list byte;
  pref_address : ni_sockaddr_t;
  pref_weight : Z
}.

(** The test of one entry in the loop of
    [ni_dhcp6_config_server_preference]; [None] is a NULL argument,
    [ni_opaque_eq] and [IN6_ARE_ADDR_EQUAL] compare the bytes. *)
Definition preference_matches (addr duid : option (list byte))
  (pref : ni_server_preference_t) : bool :=
  let m := false in
  let m := if 0 <? duid_len (pref_serverid pref) then
             match duid with
             | Some d => bytes_eqb d (pref_serverid pref)
             | None => false
             end
           else m in
  let m := if ss_family (pref_address pref) =? AF_INET6 then
             match addr with
             | Some a => bytes_eqb a (sin6_addr (pref_address pref))
             | None => false
             end
           else m in
  m.

(** [ni_dhcp6_config_server_preference] over the configured entries
    [preferred_server[0 .. num_preferred_servers)]: the boolean result and
    the content of [*weight] afterwards. *)
Fixpoint ni_dhcp6_config_server_preference (prefs : list ni_server_preference_t)
  (addr duid : option (list byte)) (weight : Z) : bool * Z :=
  match prefs with
  | [] => (false, weight)
  | pref :: rest =>
    if preference_matches addr duid pref then (true, pref_weight pref)
    else ni_dhcp6_config_server_preference rest addr duid weight
  end.

(** Collaborators whose DUID layer produces nothing. *)
Definition no_duid_externals : externals :=
  mk_externals (ni_timeout_recompute sample_externals)
    (ni_dhcp6_fsm_retransmit sample_externals)
    (ni_dhcp6_fsm_start sample_externals)
    (ni_duid_parse_hex sample_externals)
    (ni_dhcp6_load_duid sample_externals)
    (ni_duid_init_llt sample_externals)
    (fun duid _ => duid)
    (ni_check_domain_name sample_externals)
    (ni_dhcp6_ia_na_new sample_externals)
    (ni_dhcp6_ia_set_default_lifetimes sample_externals)
    36000 65536 256.

(** A device that holds a config from an earlier acquire. *)
Definition old_config : ni_dhcp6_config_t :=
  mk_config [] 0 true false 0 [Byte.x01] [] EmptyString [] 0 [] 0 [].

Definition configured_world : world :=
  mk_world (set_config (Some old_config) init_device) [].

(** The interface with its link down. *)
Definition global_link_down : global_state :=
  mk_global (Some [mk_netdev "eth0" 3 ARPHRD_ETHER [] None false [usable_addr]])
    sample_dhconf.

(** An interface that the sibling loop of [ni_dhcp6_generate_duid] would
    try: not the device's own, of an eligible ARP type, with a hardware
    address. *)
Definition llt_candidate (ifindex : Z) (ifp : ni_netdev_t) : bool :=
  negb (nd_ifindex ifp =? ifindex)
  && ((nd_arp_type ifp =? ARPHRD_ETHER) || (nd_arp_type ifp =? ARPHRD_IEEE802)
      || (nd_arp_type ifp =? ARPHRD_INFINIBAND))
  && negb (hwaddr_len ifp =? 0).

(** The DUID as it stands after the preferred and the configured default
    have been tried. *)
Definition duid_after_preferred (X : externals) (G : global_state)
  (duid : list byte) (preferred : option string) : list byte :=
  let duid := match preferred with
              | Some p => fst (ni_duid_parse_hex X duid p)
              | None => duid
              end in
  if duid_len duid =? 0 then ni_dhcp6_config_default_duid X G duid else duid.

(** Collaborators with a DUID store that holds a DUID, and ones whose
    parser accepts the preferred client id. *)
Definition stored_duid_externals : externals :=
  mk_externals (ni_timeout_recompute sample_externals)
    (ni_dhcp6_fsm_retransmit sample_externals)
    (ni_dhcp6_fsm_start sample_externals)
    (ni_duid_parse_hex sample_externals)
    (fun _ => ([Byte.x00; Byte.x01; Byte.xaa], 0))
    (ni_duid_init_llt sample_externals)
    (ni_duid_init_uuid sample_externals)
    (ni_check_domain_name sample_externals)
    (ni_dhcp6_ia_na_new sample_externals)
    (ni_dhcp6_ia_set_default_lifetimes sample_externals)
    36000 65536 256.

Definition parsing_externals : externals :=
  mk_externals (ni_timeout_recompute sample_externals)
    (ni_dhcp6_fsm_retransmit sample_externals)
    (ni_dhcp6_fsm_start sample_externals)
    (fun _ hex => (list_byte_of_string hex, true))
    (ni_dhcp6_load_duid sample_externals)
    (ni_duid_init_llt sample_externals)
    (ni_duid_init_uuid sample_externals)
    (ni_check_domain_name sample_externals)
    (ni_dhcp6_ia_na_new sample_externals)
    (ni_dhcp6_ia_set_default_lifetimes sample_externals)
    36000 65536 256.

Definition empty_config : ni_dhcp6_config_t :=
  mk_config [] 0 false false 0 [] [] EmptyString [] 0 [] 0 [].

(** A configuration with vendor options, one of them without a name and
    one name given twice; and a list of preferred servers. *)
Definition vendor_dhconf : ni_config_dhcp6 :=
  mk_dhconf None 0 [] 4711
    [(Some "a", "1"); (None, "2"); (Some "b", "3"); (Some "a", "4"); (Some "", "5")]%string
    [].

Definition sample_duid : list byte := [Byte.x00; Byte.x03; Byte.x00; Byte.x01].

Definition sample_preferences : list ni_server_preference_t :=
  [mk_preference [] sockaddr_unspec 5;
   mk_preference sample_duid fe80_1 10;
   mk_preference sample_duid sockaddr_unspec 20].

(** A handle that holds a lease, an offer, a config, a request and a live
    timer; the lease store; and an FSM that ignores address events. *)
Definition busy_handle : ni_dhcp6_handle_t :=
  mk_handle
    (set_lease (Some 7)
       (set_config (Some old_config)
          (set_fsm (mk_fsm NI_DHCP6_STATE_BOUND (Some 30000) true) sample_device)))
    2 (mk_timeval 50 0) (Some sample_request) (mk_best_offer 3 (Some 8)).

Definition sample_lease_store (p : lease_ptr) : Z * Z := (2, AF_INET6).


(** A system with two devices, and the invariant that every live device
    is referenced. *)
Definition idle_handle (ifindex : Z) : ni_dhcp6_handle_t :=
  mk_handle (set_link_ifindex ifindex init_device) 1 Timeval.zero None
    (mk_best_offer 0 None).

Definition sample_system : system :=
  mk_system [(100, idle_handle 3); (200, with_users 2 (idle_handle 4))] [].

Definition all_referenced (reg : registry) : Prop :=
  Forall (fun e => 1 <= h_users (snd e)) reg.

(** A system whose first device has lost its last reference. *)
Definition orphan_system : system :=
  mk_system [(100, with_users 0 (idle_handle 3)); (200, with_users 2 (idle_handle 4))] [].

(** A device whose exchange started at clock reading 1.0, and a clock
    reading so late that the elapsed hundredths of a second no longer fit
    a [long]. *)
Definition epoch_started_device : ni_dhcp6_device_t :=
  set_retrans (mk_retrans 0 100 0 (mk_timeval 1 0) Timeval.zero 1 sample_params)
    sample_device.

Definition far_future_oracle : oracle :=
  mk_oracle (mk_timeval 92233720368547760 0) (mk_timeval 92233720368547760 0) 0 0 [].


(** The same collaborators with an FSM whose retransmission schedules an
    initial delay of its own. *)
Definition delaying_fsm_externals : externals :=
  mk_externals (ni_timeout_recompute sample_externals)
    (fun w => (on_dev (fun d =>
                         let r := dev_retrans d in
                         set_retrans (mk_retrans 500 (rt_jitter r) (rt_duration r)
                                        (rt_start r) (rt_deadline r) (rt_count r)
                                        (rt_params r)) d) w, 0))
    (ni_dhcp6_fsm_start sample_externals)
    (ni_duid_parse_hex sample_externals)
    (ni_dhcp6_load_duid sample_externals)
    (ni_duid_init_llt sample_externals)
    (ni_duid_init_uuid sample_externals)
    (ni_check_domain_name sample_externals)
    (ni_dhcp6_ia_na_new sample_externals)
    (ni_dhcp6_ia_set_default_lifetimes sample_externals)
    36000 65536 256.

(** A clock and socket reading under which a one byte message is sent in
    full. *)
Definition sent_oracle : oracle :=
  mk_oracle (mk_timeval 100 500000) (mk_timeval 100 500001) 37 1 [].

(** * Properties *)

(** ** Timer macros *)

Lemma timerisset_false_iff (t : timeval) :
  timerisset t = false <-> t = Timeval.zero.
Proof.
  destruct t as [s u]; unfold timerisset, Timeval.zero; simpl.
  rewrite orb_false_iff, !negb_false_iff, !Z.eqb_eq.
  split; [intros [-> ->]; reflexivity | intros H; inversion H; auto].
Qed.

Lemma wrap_long_small (z : Z) : - 2 ^ 63 <= z < 2 ^ 63 -> wrap_long z = z.
Proof. intros H. unfold wrap_long. rewrite Z.mod_small by lia. lia. Qed.

(** Without overflow [timersub] is the macro's arithmetic on integers. *)
Lemma timersub_exact (a b : timeval) :
  normalized a -> normalized b ->
  - 2 ^ 63 < tv_sec a - tv_sec b < 2 ^ 63 ->
  timersub a b
  = if tv_usec a - tv_usec b <? 0
    then mk_timeval (tv_sec a - tv_sec b - 1) (tv_usec a - tv_usec b + 1000000)
    else mk_timeval (tv_sec a - tv_sec b) (tv_usec a - tv_usec b).
Proof.
  unfold normalized, timersub; intros Ha Hb Hs.
  rewrite (@wrap_long_small (tv_sec a - tv_sec b)) by lia.
  rewrite (@wrap_long_small (tv_usec a - tv_usec b)) by lia.
  destruct (tv_usec a - tv_usec b <? 0) eqn:E; [| reflexivity].
  apply Z.ltb_lt in E.
  rewrite !wrap_long_small by lia. reflexivity.
Qed.

Lemma timersub_normalized (a b : timeval) :
  normalized a -> normalized b ->
  - 2 ^ 63 < tv_sec a - tv_sec b < 2 ^ 63 ->
  normalized (timersub a b).
Proof.
  intros Ha Hb Hs. rewrite timersub_exact by assumption.
  unfold normalized in *.
  destruct (tv_usec a - tv_usec b <? 0) eqn:E; simpl;
    [apply Z.ltb_lt in E | apply Z.ltb_ge in E]; lia.
Qed.

Lemma timersub_to_usec (a b : timeval) :
  normalized a -> normalized b ->
  - 2 ^ 63 < tv_sec a - tv_sec b < 2 ^ 63 ->
  to_usec (timersub a b) = to_usec a - to_usec b.
Proof.
  intros Ha Hb Hs. rewrite timersub_exact by assumption.
  unfold to_usec.
  destruct (tv_usec a - tv_usec b <? 0); simpl; lia.
Qed.

Lemma timercmp_gt_to_usec (a b : timeval) :
  normalized a -> normalized b ->
  (timercmp_gt a b = true <-> to_usec b < to_usec a).
Proof.
  unfold normalized, timercmp_gt, to_usec; intros Ha Hb.
  destruct (tv_sec a =? tv_sec b) eqn:Es;
    [apply Z.eqb_eq in Es | apply Z.eqb_neq in Es];
    rewrite Z.ltb_lt; lia.
Qed.

Lemma centiseconds_of_normalized (t : timeval) :
  normalized t ->
  tv_sec t * 100 + Z.quot (tv_usec t) 10000 = to_usec t / 10000.
Proof.
  unfold normalized, to_usec; intros Ht.
  rewrite Z.quot_div_nonneg by lia.
  replace (tv_sec t * 1000000) with (tv_sec t * 100 * 10000) by lia.
  rewrite Z.div_add_l by lia. reflexivity.
Qed.

(** ** Uptime *)

Section Uptime.

Variables (o : oracle) (d : ni_dhcp6_device_t) (clamp : Z).

Let now := o_now o.
Let start := rt_start (dev_retrans d).

Hypothesis now_normalized : normalized now.
Hypothesis start_normalized : normalized start.
Hypothesis clamp_unsigned : 0 <= clamp < 2 ^ 32.

Lemma uptime_unset_or_not_later :
  timerisset start && timercmp_gt now start = false ->
  ni_dhcp6_device_uptime o d clamp = 0.
Proof.
  intros H. unfold ni_dhcp6_device_uptime. fold now start. rewrite H.
  destruct (0 <? clamp) eqn:E.
  - reflexivity.
  - apply Z.ltb_ge in E. replace clamp with 0 by lia. reflexivity.
Qed.

(** The elapsed time fits a [long] when its hundredths of a second do. *)
Lemma elapsed_seconds_fit :
  to_usec start < to_usec now ->
  (to_usec now - to_usec start) / 10000 <= LONG_MAX ->
  - 2 ^ 63 < tv_sec now - tv_sec start < 2 ^ 63.
Proof.
  unfold LONG_MAX, to_usec. intros Hgt Hfit.
  pose proof now_normalized as Hn. pose proof start_normalized as Hs.
  unfold normalized in Hn, Hs.
  pose proof (Z.div_mod
                (tv_sec now * 1000000 + tv_usec now
                 - (tv_sec start * 1000000 + tv_usec start)) 10000) as Hdm.
  pose proof (Z.mod_pos_bound
                (tv_sec now * 1000000 + tv_usec now
                 - (tv_sec start * 1000000 + tv_usec start)) 10000) as Hmod.
  lia.
Qed.

Lemma uptime_elapsed :
  timerisset start && timercmp_gt now start = true ->
  (to_usec now - to_usec start) / 10000 <= LONG_MAX ->
  ni_dhcp6_device_uptime o d clamp
  = Z.min ((to_usec now - to_usec start) / 10000) clamp.
Proof.
  intros H Hfit. unfold ni_dhcp6_device_uptime. fold now start. rewrite H.
  apply andb_true_iff in H as [_ Hgt].
  apply timercmp_gt_to_usec in Hgt; auto.
  pose proof (elapsed_seconds_fit Hgt Hfit) as Hsec.
  pose proof (timersub_normalized now_normalized start_normalized Hsec) as Hnorm.
  pose proof (timersub_to_usec now_normalized start_normalized Hsec) as Husec.
  pose proof (centiseconds_of_normalized Hnorm) as Hcs.
  rewrite Husec in Hcs.
  assert (Hpos : 0 <= (to_usec now - to_usec start) / 10000)
    by (apply Z.div_pos; lia).
  assert (Hq : 0 <= Z.quot (tv_usec (timersub now start)) 10000)
    by (apply Z.quot_pos; unfold normalized in Hnorm; lia).
  assert (Hs0 : 0 <= tv_sec (timersub now start)).
  { unfold to_usec in Husec at 1. unfold normalized in Hnorm. lia. }
  unfold LONG_MAX in Hfit.
  rewrite (@wrap_long_small (tv_sec (timersub now start) * 100)) by lia.
  rewrite wrap_long_small by lia.
  rewrite Hcs.
  destruct (_ <? clamp) eqn:E;
    [apply Z.ltb_lt in E | apply Z.ltb_ge in E];
    rewrite Z.mod_small by lia; lia.
Qed.

End Uptime.

(** C8 as stated does not hold for every current time: with the start at
    1.0 and the clock at 92233720368547760.0 the product
    [delta.tv_sec * 100] leaves the range of [long]; the code returns 92,
    which is neither the elapsed hundredths of a second nor within the
    clamp of 50. *)
Lemma uptime_overflow_counterexample :
  ni_dhcp6_device_uptime far_future_oracle epoch_started_device 50 = 92
  /\ ~ (ni_dhcp6_device_uptime far_future_oracle epoch_started_device 50 <= 50)
  /\ (to_usec (o_now far_future_oracle)
      - to_usec (rt_start (dev_retrans epoch_started_device))) / 10000
     = 9223372036854775900
  /\ ni_dhcp6_device_uptime far_future_oracle epoch_started_device 50000 = 92.
Proof.
  split; [vm_compute; reflexivity |].
  split; [vm_compute; intros H; apply H; reflexivity |].
  split; vm_compute; reflexivity.
Qed.

(** C8 (amended): [ni_dhcp6_device_uptime] returns 0 when [retrans.start]
    is unset or the clock is not later than it; otherwise, as long as the
    elapsed hundredths of a second fit a [long], it returns the time
    elapsed since [retrans.start] in hundredths of a second
    ([tv_sec * 100 + tv_usec / 10000] of the difference), never more than
    the caller's clamp; for normalised clock readings and an
    [unsigned int] clamp. *)
Theorem uptime_centiseconds_clamped (o : oracle) (d : ni_dhcp6_device_t) (clamp : Z) :
  normalized (o_now o) -> normalized (rt_start (dev_retrans d)) ->
  0 <= clamp < 2 ^ 32 ->
  let now := o_now o in
  let start := rt_start (dev_retrans d) in
  let delta := timersub now start in
  let up := ni_dhcp6_device_uptime o d clamp in
  (timerisset start = false -> up = 0)
  /\ (timercmp_gt now start = false -> up = 0)
  /\ ((to_usec now - to_usec start) / 10000 <= LONG_MAX ->
      0 <= up <= clamp
      /\ (timerisset start = true -> timercmp_gt now start = true ->
          up = Z.min (tv_sec delta * 100 + Z.quot (tv_usec delta) 10000) clamp
          /\ up = Z.min ((to_usec now - to_usec start) / 10000) clamp)).
Proof.
  intros Hn Hs Hc now start delta up.
  subst now start delta up.
  set (now := o_now o) in *. set (start := rt_start (dev_retrans d)) in *.
  assert (Hzero : timerisset start && timercmp_gt now start = false ->
            ni_dhcp6_device_uptime o d clamp = 0)
    by (apply uptime_unset_or_not_later; exact Hc).
  split; [| split].
  - intros H. apply Hzero. rewrite H. reflexivity.
  - intros H. apply Hzero. rewrite H. apply andb_false_r.
  - intros Hfit.
    assert (Hup : timerisset start && timercmp_gt now start = true ->
              ni_dhcp6_device_uptime o d clamp
              = Z.min ((to_usec now - to_usec start) / 10000) clamp)
      by (intros E; apply uptime_elapsed; auto).
    split.
    + destruct (timerisset start && timercmp_gt now start) eqn:E.
      * rewrite (Hup eq_refl).
        apply andb_true_iff in E as [_ E].
        apply timercmp_gt_to_usec in E; auto.
        assert (0 <= (to_usec now - to_usec start) / 10000)
          by (apply Z.div_pos; lia).
        lia.
      * rewrite (Hzero eq_refl). lia.
    + intros H1 H2.
      assert (E : timerisset start && timercmp_gt now start = true)
        by (rewrite H1, H2; reflexivity).
      assert (Hgt : to_usec start < to_usec now)
        by (apply timercmp_gt_to_usec; auto).
      pose proof (@elapsed_seconds_fit o d Hn Hs Hgt Hfit) as Hsec.
      rewrite centiseconds_of_normalized
        by (apply timersub_normalized; auto).
      rewrite timersub_to_usec by auto.
      split; apply (Hup E).
Qed.

Lemma uptime_centiseconds_clamped_witness :
  0 <= ni_dhcp6_device_uptime sample_oracle sample_device 50000 <= 50000
  /\ ni_dhcp6_device_uptime sample_oracle sample_device 50000 = 1025.
Proof.
  assert (H1 : normalized (o_now sample_oracle)) by (unfold normalized; simpl; lia).
  assert (H2 : normalized (rt_start (dev_retrans sample_device)))
    by (unfold normalized; simpl; lia).
  assert (H3 : 0 <= 50000 < 2 ^ 32) by lia.
  destruct (uptime_centiseconds_clamped sample_oracle sample_device H1 H2 H3)
    as (_ & _ & He).
  destruct He as [Hb He]; [vm_compute; discriminate |].
  split; [exact Hb |].
  destruct (He eq_refl eq_refl) as [He' _]. rewrite He'. reflexivity.
Defined.

(** ** Lease handle *)

Lemma lease_eqb_eq (a b : option lease_ptr) : lease_eqb a b = true <-> a = b.
Proof.
  destruct a as [p|], b as [q|]; simpl; try (split; congruence).
  rewrite Z.eqb_eq. split; congruence.
Qed.

Lemma lease_eqb_refl (a : option lease_ptr) : lease_eqb a a = true.
Proof. apply lease_eqb_eq. reflexivity. Qed.

Lemma set_lease_installs (lease : option lease_ptr) (w : world) :
  dev_lease (w_dev (ni_dhcp6_device_set_lease lease w)) = lease.
Proof.
  unfold ni_dhcp6_device_set_lease.
  destruct (lease_eqb (dev_lease (w_dev w)) lease) eqn:E; simpl.
  - apply lease_eqb_eq in E. exact E.
  - reflexivity.
Qed.

(** C10: [ni_dhcp6_device_set_lease] called with the lease the device
    already holds changes nothing and frees nothing; called with another
    pointer it frees the prior lease and installs the new one; applying it
    twice with the same argument equals applying it once. *)
Theorem set_lease_identity_and_idempotent (lease : option lease_ptr) (w : world) :
  (dev_lease (w_dev w) = lease -> ni_dhcp6_device_set_lease lease w = w)
  /\ (dev_lease (w_dev w) <> lease ->
      ni_dhcp6_device_set_lease lease w
      = mk_world (set_lease lease (w_dev w))
          (EffLeaseFree (dev_lease (w_dev w)) :: w_log w))
  /\ ni_dhcp6_device_set_lease lease (ni_dhcp6_device_set_lease lease w)
     = ni_dhcp6_device_set_lease lease w.
Proof.
  split; [| split].
  - intros H. unfold ni_dhcp6_device_set_lease.
    rewrite H, lease_eqb_refl. reflexivity.
  - intros H. unfold ni_dhcp6_device_set_lease.
    destruct (lease_eqb (dev_lease (w_dev w)) lease) eqn:E.
    + apply lease_eqb_eq in E. contradiction.
    + reflexivity.
  - unfold ni_dhcp6_device_set_lease at 1.
    rewrite set_lease_installs, lease_eqb_refl. reflexivity.
Qed.

Lemma set_lease_identity_and_idempotent_witness :
  ni_dhcp6_device_set_lease None (mk_world sample_device []) = mk_world sample_device []
  /\ w_log (ni_dhcp6_device_set_lease (Some 7) (mk_world sample_device []))
     = [EffLeaseFree None].
Proof.
  destruct (set_lease_identity_and_idempotent None (mk_world sample_device []))
    as (Hsame & _ & _).
  destruct (set_lease_identity_and_idempotent (Some 7) (mk_world sample_device []))
    as (_ & Hdiff & _).
  split.
  - apply Hsame. reflexivity.
  - rewrite Hdiff by discriminate. reflexivity.
Defined.

(** ** Send path *)

Section Transmit.

Variables (o : oracle) (w : world).

Let cnt := ni_buffer_count (dev_message (w_dev w)).
Let payload := buf_data (dev_message (w_dev w)).

Lemma transmit_empty :
  cnt = 0 -> ni_dhcp6_device_transmit o w = (w, -1).
Proof.
  intros H. unfold ni_dhcp6_device_transmit. fold cnt. rewrite H. reflexivity.
Qed.

Lemma transmit_sent :
  cnt <> 0 -> o_send_rv o = cnt ->
  ni_dhcp6_device_transmit o w
  = (mk_world (ni_dhcp6_device_clear_buffer (incr_count (w_dev w)))
       (EffSocketSend payload :: w_log w), 0).
Proof.
  intros Hne Hrv. unfold ni_dhcp6_device_transmit. fold cnt.
  apply Z.eqb_neq in Hne. rewrite Hne. simpl w_dev. fold cnt.
  assert (0 <= cnt) by (unfold cnt, ni_buffer_count; lia).
  rewrite Hrv, Z.eqb_refl.
  destruct (cnt <? 0) eqn:E; [apply Z.ltb_lt in E; lia |].
  reflexivity.
Qed.

Lemma transmit_failed :
  cnt <> 0 -> o_send_rv o < 0 \/ o_send_rv o <> cnt ->
  ni_dhcp6_device_transmit o w
  = (mk_world (ni_dhcp6_device_clear_buffer (set_mcast_sock None (w_dev w)))
       (EffMcastSocketClose :: EffSocketSend payload :: w_log w), -1).
Proof.
  intros Hne Hrv. unfold ni_dhcp6_device_transmit. fold cnt.
  apply Z.eqb_neq in Hne. rewrite Hne. simpl w_dev. fold cnt.
  assert (E : (o_send_rv o <? 0) || negb (o_send_rv o =? cnt) = true).
  { apply orb_true_iff. destruct Hrv as [Hrv | Hrv].
    - left. apply Z.ltb_lt. exact Hrv.
    - right. apply negb_true_iff, Z.eqb_neq. exact Hrv. }
  rewrite E. reflexivity.
Qed.

End Transmit.

(** C7: [ni_dhcp6_device_transmit] with a non-empty buffer hands the whole
    buffer to the socket; on a full-length send it increments
    [retrans.count] by exactly one, clears the buffer keeping its
    allocation and returns 0; on a send error or a short write it closes
    the multicast socket, clears the buffer, leaves [retrans.count] alone
    and returns -1; with an empty buffer it returns -1 and sends nothing. *)
Theorem transmit_outcomes (o : oracle) (w : world) :
  let d := w_dev w in
  let cnt := ni_buffer_count (dev_message d) in
  let w' := fst (ni_dhcp6_device_transmit o w) in
  let rv := snd (ni_dhcp6_device_transmit o w) in
  (cnt <> 0 -> o_send_rv o = cnt ->
     rv = 0
     /\ rt_count (dev_retrans (w_dev w')) = rt_count (dev_retrans d) + 1
     /\ dev_message (w_dev w') = mk_buffer [] (buf_size (dev_message d))
     /\ dev_mcast_sock (w_dev w') = dev_mcast_sock d
     /\ w_log w' = EffSocketSend (buf_data (dev_message d)) :: w_log w)
  /\ (cnt <> 0 -> o_send_rv o < 0 \/ o_send_rv o <> cnt ->
     rv = -1
     /\ rt_count (dev_retrans (w_dev w')) = rt_count (dev_retrans d)
     /\ dev_message (w_dev w') = mk_buffer [] (buf_size (dev_message d))
     /\ dev_mcast_sock (w_dev w') = None
     /\ w_log w' = EffMcastSocketClose
                     :: EffSocketSend (buf_data (dev_message d)) :: w_log w)
  /\ (cnt = 0 -> rv = -1 /\ w' = w).
Proof.
  intros d cnt w' rv. subst d cnt w' rv.
  split; [| split].
  - intros Hne Hrv. rewrite (transmit_sent o w Hne Hrv). simpl.
    repeat split.
  - intros Hne Hrv. rewrite (transmit_failed o w Hne Hrv). simpl.
    repeat split.
  - intros H. rewrite (transmit_empty o w H). simpl. split; reflexivity.
Qed.

Lemma transmit_outcomes_witness :
  snd (ni_dhcp6_device_transmit
         (mk_oracle Timeval.zero Timeval.zero 0 2 []) sample_loaded_world) = 0
  /\ snd (ni_dhcp6_device_transmit
            (mk_oracle Timeval.zero Timeval.zero 0 1 []) sample_loaded_world) = -1
  /\ snd (ni_dhcp6_device_transmit sample_oracle (mk_world sample_device [])) = -1.
Proof.
  destruct (transmit_outcomes (mk_oracle Timeval.zero Timeval.zero 0 2 [])
              sample_loaded_world) as (Hok & _ & _).
  destruct (transmit_outcomes (mk_oracle Timeval.zero Timeval.zero 0 1 [])
              sample_loaded_world) as (_ & Hshort & _).
  destruct (transmit_outcomes sample_oracle (mk_world sample_device []))
    as (_ & _ & Hempty).
  split; [| split].
  - apply Hok; [discriminate | reflexivity].
  - apply Hshort; [discriminate | right; discriminate].
  - apply Hempty. reflexivity.
Defined.

(** ** Retransmit driver *)

Section Driver.

Variables (X : externals) (o : oracle) (w : world).

Let r := dev_retrans (w_dev w).
Let p := fst (ni_timeout_recompute X (rt_params r)).
Let window :=
  ni_dhcp6_jitter_rebase (tp_timeout p) (0 - rt_jitter r) (0 + rt_jitter r).
Let rt := ni_timeout_randomize (tp_timeout p) window (o_sample o).

(** The device after a backoff step that goes on: the policy's retry
    count, the new RT drawn around the policy's timeout, the window it was
    drawn from and the new deadline; everything else as before. *)
Let advanced : ni_dhcp6_device_t :=
  set_retrans
    (mk_retrans (rt_delay r) (rt_jitter r) (rt_duration r) (rt_start r)
       (add_msec (o_arm_now o) rt) (rt_count r)
       (mk_params (tp_nretries p) rt window))
    (w_dev w).





End Driver.



(** ** Arming the retransmission *)

Lemma randomize_in_window (t s : Z) (j : ni_int_range_t) :
  range_min j <= range_max j ->
  t + range_min j <= ni_timeout_randomize t j s <= t + range_max j.
Proof. unfold ni_timeout_randomize. lia. Qed.



Lemma rebase_symmetric (msec j : Z) :
  range_min (ni_dhcp6_jitter_rebase msec (0 - j) (0 + j))
  = - range_max (ni_dhcp6_jitter_rebase msec (0 - j) (0 + j)).
Proof.
  unfold ni_dhcp6_jitter_rebase, range_min, range_max.
  replace (msec * (0 - j)) with (- (msec * (0 + j))) by lia.
  apply Z.quot_opp_l. lia.
Qed.


Lemma rebase_max_nonneg (msec lower j : Z) :
  0 <= msec -> 0 <= j ->
  0 <= range_max (ni_dhcp6_jitter_rebase msec lower (0 + j)).
Proof.
  intros Hm Hj. unfold ni_dhcp6_jitter_rebase; simpl.
  apply Z.quot_pos; nia.
Qed.

Section RebaseAndArm.

Variables (o : oracle) (lower upper : Z) (d : ni_dhcp6_device_t).

Let r := dev_retrans d.
Let window := ni_dhcp6_jitter_rebase (tp_timeout (rt_params r)) lower upper.
Let rt := ni_timeout_randomize (tp_timeout (rt_params r)) window (o_sample o).

Lemma rebase_and_arm_retrans :
  dev_retrans (rebase_and_arm o lower upper d)
  = mk_retrans (rt_delay r) (rt_jitter r) (rt_duration r) (rt_start r)
      (add_msec (o_arm_now o) rt) (rt_count r)
      (mk_params (tp_nretries (rt_params r)) rt window).
Proof. reflexivity. Qed.

Lemma rebase_and_arm_fsm :
  dev_fsm (rebase_and_arm o lower upper d) = dev_fsm d.
Proof. reflexivity. Qed.

End RebaseAndArm.



(** The three ways through [retransmit_arm], as equations. *)
Lemma retransmit_arm_unfold (o : oracle) (d : ni_dhcp6_device_t) :
  let r := dev_retrans d in
  let d0 := set_retrans (mk_retrans 0 (rt_jitter r) (rt_duration r) (o_now o)
                           (rt_deadline r) (rt_count r) (rt_params r)) d in
  ni_dhcp6_device_retransmit_arm o d
  = if tp_nretries (rt_params r) =? 0 then d0
    else if first_solicit d then
      let d1 := rebase_and_arm o 0 (0 + rt_jitter r) d0 in
      ni_dhcp6_fsm_set_timeout_msec (tp_timeout (rt_params (dev_retrans d1))) d1
    else
      let d1 := rebase_and_arm o (0 - rt_jitter r) (0 + rt_jitter r) d0 in
      if rt_duration r =? 0 then d1
      else ni_dhcp6_fsm_set_timeout_msec (rt_duration r) d1.
Proof.
  simpl. unfold ni_dhcp6_device_retransmit_arm, first_solicit. simpl.
  destruct (tp_nretries (rt_params (dev_retrans d)) =? 0); [reflexivity |].
  destruct (fsm_state_eqb _ _ && _); [reflexivity |].
  destruct (rt_duration (dev_retrans d) =? 0); reflexivity.
Qed.




(** ** Exclusivity of the retransmission state *)

Create HintDb retrans discriminated.

Lemma exclusive_no_delay (r : retrans_t) : rt_delay r = 0 -> exclusive r.
Proof. unfold exclusive. intros ->. lia. Qed.

Lemma exclusive_same (r r' : retrans_t) :
  rt_delay r' = rt_delay r -> rt_start r' = rt_start r -> rt_count r' = rt_count r ->
  exclusive r -> exclusive r'.
Proof. unfold exclusive. intros -> -> ->. auto. Qed.

#[local] Hint Resolve exclusive_no_delay exclusive_same : retrans.

Lemma arm_delay_retrans (o : oracle) (d : ni_dhcp6_device_t) :
  dev_retrans (fst (ni_dhcp6_device_transmit_arm_delay o d)) = dev_retrans d.
Proof.
  unfold ni_dhcp6_device_transmit_arm_delay.
  destruct (rt_delay (dev_retrans d) =? 0); reflexivity.
Qed.

Lemma arm_delay_result (o : oracle) (d : ni_dhcp6_device_t) :
  snd (ni_dhcp6_device_transmit_arm_delay o d) = negb (rt_delay (dev_retrans d) =? 0).
Proof.
  unfold ni_dhcp6_device_transmit_arm_delay.
  destruct (rt_delay (dev_retrans d) =? 0); reflexivity.
Qed.

Lemma retransmit_arm_delay_start (o : oracle) (d : ni_dhcp6_device_t) :
  rt_delay (dev_retrans (ni_dhcp6_device_retransmit_arm o d)) = 0
  /\ rt_start (dev_retrans (ni_dhcp6_device_retransmit_arm o d)) = o_now o.
Proof.
  rewrite retransmit_arm_unfold. cbv zeta.
  destruct (tp_nretries (rt_params (dev_retrans d)) =? 0); [split; reflexivity |].
  destruct (first_solicit d); [split; reflexivity |].
  destruct (rt_duration (dev_retrans d) =? 0); split; reflexivity.
Qed.

Lemma advance_retrans (X : externals) (o : oracle) (d : ni_dhcp6_device_t) :
  let r' := dev_retrans (fst (ni_dhcp6_device_retransmit_advance X o d)) in
  rt_delay r' = rt_delay (dev_retrans d)
  /\ rt_start r' = rt_start (dev_retrans d)
  /\ rt_count r' = rt_count (dev_retrans d).
Proof.
  unfold ni_dhcp6_device_retransmit_advance.
  destruct (ni_timeout_recompute X _) as [p []]; repeat split.
Qed.

Lemma transmit_delay (o : oracle) (w : world) :
  rt_delay (dev_retrans (w_dev (fst (ni_dhcp6_device_transmit o w))))
  = rt_delay (dev_retrans (w_dev w)).
Proof.
  unfold ni_dhcp6_device_transmit.
  destruct (ni_buffer_count _ =? 0); [reflexivity |].
  simpl w_dev. destruct (_ || _); reflexivity.
Qed.

Lemma transmit_start_delay (o : oracle) (w : world) :
  rt_delay (dev_retrans (w_dev (fst (ni_dhcp6_device_transmit_start o w)))) = 0.
Proof.
  unfold ni_dhcp6_device_transmit_start. rewrite transmit_delay. simpl.
  apply retransmit_arm_delay_start.
Qed.

Lemma transmit_init_delay (o : oracle) (w : world) :
  rt_delay (dev_retrans (w_dev (fst (ni_dhcp6_device_transmit_init o w))))
  = rt_delay (dev_retrans (w_dev w)).
Proof.
  unfold ni_dhcp6_device_transmit_init, ni_dhcp6_device_transmit_arm_delay.
  destruct (rt_delay (dev_retrans (w_dev w)) =? 0) eqn:E; [| reflexivity].
  apply Z.eqb_eq in E. rewrite E. apply transmit_start_delay.
Qed.

Section Exclusivity.

Variable X : externals.

(** No operation schedules an initial delay: afterwards [delay] is 0 or
    what it was. *)
Lemma scheduler_step_delay (op : scheduler_op) (o : oracle) (w : world) :
  (op = OpRetransmit -> fsm_keeps_delay X) ->
  rt_delay (dev_retrans (w_dev (scheduler_step X op o w))) = 0
  \/ rt_delay (dev_retrans (w_dev (scheduler_step X op o w)))
     = rt_delay (dev_retrans (w_dev w)).
Proof.
  intros Hfsm. destruct op; simpl.
  - right. apply transmit_init_delay.
  - left. apply transmit_start_delay.
  - right. rewrite arm_delay_retrans. reflexivity.
  - left. apply retransmit_arm_delay_start.
  - right. apply advance_retrans.
  - left. reflexivity.
  - specialize (Hfsm eq_refl).
    unfold ni_dhcp6_device_retransmit.
    destruct (advance_retrans X o (w_dev w)) as (H1 & _ & _).
    destruct (ni_dhcp6_device_retransmit_advance X o (w_dev w)) as [d []];
      simpl in *.
    + right. specialize (Hfsm (mk_world d (w_log w))).
      destruct (ni_dhcp6_fsm_retransmit X (mk_world d (w_log w))) as [w' rv].
      simpl in Hfsm. destruct (rv <? 0); simpl; congruence.
    + left. reflexivity.
  - right. apply transmit_delay.
Qed.

Lemma scheduler_step_exclusive (op : scheduler_op) (o : oracle) (w : world) :
  (op = OpRetransmit -> fsm_keeps_delay X) ->
  (sends op = true -> rt_delay (dev_retrans (w_dev w)) = 0) ->
  exclusive (dev_retrans (w_dev w)) ->
  exclusive (dev_retrans (w_dev (scheduler_step X op o w))).
Proof.
  intros Hfsm Hsend Hex.
  destruct (@scheduler_step_delay op o w Hfsm) as [H0 | Hsame];
    [apply exclusive_no_delay; exact H0 |].
  destruct op; simpl in *.
  - (* transmit_init *)
    unfold ni_dhcp6_device_transmit_init.
    pose proof (arm_delay_retrans o (w_dev w)) as Hr.
    destruct (ni_dhcp6_device_transmit_arm_delay o (w_dev w)) as [d []]; simpl in *.
    + rewrite Hr. exact Hex.
    + apply exclusive_no_delay, transmit_start_delay.
  - apply exclusive_no_delay, transmit_start_delay.
  - rewrite arm_delay_retrans. exact Hex.
  - apply exclusive_no_delay, retransmit_arm_delay_start.
  - destruct (advance_retrans X o (w_dev w)) as (H1 & H2 & H3).
    eauto with retrans.
  - apply exclusive_no_delay. reflexivity.
  - apply exclusive_no_delay. rewrite Hsame. apply Hsend. reflexivity.
  - apply exclusive_no_delay. rewrite Hsame. apply Hsend. reflexivity.
Qed.

Lemma scheduler_run_exclusive (ops : list (scheduler_op * oracle)) :
  (uses_driver ops -> fsm_keeps_delay X) ->
  forall w, exclusive (dev_retrans (w_dev w)) ->
            sends_after_delay X ops w ->
            exclusive (dev_retrans (w_dev (scheduler_run X ops w))).
Proof.
  induction ops as [| [op o] rest IH]; intros Hfsm w Hex Hsends; simpl.
  - exact Hex.
  - destruct Hsends as [Hsend Hrest]. apply IH.
    + intros [o' Hin]. apply Hfsm. exists o'. right. exact Hin.
    + apply scheduler_step_exclusive; [| exact Hsend | exact Hex].
      intros ->. apply Hfsm. exists o. left. reflexivity.
    + exact Hrest.
Qed.

(** Once the delay is cleared it stays cleared, whatever follows. *)
Lemma scheduler_run_no_delay (ops : list (scheduler_op * oracle)) :
  (uses_driver ops -> fsm_keeps_delay X) ->
  forall w, rt_delay (dev_retrans (w_dev w)) = 0 ->
            rt_delay (dev_retrans (w_dev (scheduler_run X ops w))) = 0.
Proof.
  induction ops as [| [op o] rest IH]; intros Hfsm w H0; simpl.
  - exact H0.
  - apply IH.
    + intros [o' Hin]. apply Hfsm. exists o'. right. exact Hin.
    + destruct (@scheduler_step_delay op o w) as [H | H].
      * intros ->. apply Hfsm. exists o. left. reflexivity.
      * exact H.
      * rewrite H. exact H0.
Qed.

End Exclusivity.

(** C3 as stated does not hold for every sequence: a device that waits for
    its initial delay satisfies the invariant, and a message sent while
    the delay is pending, by [ni_dhcp6_device_transmit] itself or by the
    retransmit driver through an FSM that rebuilds and sends, leaves
    [delay > 0] together with [count == 1].  The driver hands the whole
    device to the FSM: after a regular start, an FSM whose retransmission
    schedules a delay leaves [delay > 0] with [start] set and
    [count == 1]. *)
Lemma retransmission_exclusivity_counterexample :
  exclusive (dev_retrans delayed_device)
  /\ rt_delay (dev_retrans (w_dev (scheduler_run sample_externals
        [(OpTransmit, sent_oracle)] (mk_world delayed_device [])))) = 1000
  /\ rt_count (dev_retrans (w_dev (scheduler_run sample_externals
        [(OpTransmit, sent_oracle)] (mk_world delayed_device [])))) = 1
  /\ ~ exclusive (dev_retrans (w_dev (scheduler_run sample_externals
          [(OpTransmit, sent_oracle)] (mk_world delayed_device []))))
  /\ rt_delay (dev_retrans (w_dev (scheduler_run sending_fsm_externals
        [(OpRetransmit, sample_oracle)] (mk_world delayed_device [])))) = 1000
  /\ rt_count (dev_retrans (w_dev (scheduler_run sending_fsm_externals
        [(OpRetransmit, sample_oracle)] (mk_world delayed_device [])))) = 1
  /\ ~ exclusive (dev_retrans (w_dev (scheduler_run sending_fsm_externals
          [(OpRetransmit, sample_oracle)] (mk_world delayed_device []))))
  /\ sends_after_delay delaying_fsm_externals
       [(OpTransmitStart, sent_oracle); (OpRetransmit, sample_oracle)]
       (mk_world delayed_device [])
  /\ ~ exclusive (dev_retrans (w_dev (scheduler_run delaying_fsm_externals
          [(OpTransmitStart, sent_oracle); (OpRetransmit, sample_oracle)]
          (mk_world delayed_device [])))).
Proof.
  split; [intros _; split; reflexivity |].
  split; [reflexivity |]. split; [reflexivity |].
  split; [intros H; destruct H as [_ H]; [reflexivity | discriminate H] |].
  split; [reflexivity |]. split; [reflexivity |].
  split; [intros H; destruct H as [_ H]; [reflexivity | discriminate H] |].
  split.
  - simpl. split; [discriminate |]. split; [intros _; reflexivity | exact I].
  - intros H; destruct H as [H _]; [reflexivity | discriminate H].
Qed.

(** C3 (amended): from a retransmission state that satisfies the
    exclusivity invariant ([delay > 0] implies that [start] is not set and
    [count == 0]), every sequence of scheduler operations in which no
    message is sent while an initial delay is pending keeps the invariant;
    a sequence that runs the retransmit driver relies on the FSM's
    retransmission not to schedule a delay.  After
    [ni_dhcp6_device_retransmit_arm], [delay == 0] and [start] holds the
    clock reading, which is set whenever the clock is, and from then on
    every sequence of operations keeps [delay == 0] and with it the
    invariant.  [ni_dhcp6_device_transmit_arm_delay] reports "no delay
    scheduled" exactly when [retrans.delay == 0], leaving the device alone,
    and otherwise arms the one FSM timer to a value in
    [[delay - jitter, delay + jitter]]. *)
Theorem retransmission_exclusivity (X : externals) :
  (forall ops w,
     (uses_driver ops -> fsm_keeps_delay X) ->
     exclusive (dev_retrans (w_dev w)) ->
     sends_after_delay X ops w ->
     exclusive (dev_retrans (w_dev (scheduler_run X ops w))))
  /\ (forall o d,
        let r' := dev_retrans (ni_dhcp6_device_retransmit_arm o d) in
        rt_delay r' = 0 /\ rt_start r' = o_now o
        /\ (timerisset (o_now o) = true -> timerisset (rt_start r') = true))
  /\ (forall ops o w,
        (uses_driver ops -> fsm_keeps_delay X) ->
        let w' := scheduler_run X ops (on_dev (ni_dhcp6_device_retransmit_arm o) w) in
        rt_delay (dev_retrans (w_dev w')) = 0
        /\ exclusive (dev_retrans (w_dev w')))
  /\ (forall o d,
        let r := dev_retrans d in
        let d' := fst (ni_dhcp6_device_transmit_arm_delay o d) in
        let armed := snd (ni_dhcp6_device_transmit_arm_delay o d) in
        (armed = false <-> rt_delay r = 0)
        /\ (armed = false -> d' = d)
        /\ (armed = true -> 0 <= rt_jitter r ->
            exists t, fsm_timer (dev_fsm d') = Some t
                      /\ rt_delay r - rt_jitter r <= t <= rt_delay r + rt_jitter r
                      /\ dev_retrans d' = r)).
Proof.
  split; [| split; [| split]].
  - intros ops w Hfsm. apply scheduler_run_exclusive. exact Hfsm.
  - intros o d r'. subst r'.
    destruct (retransmit_arm_delay_start o d) as [Hd Hs].
    rewrite Hd, Hs. auto.
  - intros ops o w Hfsm w'. subst w'.
    assert (H0 : rt_delay (dev_retrans (w_dev (scheduler_run X ops
                    (on_dev (ni_dhcp6_device_retransmit_arm o) w)))) = 0).
    { apply scheduler_run_no_delay; [exact Hfsm |].
      apply retransmit_arm_delay_start. }
    split; [exact H0 | apply exclusive_no_delay; exact H0].
  - intros o d r d' armed. subst r d' armed.
    unfold ni_dhcp6_device_transmit_arm_delay.
    destruct (rt_delay (dev_retrans d) =? 0) eqn:E;
      [apply Z.eqb_eq in E | apply Z.eqb_neq in E]; simpl.
    + repeat split; auto. discriminate.
    + split; [split; [discriminate | contradiction] |].
      split; [discriminate |].
      intros _ Hj. eexists. split; [reflexivity |]. split; [| reflexivity].
      pose proof (@randomize_in_window (rt_delay (dev_retrans d)) (o_sample o)
                    (mk_range (0 - rt_jitter (dev_retrans d))
                       (0 + rt_jitter (dev_retrans d)))) as Hw.
      simpl in Hw. lia.
Qed.

Lemma retransmission_exclusivity_witness :
  exclusive (dev_retrans (w_dev (scheduler_run sending_fsm_externals
     [(OpTransmitInit, sample_oracle); (OpTransmitStart, sent_oracle);
      (OpRetransmit, sample_oracle); (OpTransmit, sample_oracle)]
     (mk_world delayed_device []))))
  /\ rt_count (dev_retrans (w_dev (scheduler_run sending_fsm_externals
       [(OpTransmitInit, sample_oracle); (OpTransmitStart, sent_oracle);
        (OpRetransmit, sample_oracle); (OpTransmit, sample_oracle)]
       (mk_world delayed_device [])))) = 2
  /\ rt_delay (dev_retrans (w_dev (scheduler_run sending_fsm_externals
       [(OpRetransmit, sample_oracle); (OpRetransmitDisarm, sample_oracle)]
       (on_dev (ni_dhcp6_device_retransmit_arm sample_oracle)
          (mk_world delayed_device []))))) = 0
  /\ fsm_timer (dev_fsm (fst (ni_dhcp6_device_transmit_arm_delay sample_oracle
                                delayed_device))) = Some 1037.
Proof.
  destruct (retransmission_exclusivity sending_fsm_externals) as (Hrun & _ & Harmed & _).
  assert (Hfsm : fsm_keeps_delay sending_fsm_externals).
  { intros w.
    change (ni_dhcp6_fsm_retransmit sending_fsm_externals w)
      with (ni_dhcp6_device_transmit (mk_oracle Timeval.zero Timeval.zero 0 1 [])
              (on_dev (set_message (mk_buffer [Byte.x01] 1500)) w)).
    rewrite transmit_delay. reflexivity. }
  split; [| split; [| split]].
  - apply Hrun.
    + intros _. exact Hfsm.
    + intros _. split; reflexivity.
    + simpl. repeat split; try discriminate; intros _; reflexivity.
  - reflexivity.
  - apply Harmed. intros _. exact Hfsm.
  - reflexivity.
Defined.

(** ** IAID derivation *)

Lemma byte_val_range (b : byte) : 0 <= byte_val b < 256.
Proof.
  unfold byte_val. pose proof (Byte.to_N_bounded b). lia.
Qed.

Lemma byte_of_Z_val (b : byte) (x : Z) : byte_of_Z (byte_val b + 256 * x) = b.
Proof.
  unfold byte_of_Z. pose proof (byte_val_range b) as Hb.
  replace ((byte_val b + 256 * x) mod 256) with (byte_val b).
  - unfold byte_val. rewrite N2Z.id, Byte.of_to_N. reflexivity.
  - rewrite (Z.mul_comm 256 x), Z.mod_add by lia.
    symmetry. apply Z.mod_small. exact Hb.
Qed.

Lemma le_encode_decode (bs : list byte) :
  le_encode (List.length bs) (le_decode bs) = bs.
Proof.
  induction bs as [| b rest IH]; cbn [le_encode le_decode List.length];
    [reflexivity |].
  rewrite byte_of_Z_val. f_equal.
  pose proof (byte_val_range b) as Hb.
  replace ((byte_val b + 256 * le_decode rest) / 256) with (le_decode rest);
    [exact IH |].
  rewrite (Z.mul_comm 256 (le_decode rest)), Z.div_add by lia.
  rewrite Z.div_small by exact Hb. lia.
Qed.

Lemma le_decode_zero_tail (bs : list byte) (n : nat) :
  le_decode (bs ++ repeat Byte.x00 n) = le_decode bs.
Proof.
  induction bs as [| b rest IH]; simpl.
  - induction n as [| n IHn]; simpl; [reflexivity |].
    rewrite IHn. reflexivity.
  - rewrite IH. reflexivity.
Qed.

(** [memcpy] into a zeroed 4 byte scratch of at most three bytes. *)
Lemma memcpy_zero_scratch (src : list byte) (k : nat) :
  (k < 4)%nat ->
  le_decode (memcpy (le_encode 4 0) src k) = le_decode (firstn k src).
Proof.
  intros Hk. unfold memcpy.
  destruct k as [| [| [| [| k]]]]; try lia;
    [change (skipn 0 (le_encode 4 0)) with (repeat Byte.x00 4)
    |change (skipn 1 (le_encode 4 0)) with (repeat Byte.x00 3)
    |change (skipn 2 (le_encode 4 0)) with (repeat Byte.x00 2)
    |change (skipn 3 (le_encode 4 0)) with (repeat Byte.x00 1)];
    apply le_decode_zero_tail.
Qed.

(** [memcpy] of the last four bytes of a longer address over the IAID. *)
Lemma memcpy_last_four (hw : list byte) (v : Z) :
  (4 < List.length hw)%nat ->
  memcpy (le_encode 4 v) (skipn (List.length hw - 4) hw) 4
  = skipn (List.length hw - 4) hw.
Proof.
  intros Hlen. unfold memcpy.
  assert (Hl : List.length (skipn (List.length hw - 4) hw) = 4%nat)
    by (rewrite length_skipn; lia).
  rewrite firstn_all2 by lia. simpl. apply app_nil_r.
Qed.

Section Iaid.

Variables (nc : ni_netconfig_t) (d : ni_dhcp6_device_t) (ifp : ni_netdev_t) (iaid0 : Z).

Hypothesis found : ni_netdev_by_index nc (dev_link_ifindex d) = Some ifp.

Let hw := nd_hwaddr ifp.

Lemma iaid_from_hwaddr (tmp0 : Z) :
  (4 < List.length hw)%nat ->
  ni_dhcp6_device_iaid (Some nc) tmp0 d iaid0
  = (0, le_decode (skipn (List.length hw - 4) hw)).
Proof.
  intros Hlen. unfold ni_dhcp6_device_iaid. rewrite found. fold hw.
  apply Nat.ltb_lt in Hlen as Hb. rewrite Hb.
  rewrite memcpy_last_four by exact Hlen. reflexivity.
Qed.

Lemma iaid_from_ifname :
  (List.length hw <= 4)%nat -> ni_string_len (dev_ifname d) <> O ->
  ni_dhcp6_device_iaid (Some nc) 0 d iaid0
  = (0, Z.lxor
          (match nd_vlan ifp with
           | Some tag =>
             if 0 <? tag
             then Z.lxor (Z.lxor 0 (le_decode (firstn (ni_string_len (dev_ifname d) mod 4)
                                                 (string_bytes (dev_ifname d))))) tag
             else Z.lxor 0 (le_decode (firstn (ni_string_len (dev_ifname d) mod 4)
                                         (string_bytes (dev_ifname d))))
           | None => Z.lxor 0 (le_decode (firstn (ni_string_len (dev_ifname d) mod 4)
                                            (string_bytes (dev_ifname d))))
           end)
          (dev_link_ifindex d)).
Proof.
  intros Hlen Hname. unfold ni_dhcp6_device_iaid. rewrite found. fold hw.
  assert (Hb : (4 <? List.length hw)%nat = false) by (apply Nat.ltb_ge; lia).
  rewrite Hb. apply Nat.eqb_neq in Hname. rewrite Hname. simpl negb. cbv iota.
  rewrite memcpy_zero_scratch by (apply Nat.mod_upper_bound; lia).
  reflexivity.
Qed.

Lemma iaid_fails :
  (List.length hw <= 4)%nat -> ni_string_len (dev_ifname d) = O ->
  forall tmp0, ni_dhcp6_device_iaid (Some nc) tmp0 d iaid0 = (-1, 0).
Proof.
  intros Hlen Hname tmp0. unfold ni_dhcp6_device_iaid. rewrite found. fold hw.
  assert (Hb : (4 <? List.length hw)%nat = false) by (apply Nat.ltb_ge; lia).
  rewrite Hb, Hname. reflexivity.
Qed.

End Iaid.

Lemma byte_val_of_Z (v : Z) : byte_val (byte_of_Z v) = v mod 256.
Proof.
  unfold byte_val, byte_of_Z.
  pose proof (Z.mod_pos_bound v 256 ltac:(lia)) as Hm.
  destruct (Byte.of_N (Z.to_N (v mod 256))) as [b |] eqn:E.
  - apply Byte.to_of_N in E. rewrite E. apply Z2N.id. lia.
  - apply Byte.of_N_None_iff in E. lia.
Qed.

(** The value of an integer object is read back from its bytes. *)
Lemma le_decode_encode (n : nat) (v : Z) :
  0 <= v < 256 ^ Z.of_nat n -> le_decode (le_encode n v) = v.
Proof.
  revert v. induction n as [| n IH]; intros v Hv; cbn [le_encode le_decode].
  - simpl in Hv. lia.
  - rewrite Nat2Z.inj_succ, Z.pow_succ_r in Hv by lia.
    rewrite byte_val_of_Z, IH.
    + pose proof (Z.div_mod v 256 ltac:(lia)). lia.
    + split; [apply Z.div_pos; lia |].
      apply Z.div_lt_upper_bound; lia.
Qed.

(** The name branch of [ni_dhcp6_device_iaid] for any content of the
    local [tmp]: the bytes of [tmp] that [memcpy] does not reach are what
    the stack held. *)
Lemma iaid_from_ifname_scratch (nc : ni_netconfig_t) (d : ni_dhcp6_device_t)
  (ifp : ni_netdev_t) (iaid0 tmp0 : Z) :
  ni_netdev_by_index nc (dev_link_ifindex d) = Some ifp ->
  (List.length (nd_hwaddr ifp) <= 4)%nat -> ni_string_len (dev_ifname d) <> O ->
  let k := (ni_string_len (dev_ifname d) mod 4)%nat in
  let tmp := le_decode (firstn k (string_bytes (dev_ifname d))
                        ++ skipn k (le_encode 4 tmp0)) in
  let vlan_word := match nd_vlan ifp with
                   | Some tag => if 0 <? tag then tag else 0
                   | None => 0
                   end in
  ni_dhcp6_device_iaid (Some nc) tmp0 d iaid0
  = (0, Z.lxor (Z.lxor tmp vlan_word) (dev_link_ifindex d)).
Proof.
  intros Hfound Hlen Hname k tmp vlan_word.
  unfold ni_dhcp6_device_iaid. rewrite Hfound.
  assert (Hb : (4 <? List.length (nd_hwaddr ifp))%nat = false)
    by (apply Nat.ltb_ge; lia).
  rewrite Hb. apply Nat.eqb_neq in Hname. rewrite Hname. simpl negb. cbv iota.
  unfold memcpy. fold k. fold tmp. subst vlan_word.
  rewrite Z.lxor_0_l.
  destruct (nd_vlan ifp) as [tag |]; [destruct (0 <? tag) |];
    rewrite ?Z.lxor_0_r; reflexivity.
Qed.

(** C2: the derivation from the interface name reads the local [tmp],
    which the code never initialises: [memcpy] fills only its first
    [len % 4] bytes.  For [eth0] (4 characters, so no byte is copied), VLAN
    tag 7, ifindex 3 and no hardware address the result is the prior
    content of [tmp] XOR 7 XOR 3: 4 for a zero word, 22074 for the word
    22078, and the four name bytes XOR 7 XOR 3 only if the stack happened
    to hold them.  In general the result for a short hardware address is
    the word made of the first [len % 4] name bytes and the remaining
    bytes of [tmp], XOR the VLAN tag XOR the ifindex; for a hardware
    address of more than 4 bytes it is the last 4 bytes, whatever [tmp]
    held. *)
Theorem iaid_reads_uninitialised_scratch :
  (forall tmp0, 0 <= tmp0 < 2 ^ 32 ->
     ni_dhcp6_device_iaid (Some [eth0_netdev]) tmp0 sample_device 0
     = (0, Z.lxor (Z.lxor tmp0 7) 3))
  /\ ni_dhcp6_device_iaid (Some [eth0_netdev]) 0 sample_device 0 = (0, 4)
  /\ ni_dhcp6_device_iaid (Some [eth0_netdev]) 22078 sample_device 0 = (0, 22074)
  /\ Z.lxor (Z.lxor (le_decode (list_byte_of_string "eth0")) 7) 3 = 812151905
  /\ (forall nc d ifp iaid0 tmp0,
        ni_netdev_by_index nc (dev_link_ifindex d) = Some ifp ->
        (List.length (nd_hwaddr ifp) <= 4)%nat ->
        ni_string_len (dev_ifname d) <> O ->
        ni_dhcp6_device_iaid (Some nc) tmp0 d iaid0
        = (0, Z.lxor
                (Z.lxor
                   (le_decode
                      (firstn (ni_string_len (dev_ifname d) mod 4)
                         (string_bytes (dev_ifname d))
                       ++ skipn (ni_string_len (dev_ifname d) mod 4)
                            (le_encode 4 tmp0)))
                   match nd_vlan ifp with
                   | Some tag => if 0 <? tag then tag else 0
                   | None => 0
                   end)
                (dev_link_ifindex d)))
  /\ (forall nc d ifp iaid0 tmp0,
        ni_netdev_by_index nc (dev_link_ifindex d) = Some ifp ->
        (4 < List.length (nd_hwaddr ifp))%nat ->
        ni_dhcp6_device_iaid (Some nc) tmp0 d iaid0
        = (0, le_decode (skipn (List.length (nd_hwaddr ifp) - 4) (nd_hwaddr ifp)))).
Proof.
  split; [| split; [| split; [| split; [| split]]]].
  - intros tmp0 Ht.
    assert (Hfound : ni_netdev_by_index [eth0_netdev] (dev_link_ifindex sample_device)
                     = Some eth0_netdev) by reflexivity.
    assert (Hlen : (List.length (nd_hwaddr eth0_netdev) <= 4)%nat) by (simpl; lia).
    assert (Hname : ni_string_len (dev_ifname sample_device) <> O) by discriminate.
    pose proof (iaid_from_ifname_scratch [eth0_netdev] sample_device 0 tmp0
                  Hfound Hlen Hname) as H.
    cbv zeta in H. etransitivity; [exact H |].
    change (ni_string_len (dev_ifname sample_device) mod 4)%nat with O.
    change (nd_vlan eth0_netdev) with (Some 7).
    change (dev_link_ifindex sample_device) with 3.
    cbn [firstn skipn app].
    rewrite le_decode_encode by (change (256 ^ Z.of_nat 4) with (2 ^ 32); exact Ht).
    reflexivity.
  - reflexivity.
  - reflexivity.
  - reflexivity.
  - intros nc d ifp iaid0 tmp0 Hfound Hlen Hname.
    apply (iaid_from_ifname_scratch nc d iaid0 tmp0 Hfound Hlen Hname).
  - intros nc d ifp iaid0 tmp0 Hfound Hlen.
    apply (iaid_from_hwaddr nc d iaid0 Hfound tmp0 Hlen).
Qed.

(** ** Readiness gate and acquire *)

Lemma set_lladdr_not_usable (d : ni_dhcp6_device_t) (a : ni_address_t) :
  usable_lladdr a = false ->
  ni_dhcp6_device_set_lladdr d a = (d, lladdr_status 0 a)
  /\ lladdr_status 0 a <> 0.
Proof.
  unfold usable_lladdr, ni_dhcp6_device_set_lladdr, lladdr_status.
  destruct (addr_is_duplicate a), (addr_is_tentative a); simpl;
    intros H; try discriminate; split; (reflexivity || lia).
Qed.

Lemma set_lladdr_usable (d : ni_dhcp6_device_t) (a : ni_address_t) :
  usable_lladdr a = true ->
  ni_dhcp6_device_set_lladdr d a = (set_link_addr (addr_local_addr a) d, 0).
Proof.
  unfold usable_lladdr, ni_dhcp6_device_set_lladdr.
  destruct (addr_is_duplicate a), (addr_is_tentative a); simpl;
    intros H; try discriminate; reflexivity.
Qed.

Lemma scan_condition (a : ni_address_t) :
  negb (addr_family a =? AF_INET6) || negb (addr_is_linklocal a) = negb (is_lladdr a).
Proof. unfold is_lladdr. rewrite negb_andb. reflexivity. Qed.

(** Without a usable address the scan leaves the device alone and returns
    the status of the last link-local address it saw. *)
Lemma scan_status (addrs : list ni_address_t) :
  forall d rv,
    existsb usable_lladdr (link_locals addrs) = false ->
    find_lladdr_scan d addrs rv
    = (d, fold_left lladdr_status (link_locals addrs) rv).
Proof.
  induction addrs as [| a rest IH]; intros d rv Hnone; simpl; [reflexivity |].
  rewrite scan_condition. unfold link_locals in *. simpl in Hnone.
  destruct (is_lladdr a) eqn:Ell; simpl in *.
  - apply orb_false_iff in Hnone as [Ha Hrest].
    destruct (set_lladdr_not_usable d a Ha) as [-> Hne].
    apply Z.eqb_neq in Hne. rewrite Hne. rewrite IH by exact Hrest.
    reflexivity.
  - apply IH. exact Hnone.
Qed.

(** The first usable link-local address ends the scan. *)
Lemma scan_found (addrs : list ni_address_t) :
  forall d rv pre a post,
    link_locals addrs = pre ++ a :: post ->
    existsb usable_lladdr pre = false -> usable_lladdr a = true ->
    find_lladdr_scan d addrs rv = (set_link_addr (addr_local_addr a) d, 0).
Proof.
  induction addrs as [| a0 rest IH]; intros d rv pre a post Hll Hpre Ha; simpl.
  - destruct pre; discriminate Hll.
  - rewrite scan_condition. unfold link_locals in *. simpl in Hll.
    destruct (is_lladdr a0) eqn:Ell; simpl.
    + destruct pre as [| p pre']; simpl in *.
      * injection Hll as -> _. rewrite set_lladdr_usable by exact Ha.
        reflexivity.
      * injection Hll as -> Hll. apply orb_false_iff in Hpre as [Hp Hpre].
        destruct (set_lladdr_not_usable d p Hp) as [-> Hne].
        apply Z.eqb_neq in Hne. rewrite Hne. eapply IH; eauto.
    + eapply IH; eauto.
Qed.

Lemma status_last (pre : list ni_address_t) (a : ni_address_t) (rv : Z) :
  fold_left lladdr_status (pre ++ [a]) rv = if addr_is_duplicate a then -1 else 1.
Proof. rewrite fold_left_app. reflexivity. Qed.

Lemma init_duid_dev (X : externals) (G : global_state) (o : oracle)
  (config : ni_dhcp6_config_t) (preferred : option string) (w : world) :
  w_dev (snd (fst (ni_dhcp6_config_init_duid X G o config preferred w))) = w_dev w.
Proof.
  unfold ni_dhcp6_config_init_duid.
  repeat match goal with
         | |- context [let '(_, _) := ?p in _] => destruct p
         | |- context [if ?b then _ else _] => destruct b
         end; reflexivity.
Qed.

Lemma build_config_dev (X : externals) (G : global_state) (o : oracle)
  (info : ni_dhcp6_request_t) (w : world) :
  w_dev (snd (fst (acquire_build_config X G o info w))) = w_dev w.
Proof.
  unfold acquire_build_config.
  pose proof (init_duid_dev X G o
                (mk_config (req_uuid info) (req_update info) (req_info_only info)
                   (req_rapid_commit info) (NI_DHCP6_PREFERRED_LIFETIME X)
                   [] [] EmptyString [] 0 [] 0 [])
                (req_clientid info) w) as H.
  destruct (ni_dhcp6_config_init_duid X G o _ (req_clientid info) w)
    as [[config w1] have_duid]; simpl in H.
  destruct have_duid; simpl; [| exact H].
  destruct (ni_dhcp6_config_vendor_class G), (ni_dhcp6_config_vendor_opts G).
  exact H.
Qed.

Lemma set_config_dev (c : option ni_dhcp6_config_t) (w : world) :
  w_dev (ni_dhcp6_device_set_config c w) = set_config c (w_dev w).
Proof.
  unfold ni_dhcp6_device_set_config. destruct (dev_config (w_dev w)); reflexivity.
Qed.

Section Acquire.

Variables (X : externals) (G : global_state) (o : oracle)
          (info : ni_dhcp6_request_t) (w : world)
          (nc : ni_netconfig_t) (ifp : ni_netdev_t).

Let built := acquire_build_config X G o info w.
Let config := fst (fst built).
Let w1 := snd (fst built).
Let lls := link_locals (nd_addrs ifp).

Hypothesis have_duid : snd built = true.
Hypothesis have_netconfig : gs_netconfig G = Some nc.
Hypothesis found : ni_netdev_by_index nc (dev_link_ifindex (w_dev w)) = Some ifp.
Hypothesis link_up : nd_link_is_up ifp = true.

Lemma find_lladdr_is_scan :
  ni_dhcp6_device_find_lladdr G (w_dev w1)
  = find_lladdr_scan (w_dev w1) (nd_addrs ifp) 1.
Proof.
  unfold ni_dhcp6_device_find_lladdr, w1, built.
  rewrite build_config_dev, have_netconfig, found, link_up. reflexivity.
Qed.

Lemma acquire_after_build :
  ni_dhcp6_acquire X G o info w
  = let '(d, rv) := ni_dhcp6_device_find_lladdr G (w_dev w1) in
    let w2 := mk_world d (w_log w1) in
    if rv <? 0 then (ni_dhcp6_device_config_free config w2, rv)
    else
      let w3 := ni_dhcp6_device_set_config (Some config) w2 in
      if 0 <? rv then (on_dev wait_ready w3, rv)
      else ni_dhcp6_device_start X w3.
Proof.
  unfold ni_dhcp6_acquire, config, w1. fold built.
  destruct built as [[c w'] hd]; simpl in *. rewrite have_duid. reflexivity.
Qed.

Lemma world_eta (w' : world) : mk_world (w_dev w') (w_log w') = w'.
Proof. destruct w'; reflexivity. Qed.

Lemma acquire_not_yet :
  existsb usable_lladdr lls = false ->
  fold_left lladdr_status lls 1 = 1 ->
  ni_dhcp6_acquire X G o info w
  = (on_dev wait_ready (ni_dhcp6_device_set_config (Some config) w1), 1).
Proof.
  intros Hnone Hlast. rewrite acquire_after_build, find_lladdr_is_scan.
  rewrite scan_status by exact Hnone. fold lls. rewrite Hlast.
  simpl. rewrite world_eta. reflexivity.
Qed.

Lemma acquire_hard_failure :
  existsb usable_lladdr lls = false ->
  fold_left lladdr_status lls 1 = -1 ->
  ni_dhcp6_acquire X G o info w
  = (ni_dhcp6_device_config_free config w1, -1).
Proof.
  intros Hnone Hlast. rewrite acquire_after_build, find_lladdr_is_scan.
  rewrite scan_status by exact Hnone. fold lls. rewrite Hlast.
  simpl. rewrite world_eta. reflexivity.
Qed.

Lemma acquire_ready (pre post : list ni_address_t) (a : ni_address_t) :
  lls = pre ++ a :: post ->
  existsb usable_lladdr pre = false -> usable_lladdr a = true ->
  ni_dhcp6_acquire X G o info w
  = ni_dhcp6_device_start X
      (ni_dhcp6_device_set_config (Some config)
         (on_dev (set_link_addr (addr_local_addr a)) w1)).
Proof.
  intros Hll Hpre Ha. rewrite acquire_after_build, find_lladdr_is_scan.
  rewrite (@scan_found (nd_addrs ifp) (w_dev w1) 1 pre a post Hll Hpre Ha).
  reflexivity.
Qed.

End Acquire.

(** C5 as stated does not hold: with the link up and a duplicate-flagged
    link-local address as the only one (no usable address found), acquire
    fails: it returns -1, installs no config and leaves the FSM state and
    timer alone. *)
Lemma acquire_wait_ready_counterexample :
  let G := global_with [duplicate_addr] in
  let res := ni_dhcp6_acquire sample_externals G sample_oracle sample_request
               init_world in
  existsb usable_lladdr (link_locals [duplicate_addr]) = false
  /\ snd res = -1
  /\ dev_config (w_dev (fst res)) = None
  /\ dev_fsm (w_dev (fst res)) = mk_fsm NI_DHCP6_STATE_INIT None false.
Proof. repeat split. Qed.

(** C5 (amended): for every acquire call for which the client DUID is
    derived, the interface is found and its link is up: when no usable
    link-local address is found and the last link-local address scanned (if
    any) is not flagged duplicate, acquire installs the newly built config,
    sets the FSM state to [WAIT_READY], arms a 2000 ms FSM timeout, sets
    [fail_on_timeout] and returns 1 without starting the FSM; when a usable
    link-local address is found it records the address, installs the
    config and starts the FSM. *)
Theorem acquire_waits_or_starts (X : externals) (G : global_state) (o : oracle)
  (info : ni_dhcp6_request_t) (w : world) (nc : ni_netconfig_t) (ifp : ni_netdev_t) :
  snd (acquire_build_config X G o info w) = true ->
  gs_netconfig G = Some nc ->
  ni_netdev_by_index nc (dev_link_ifindex (w_dev w)) = Some ifp ->
  nd_link_is_up ifp = true ->
  let config := fst (fst (acquire_build_config X G o info w)) in
  let w1 := snd (fst (acquire_build_config X G o info w)) in
  let lls := link_locals (nd_addrs ifp) in
  let res := ni_dhcp6_acquire X G o info w in
  (existsb usable_lladdr lls = false ->
   lls = [] \/ (exists pre a, lls = pre ++ [a] /\ addr_is_duplicate a = false) ->
     snd res = 1
     /\ fst res = on_dev wait_ready (ni_dhcp6_device_set_config (Some config) w1)
     /\ dev_config (w_dev (fst res)) = Some config
     /\ dev_fsm (w_dev (fst res)) = mk_fsm NI_DHCP6_STATE_WAIT_READY (Some 2000) true)
  /\ (forall pre a post,
        lls = pre ++ a :: post ->
        existsb usable_lladdr pre = false -> usable_lladdr a = true ->
        let w2 := ni_dhcp6_device_set_config (Some config)
                    (on_dev (set_link_addr (addr_local_addr a)) w1) in
        dev_config (w_dev w2) = Some config
        /\ dev_link_addr (w_dev w2) = addr_local_addr a
        /\ res = ni_dhcp6_device_start X w2
        /\ res = ni_dhcp6_fsm_start X
                   (on_dev (ni_dhcp6_device_alloc_buffer X)
                      (on_dev (set_failed false) w2))).
Proof.
  intros Hduid Hnc Hfound Hup config w1 lls res. split.
  - intros Hnone Hlast.
    assert (Hst : fold_left lladdr_status lls 1 = 1).
    { destruct Hlast as [-> | (pre & a & -> & Hdup)]; [reflexivity |].
      rewrite status_last, Hdup. reflexivity. }
    subst res. rewrite (@acquire_not_yet X G o info w nc ifp Hduid Hnc Hfound Hup Hnone Hst).
    cbn [fst snd on_dev w_dev]. rewrite set_config_dev. repeat split.
  - intros pre a post Hll Hpre Ha w2.
    split; [unfold w2; rewrite set_config_dev; reflexivity |].
    split; [unfold w2; rewrite set_config_dev; reflexivity |].
    assert (Hres : res = ni_dhcp6_device_start X w2)
      by (exact (@acquire_ready X G o info w nc ifp Hduid Hnc Hfound Hup pre post a Hll Hpre Ha)).
    split; [exact Hres |]. rewrite Hres. unfold ni_dhcp6_device_start.
    replace (dev_config (w_dev w2)) with (Some config)
      by (unfold w2; rewrite set_config_dev; reflexivity).
    reflexivity.
Qed.

Lemma acquire_waits_or_starts_witness :
  dev_fsm (w_dev (fst (ni_dhcp6_acquire sample_externals (global_with [tentative_addr])
                         sample_oracle sample_request init_world)))
  = mk_fsm NI_DHCP6_STATE_WAIT_READY (Some 2000) true
  /\ snd (ni_dhcp6_acquire sample_externals (global_with [duplicate_addr; usable_addr])
            sample_oracle sample_request init_world) = 0.
Proof.
  destruct (acquire_waits_or_starts sample_externals (global_with [tentative_addr])
              sample_oracle sample_request init_world
              (nc := [mk_netdev "eth0" 3 ARPHRD_ETHER [] None true [tentative_addr]])
              (ifp := mk_netdev "eth0" 3 ARPHRD_ETHER [] None true [tentative_addr])
              eq_refl eq_refl eq_refl eq_refl) as [Hwait _].
  destruct (acquire_waits_or_starts sample_externals
              (global_with [duplicate_addr; usable_addr])
              sample_oracle sample_request init_world
              (nc := [mk_netdev "eth0" 3 ARPHRD_ETHER [] None true
                        [duplicate_addr; usable_addr]])
              (ifp := mk_netdev "eth0" 3 ARPHRD_ETHER [] None true
                        [duplicate_addr; usable_addr])
              eq_refl eq_refl eq_refl eq_refl) as [_ Hstart].
  split.
  - apply Hwait; [reflexivity |].
    right. exists [], tentative_addr. split; reflexivity.
  - destruct (Hstart [duplicate_addr] usable_addr [] eq_refl eq_refl eq_refl)
      as (_ & _ & Hres & _).
    cbv zeta in Hres. rewrite Hres. reflexivity.
Defined.

(** C6 as stated does not hold: when a duplicate-flagged link-local
    address is followed by a tentative one (and none is usable), the scan
    returns 1, and acquire waits in [WAIT_READY] with the config installed
    instead of failing. *)
Lemma acquire_duplicate_counterexample :
  let G := global_with [duplicate_addr; tentative_addr] in
  let res := ni_dhcp6_acquire sample_externals G sample_oracle sample_request
               init_world in
  existsb usable_lladdr (link_locals [duplicate_addr; tentative_addr]) = false
  /\ existsb addr_is_duplicate (link_locals [duplicate_addr; tentative_addr]) = true
  /\ snd (ni_dhcp6_device_find_lladdr G init_device) = 1
  /\ snd res = 1
  /\ fsm_state (dev_fsm (w_dev (fst res))) = NI_DHCP6_STATE_WAIT_READY
  /\ dev_config (w_dev (fst res)) <> None.
Proof. repeat split. discriminate. Qed.

(** C6 (amended): for every acquire call for which the client DUID is
    derived, the interface is found and its link is up: when no usable
    link-local address is found and the last link-local address scanned is
    flagged duplicate, [ni_dhcp6_device_find_lladdr] returns -1, the nascent
    config is freed and not installed, and [ni_dhcp6_acquire] returns -1,
    leaving the device as it was. *)
Theorem acquire_fails_on_duplicate (X : externals) (G : global_state) (o : oracle)
  (info : ni_dhcp6_request_t) (w : world) (nc : ni_netconfig_t) (ifp : ni_netdev_t) :
  snd (acquire_build_config X G o info w) = true ->
  gs_netconfig G = Some nc ->
  ni_netdev_by_index nc (dev_link_ifindex (w_dev w)) = Some ifp ->
  nd_link_is_up ifp = true ->
  let config := fst (fst (acquire_build_config X G o info w)) in
  let w1 := snd (fst (acquire_build_config X G o info w)) in
  let lls := link_locals (nd_addrs ifp) in
  let res := ni_dhcp6_acquire X G o info w in
  existsb usable_lladdr lls = false ->
  (exists pre a, lls = pre ++ [a] /\ addr_is_duplicate a = true) ->
  ni_dhcp6_device_find_lladdr G (w_dev w) = (w_dev w, -1)
  /\ res = (ni_dhcp6_device_config_free config w1, -1)
  /\ w_dev (fst res) = w_dev w
  /\ w_log (fst res) = EffConfigFree config :: w_log w1.
Proof.
  intros Hduid Hnc Hfound Hup config w1 lls res Hnone (pre & a & Hll & Hdup).
  assert (Hst : fold_left lladdr_status lls 1 = -1)
    by (rewrite Hll, status_last, Hdup; reflexivity).
  split.
  - pose proof (@find_lladdr_is_scan X G o info w nc ifp Hnc Hfound Hup) as Hscan.
    rewrite build_config_dev in Hscan. rewrite Hscan.
    rewrite scan_status by exact Hnone. fold lls. rewrite Hst. reflexivity.
  - subst res. rewrite (@acquire_hard_failure X G o info w nc ifp Hduid Hnc Hfound Hup Hnone Hst).
    simpl. repeat split. apply build_config_dev.
Qed.

Lemma acquire_fails_on_duplicate_witness :
  snd (ni_dhcp6_acquire sample_externals (global_with [tentative_addr; duplicate_addr])
         sample_oracle sample_request init_world) = -1.
Proof.
  destruct (acquire_fails_on_duplicate sample_externals
              (global_with [tentative_addr; duplicate_addr])
              sample_oracle sample_request init_world
              (nc := [mk_netdev "eth0" 3 ARPHRD_ETHER [] None true
                        [tentative_addr; duplicate_addr]])
              (ifp := mk_netdev "eth0" 3 ARPHRD_ETHER [] None true
                        [tentative_addr; duplicate_addr])
              eq_refl eq_refl eq_refl eq_refl eq_refl
              (ex_intro _ [tentative_addr]
                 (ex_intro _ duplicate_addr (conj eq_refl eq_refl))))
    as (_ & Hres & _).
  cbv zeta in Hres. rewrite Hres. reflexivity.
Defined.

(** ** Ignore-server check *)

(** C9 (evaluation at the failing input): for the server [fe80::1] and the
    ignore list [["fe80::1"]], [ni_dhcp6_config_ignore_server] formats the
    first four address bytes with the IPv4 family, as ["254.128.0.0"], and
    reports no match; it reports a match for that server when the list
    holds ["254.128.0.0"] instead. *)
Theorem ignore_server_formats_with_AF_INET :
  inet_ntop_AF_INET (sin6_addr fe80_1) = "254.128.0.0"%string
  /\ ignore_servers sample_dhconf = ["fe80::1"%string]
  /\ ni_dhcp6_config_ignore_server (mk_global None sample_dhconf) (sin6_addr fe80_1)
     = false
  /\ ni_dhcp6_config_ignore_server
       (mk_global None (mk_dhconf None 0 [] 0 [] ["254.128.0.0"%string]))
       (sin6_addr fe80_1) = true.
Proof. repeat split. Qed.

(** * Further properties of device.c *)

(** ** Uptime over time *)

(** X1: for a fixed [retrans.start] and clamp, the uptime does not decrease
    when the clock advances, as long as the hundredths of a second elapsed
    at the later reading fit a [long]. *)
Theorem uptime_monotone (o1 o2 : oracle) (d : ni_dhcp6_device_t) (clamp : Z) :
  normalized (o_now o1) -> normalized (o_now o2) ->
  normalized (rt_start (dev_retrans d)) ->
  0 <= clamp < 2 ^ 32 ->
  to_usec (o_now o1) <= to_usec (o_now o2) ->
  (to_usec (o_now o2) - to_usec (rt_start (dev_retrans d))) / 10000 <= LONG_MAX ->
  ni_dhcp6_device_uptime o1 d clamp <= ni_dhcp6_device_uptime o2 d clamp.
Proof.
  intros H1 H2 Hs Hc Hle Hfit.
  assert (Hfit1 : (to_usec (o_now o1) - to_usec (rt_start (dev_retrans d))) / 10000
                  <= LONG_MAX).
  { eapply Z.le_trans; [| exact Hfit]. apply Z.div_le_mono; lia. }
  assert (Hnonneg : 0 <= ni_dhcp6_device_uptime o2 d clamp).
  { destruct (timerisset (rt_start (dev_retrans d)) && timercmp_gt (o_now o2) (rt_start (dev_retrans d))) eqn:E.
    - rewrite (uptime_elapsed o2 d H2 Hs Hc E Hfit).
      apply andb_true_iff in E as [_ E].
      apply timercmp_gt_to_usec in E; auto.
      assert (0 <= (to_usec (o_now o2) - to_usec (rt_start (dev_retrans d))) / 10000)
        by (apply Z.div_pos; lia). lia.
    - rewrite (uptime_unset_or_not_later o2 d Hc E). lia. }
  destruct (timerisset (rt_start (dev_retrans d)) && timercmp_gt (o_now o1) (rt_start (dev_retrans d))) eqn:E1.
  - rewrite (uptime_elapsed o1 d H1 Hs Hc E1 Hfit1).
    apply andb_true_iff in E1 as [Hset E1].
    apply timercmp_gt_to_usec in E1; auto.
    assert (E2 : timerisset (rt_start (dev_retrans d)) && timercmp_gt (o_now o2) (rt_start (dev_retrans d)) = true).
    { apply andb_true_iff. split; [exact Hset |].
      apply timercmp_gt_to_usec; auto. lia. }
    rewrite (uptime_elapsed o2 d H2 Hs Hc E2 Hfit).
    assert ((to_usec (o_now o1) - to_usec (rt_start (dev_retrans d))) / 10000
            <= (to_usec (o_now o2) - to_usec (rt_start (dev_retrans d))) / 10000)
      by (apply Z.div_le_mono; lia).
    lia.
  - rewrite (uptime_unset_or_not_later o1 d Hc E1). exact Hnonneg.
Qed.

Lemma uptime_monotone_witness :
  ni_dhcp6_device_uptime sample_oracle sample_device 50000
  <= ni_dhcp6_device_uptime (mk_oracle (mk_timeval 200 0) Timeval.zero 0 0 [])
       sample_device 50000.
Proof.
  apply uptime_monotone;
    [vm_compute; split; [discriminate | reflexivity] ..
    | vm_compute; discriminate | vm_compute; discriminate].
Defined.

(** X2: the uptime restarts with the exchange: it is 0 after
    [ni_dhcp6_device_retransmit_disarm] whatever the clock shows, and 0
    when read at the clock reading at which [ni_dhcp6_device_retransmit_arm]
    recorded the start. *)
Theorem uptime_restarts (o : oracle) (d : ni_dhcp6_device_t) (clamp : Z) :
  0 <= clamp < 2 ^ 32 ->
  ni_dhcp6_device_uptime o (ni_dhcp6_device_retransmit_disarm d) clamp = 0
  /\ ni_dhcp6_device_uptime o (ni_dhcp6_device_retransmit_arm o d) clamp = 0.
Proof.
  intros Hc. split.
  - apply uptime_unset_or_not_later; [exact Hc | reflexivity].
  - apply uptime_unset_or_not_later; [exact Hc |].
    destruct (retransmit_arm_delay_start o d) as [_ ->].
    apply andb_false_iff. right.
    unfold timercmp_gt. rewrite Z.eqb_refl. apply Z.ltb_irrefl.
Qed.

Lemma uptime_restarts_witness :
  ni_dhcp6_device_uptime sample_oracle
    (ni_dhcp6_device_retransmit_disarm sample_device) 50000 = 0.
Proof.
  assert (H : 0 <= 50000 < 2 ^ 32) by lia.
  exact (proj1 (uptime_restarts sample_oracle sample_device H)).
Defined.

(** ** Outcomes of the readiness scan *)

Lemma existsb_first {A : Type} (f : A -> bool) (l : list A) :
  existsb f l = true ->
  exists pre a post, l = pre ++ a :: post /\ existsb f pre = false /\ f a = true.
Proof.
  induction l as [| x rest IH]; simpl; [discriminate |].
  destruct (f x) eqn:E.
  - intros _. exists [], x, rest. auto.
  - simpl. intros H. destruct (IH H) as (pre & a & post & -> & Hpre & Ha).
    exists (x :: pre), a, post. simpl. rewrite E. auto.
Qed.

Lemma status_values (l : list ni_address_t) (rv : Z) :
  fold_left lladdr_status l rv = rv
  \/ fold_left lladdr_status l rv = -1
  \/ fold_left lladdr_status l rv = 1.
Proof.
  revert rv. induction l as [| a rest IH]; intros rv; simpl; [auto |].
  destruct (IH (lladdr_status rv a)) as [-> | H]; [| auto].
  unfold lladdr_status. destruct (addr_is_duplicate a); auto.
Qed.

(** The scan either finds the first usable link-local address or reports
    the status of the last one. *)
Lemma scan_cases (addrs : list ni_address_t) (d : ni_dhcp6_device_t) (rv : Z) :
  (existsb usable_lladdr (link_locals addrs) = false
   /\ find_lladdr_scan d addrs rv = (d, fold_left lladdr_status (link_locals addrs) rv))
  \/ (exists pre a post,
        link_locals addrs = pre ++ a :: post
        /\ existsb usable_lladdr pre = false /\ usable_lladdr a = true
        /\ find_lladdr_scan d addrs rv = (set_link_addr (addr_local_addr a) d, 0)).
Proof.
  destruct (existsb usable_lladdr (link_locals addrs)) eqn:E.
  - right. destruct (existsb_first _ _ E) as (pre & a & post & Hll & Hpre & Ha).
    exists pre, a, post. repeat split; auto.
    eapply scan_found; eauto.
  - left. split; [reflexivity |]. apply scan_status. exact E.
Qed.

Ltac other_interface Hfound :=
  let nc' := fresh "nc" in
  let Hnc := fresh "Hnc" in
  let Hf := fresh "Hf" in
  intros nc' Hnc Hf; injection Hnc as <-; rewrite Hfound in Hf; discriminate Hf.

(** X3: [ni_dhcp6_device_find_lladdr] returns -1, 0 or 1; it changes the
    device only when it returns 0, and then [link.addr] is the address of
    a usable (neither duplicate nor tentative) IPv6 link-local address of
    the interface; with the interface found and the link up it returns 0
    exactly when the interface has such an address; without a global
    state, without the interface or with the link down it returns -1. *)
Theorem find_lladdr_outcomes (G : global_state) (d : ni_dhcp6_device_t) :
  let res := ni_dhcp6_device_find_lladdr G d in
  (snd res = -1 \/ snd res = 0 \/ snd res = 1)
  /\ (snd res <> 0 -> fst res = d)
  /\ (snd res = 0 ->
      exists nc ifp a,
        gs_netconfig G = Some nc
        /\ ni_netdev_by_index nc (dev_link_ifindex d) = Some ifp
        /\ In a (nd_addrs ifp)
        /\ is_lladdr a = true /\ usable_lladdr a = true
        /\ fst res = set_link_addr (addr_local_addr a) d)
  /\ (gs_netconfig G = None -> snd res = -1)
  /\ (forall nc, gs_netconfig G = Some nc ->
        ni_netdev_by_index nc (dev_link_ifindex d) = None -> snd res = -1)
  /\ (forall nc ifp,
        gs_netconfig G = Some nc ->
        ni_netdev_by_index nc (dev_link_ifindex d) = Some ifp ->
        (nd_link_is_up ifp = false -> snd res = -1)
        /\ (nd_link_is_up ifp = true ->
            (snd res = 0
             <-> existsb usable_lladdr (link_locals (nd_addrs ifp)) = true))).
Proof.
  unfold ni_dhcp6_device_find_lladdr.
  destruct (gs_netconfig G) as [nc |];
    [| cbn; repeat split; auto; try discriminate; intros; lia].
  destruct (ni_netdev_by_index nc (dev_link_ifindex d)) as [ifp |] eqn:Hfound.
  2: { cbn. split; [auto |]. split; [reflexivity |]. split; [discriminate |].
       split; [discriminate |]. split; [reflexivity |].
       intros nc' ifp' Hnc' Hf'. injection Hnc' as <-.
       rewrite Hfound in Hf'. discriminate Hf'. }
  destruct (nd_link_is_up ifp) eqn:Hup; cbn [negb].
  - destruct (scan_cases (nd_addrs ifp) d 1)
      as [[Hnone ->] | (pre & a & post & Hll & Hpre & Ha & ->)]; cbn [fst snd].
    + assert (Hne : fold_left lladdr_status (link_locals (nd_addrs ifp)) 1 <> 0).
      { destruct (status_values (link_locals (nd_addrs ifp)) 1) as [-> | [-> | ->]];
          lia. }
      split; [destruct (status_values (link_locals (nd_addrs ifp)) 1)
                as [-> | [-> | ->]]; auto |].
      split; [reflexivity |]. split; [contradiction |].
      split; [discriminate |]. split; [other_interface Hfound |].
      intros nc' ifp' Hnc' Hf'. injection Hnc' as <-.
      rewrite Hfound in Hf'. injection Hf' as <-.
      split; [rewrite Hup; discriminate |]. intros _.
      rewrite Hnone. split; [contradiction | discriminate].
    + assert (Hin : In a (link_locals (nd_addrs ifp)))
        by (rewrite Hll; apply in_or_app; right; left; reflexivity).
      apply filter_In in Hin as [Hin Hlla].
      split; [auto |]. split; [intros H; contradiction H; reflexivity |].
      split; [intros _; exists nc, ifp, a; repeat split; auto |].
      split; [discriminate |]. split; [other_interface Hfound |].
      intros nc' ifp' Hnc' Hf'. injection Hnc' as <-.
      rewrite Hfound in Hf'. injection Hf' as <-.
      split; [rewrite Hup; discriminate |]. intros _.
      split; [intros _ | reflexivity].
      rewrite Hll, existsb_app. simpl. rewrite Ha. apply orb_true_r.
  - cbn. split; [auto |]. split; [reflexivity |]. split; [discriminate |].
    split; [discriminate |]. split; [other_interface Hfound |].
    intros nc' ifp' Hnc' Hf'. injection Hnc' as <-.
    rewrite Hfound in Hf'. injection Hf' as <-.
    split; [reflexivity |]. rewrite Hup. discriminate.
Qed.

Lemma find_lladdr_outcomes_witness :
  snd (ni_dhcp6_device_find_lladdr (global_with [duplicate_addr; usable_addr])
         init_device) = 0
  /\ fst (ni_dhcp6_device_find_lladdr (global_with [tentative_addr]) init_device)
     = init_device.
Proof.
  destruct (find_lladdr_outcomes (global_with [duplicate_addr; usable_addr]) init_device)
    as (_ & _ & _ & _ & _ & Hiff).
  destruct (find_lladdr_outcomes (global_with [tentative_addr]) init_device)
    as (_ & Hsame & _).
  split.
  - destruct (Hiff _ _ eq_refl eq_refl) as [_ H]. apply H; reflexivity.
  - apply Hsame. discriminate.
Defined.

(** ** Starting a transmission *)

Lemma retransmit_arm_keeps (o : oracle) (d : ni_dhcp6_device_t) :
  let d' := ni_dhcp6_device_retransmit_arm o d in
  dev_message d' = dev_message d
  /\ rt_count (dev_retrans d') = rt_count (dev_retrans d)
  /\ dev_mcast_sock d' = dev_mcast_sock d.
Proof.
  cbv zeta. rewrite retransmit_arm_unfold. cbv zeta.
  destruct (tp_nretries (rt_params (dev_retrans d)) =? 0); [repeat split |].
  destruct (first_solicit d); [repeat split |].
  destruct (rt_duration (dev_retrans d) =? 0); repeat split.
Qed.

(** X4: while an initial delay is pending, [ni_dhcp6_device_transmit_init]
    sends nothing: it returns 0 with the effect log, the outbound buffer
    and the whole retransmission block (so [count] and [start]) untouched
    and the FSM timer armed; without a pending delay it is
    [ni_dhcp6_device_transmit_start]. *)
Theorem transmit_init_waits_for_delay (o : oracle) (w : world) :
  let d := w_dev w in
  let res := ni_dhcp6_device_transmit_init o w in
  (rt_delay (dev_retrans d) <> 0 ->
     snd res = 0
     /\ w_log (fst res) = w_log w
     /\ dev_message (w_dev (fst res)) = dev_message d
     /\ dev_retrans (w_dev (fst res)) = dev_retrans d
     /\ fsm_timer (dev_fsm (w_dev (fst res))) <> None)
  /\ (rt_delay (dev_retrans d) = 0 ->
     res = ni_dhcp6_device_transmit_start o w).
Proof.
  cbv zeta. unfold ni_dhcp6_device_transmit_init, ni_dhcp6_device_transmit_arm_delay.
  split; intros H.
  - apply Z.eqb_neq in H. rewrite H. simpl. repeat split. discriminate.
  - rewrite H. simpl. destruct w; reflexivity.
Qed.

Lemma transmit_init_waits_for_delay_witness :
  snd (ni_dhcp6_device_transmit_init sample_oracle (mk_world delayed_device [])) = 0
  /\ w_log (fst (ni_dhcp6_device_transmit_init sample_oracle
                   (mk_world delayed_device []))) = [].
Proof.
  destruct (transmit_init_waits_for_delay sample_oracle (mk_world delayed_device []))
    as [Hwait _].
  destruct Hwait as (H1 & H2 & _); [discriminate |].
  split; [exact H1 | exact H2].
Defined.

(** X5: [ni_dhcp6_device_transmit_start] clears the delay and records the
    clock reading as [start] whether or not the send succeeds; it returns
    0 or -1, and 0 exactly when the buffer was non-empty and was sent in
    full; [count] grows by one on success and is unchanged otherwise; the
    buffer is empty afterwards and keeps its allocation. *)
Theorem transmit_start_outcomes (o : oracle) (w : world) :
  let d := w_dev w in
  let cnt := ni_buffer_count (dev_message d) in
  let res := ni_dhcp6_device_transmit_start o w in
  let d' := w_dev (fst res) in
  rt_delay (dev_retrans d') = 0
  /\ rt_start (dev_retrans d') = o_now o
  /\ (snd res = 0 \/ snd res = -1)
  /\ (snd res = 0 <-> cnt <> 0 /\ o_send_rv o = cnt)
  /\ rt_count (dev_retrans d')
     = rt_count (dev_retrans d) + (if snd res =? 0 then 1 else 0)
  /\ ni_buffer_count (dev_message d') = 0
  /\ buf_size (dev_message d') = buf_size (dev_message d).
Proof.
  cbv zeta. unfold ni_dhcp6_device_transmit_start.
  set (w1 := on_dev (ni_dhcp6_device_retransmit_arm o) w).
  destruct (retransmit_arm_keeps o (w_dev w)) as (Hmsg & Hcnt & _).
  destruct (retransmit_arm_delay_start o (w_dev w)) as [Hdelay Hstart].
  assert (Hm1 : dev_message (w_dev w1) = dev_message (w_dev w)) by exact Hmsg.
  destruct (Z.eq_dec (ni_buffer_count (dev_message (w_dev w1))) 0) as [He | Hne].
  - rewrite (transmit_empty o w1 He). simpl. rewrite Hm1 in He.
    rewrite Hdelay, Hstart, Hcnt, Hmsg, He.
    repeat split; auto; try lia.
  - destruct (Z.eq_dec (o_send_rv o) (ni_buffer_count (dev_message (w_dev w1))))
      as [Hrv | Hrv].
    + rewrite (transmit_sent o w1 Hne Hrv). simpl. rewrite Hm1 in *.
      rewrite Hdelay, Hstart, Hcnt, Hmsg.
      repeat split; auto.
    + rewrite (transmit_failed o w1 Hne (or_intror Hrv)). simpl. rewrite Hm1 in *.
      rewrite Hdelay, Hstart, Hcnt, Hmsg.
      repeat split; auto; try lia; try discriminate.
Qed.

(** ** Advancing the backoff *)

(** X6: [ni_dhcp6_device_retransmit_advance] reports what the timeout
    policy reports and touches nothing but [params] and [deadline]; when
    the policy says stop it only stores the policy's parameters; when the
    policy continues it rebases a symmetric jitter window on the policy's
    new timeout T, draws the next RT within [T - T*jitter/1000] and
    [T + T*jitter/1000], and sets the deadline to the clock plus RT. *)
Theorem retransmit_advance_outcomes (X : externals) (o : oracle) (d : ni_dhcp6_device_t) :
  let r := dev_retrans d in
  let p := fst (ni_timeout_recompute X (rt_params r)) in
  let continue := snd (ni_timeout_recompute X (rt_params r)) in
  let d' := fst (ni_dhcp6_device_retransmit_advance X o d) in
  let r' := dev_retrans d' in
  snd (ni_dhcp6_device_retransmit_advance X o d) = continue
  /\ d' = set_retrans r' d
  /\ rt_delay r' = rt_delay r /\ rt_jitter r' = rt_jitter r
  /\ rt_duration r' = rt_duration r /\ rt_start r' = rt_start r
  /\ rt_count r' = rt_count r
  /\ tp_nretries (rt_params r') = tp_nretries p
  /\ (continue = false -> r' = with_params p r)
  /\ (continue = true ->
      let window := tp_jitter (rt_params r') in
      let rt := tp_timeout (rt_params r') in
      window = ni_dhcp6_jitter_rebase (tp_timeout p) (0 - rt_jitter r) (0 + rt_jitter r)
      /\ range_min window = - range_max window
      /\ rt = ni_timeout_randomize (tp_timeout p) window (o_sample o)
      /\ rt_deadline r' = add_msec (o_arm_now o) rt
      /\ (0 <= tp_timeout p -> 0 <= rt_jitter r ->
          tp_timeout p - Z.quot (tp_timeout p * rt_jitter r) 1000
          <= rt <= tp_timeout p + Z.quot (tp_timeout p * rt_jitter r) 1000)).
Proof.
  cbv zeta. unfold ni_dhcp6_device_retransmit_advance.
  destruct (ni_timeout_recompute X (rt_params (dev_retrans d))) as [p []]; simpl.
  - repeat split; try discriminate.
    + apply rebase_symmetric.
    + pose proof (rebase_symmetric (tp_timeout p) (rt_jitter (dev_retrans d))) as Hs.
      pose proof (@randomize_in_window (tp_timeout p) (o_sample o)
                    (ni_dhcp6_jitter_rebase (tp_timeout p)
                       (0 - rt_jitter (dev_retrans d))
                       (0 + rt_jitter (dev_retrans d)))) as Hw.
      assert (Hq : 0 <= Z.quot (tp_timeout p * rt_jitter (dev_retrans d)) 1000)
        by (apply Z.quot_pos; nia).
      unfold ni_dhcp6_jitter_rebase in *. simpl in *. lia.
    + pose proof (rebase_symmetric (tp_timeout p) (rt_jitter (dev_retrans d))) as Hs.
      pose proof (@randomize_in_window (tp_timeout p) (o_sample o)
                    (ni_dhcp6_jitter_rebase (tp_timeout p)
                       (0 - rt_jitter (dev_retrans d))
                       (0 + rt_jitter (dev_retrans d)))) as Hw.
      assert (Hq : 0 <= Z.quot (tp_timeout p * rt_jitter (dev_retrans d)) 1000)
        by (apply Z.quot_pos; nia).
      unfold ni_dhcp6_jitter_rebase in *. simpl in *. lia.
  - repeat split; try discriminate.
Qed.

Lemma retransmit_advance_outcomes_witness :
  tp_timeout (rt_params (dev_retrans
     (fst (ni_dhcp6_device_retransmit_advance sample_externals sample_oracle
             sample_device)))) = 2037.
Proof.
  destruct (retransmit_advance_outcomes sample_externals sample_oracle sample_device)
    as (_ & _ & _ & _ & _ & _ & _ & _ & _ & Hgo).
  destruct (Hgo eq_refl) as (_ & _ & Hrt & _).
  cbv zeta in Hrt. rewrite Hrt. reflexivity.
Defined.

(** ** Failing and waiting acquire calls *)

Lemma find_lladdr_keeps_device (G : global_state) (d : ni_dhcp6_device_t) :
  snd (ni_dhcp6_device_find_lladdr G d) <> 0 ->
  fst (ni_dhcp6_device_find_lladdr G d) = d.
Proof.
  unfold ni_dhcp6_device_find_lladdr.
  destruct (gs_netconfig G) as [nc |]; [| reflexivity].
  destruct (ni_netdev_by_index nc (dev_link_ifindex d)) as [ifp |]; [| reflexivity].
  destruct (negb (nd_link_is_up ifp)); [reflexivity |].
  destruct (scan_cases (nd_addrs ifp) d 1)
    as [[_ ->] | (pre & a & post & _ & _ & _ & ->)]; simpl; [reflexivity |].
  intros H. contradiction H. reflexivity.
Qed.

(** X7: a failing acquire leaves no trace on the device: when no client
    DUID can be derived, or when the readiness scan returns a negative
    value (no global state, interface not found, link down, duplicate
    last), [ni_dhcp6_acquire] returns that error (-1 for the DUID), frees
    the nascent config, and leaves the device, including a config from an
    earlier acquire, exactly as it was. *)
Theorem acquire_failure_keeps_device (X : externals) (G : global_state) (o : oracle)
  (info : ni_dhcp6_request_t) (w : world) :
  let built := acquire_build_config X G o info w in
  let config := fst (fst built) in
  let w1 := snd (fst built) in
  let res := ni_dhcp6_acquire X G o info w in
  (snd built = false ->
     snd res = -1 /\ w_dev (fst res) = w_dev w
     /\ w_log (fst res) = EffConfigFree config :: w_log w1)
  /\ (snd built = true -> snd (ni_dhcp6_device_find_lladdr G (w_dev w)) < 0 ->
     snd res = snd (ni_dhcp6_device_find_lladdr G (w_dev w))
     /\ w_dev (fst res) = w_dev w
     /\ w_log (fst res) = EffConfigFree config :: w_log w1).
Proof.
  cbv zeta. split.
  - intros Hduid. unfold ni_dhcp6_acquire.
    pose proof (build_config_dev X G o info w) as Hdev.
    destruct (acquire_build_config X G o info w) as [[c w1] hd]; simpl in *.
    rewrite Hduid. simpl. auto.
  - intros Hduid Hrv. rewrite (acquire_after_build X G o info w Hduid).
    rewrite build_config_dev.
    pose proof (find_lladdr_keeps_device G (w_dev w)) as Hkeep.
    destruct (ni_dhcp6_device_find_lladdr G (w_dev w)) as [d rv]; simpl in *.
    apply Z.ltb_lt in Hrv as Hb. rewrite Hb. simpl.
    rewrite Hkeep by lia. auto.
Qed.

Lemma acquire_failure_keeps_device_witness :
  w_dev (fst (ni_dhcp6_acquire no_duid_externals (global_with [usable_addr])
                sample_oracle sample_request configured_world))
  = w_dev configured_world
  /\ w_dev (fst (ni_dhcp6_acquire sample_externals global_link_down
                   sample_oracle sample_request configured_world))
     = w_dev configured_world.
Proof.
  destruct (acquire_failure_keeps_device no_duid_externals (global_with [usable_addr])
              sample_oracle sample_request configured_world) as [Hduid _].
  destruct (acquire_failure_keeps_device sample_externals global_link_down
              sample_oracle sample_request configured_world) as [_ Hscan].
  split.
  - destruct Hduid as (_ & H & _); [vm_compute; reflexivity | exact H].
  - destruct Hscan as (_ & H & _);
      [vm_compute; reflexivity | vm_compute; reflexivity | exact H].
Defined.

(** X8: an acquire that ends up waiting replaces the config: the new
    config is installed, a config held from an earlier acquire is freed
    exactly once and nothing else is freed, and the device changes in its
    config and its FSM cursor only. *)
Theorem acquire_wait_replaces_config (X : externals) (G : global_state) (o : oracle)
  (info : ni_dhcp6_request_t) (w : world) :
  let built := acquire_build_config X G o info w in
  let config := fst (fst built) in
  let w1 := snd (fst built) in
  let res := ni_dhcp6_acquire X G o info w in
  snd built = true -> 0 < snd (ni_dhcp6_device_find_lladdr G (w_dev w)) ->
  snd res = snd (ni_dhcp6_device_find_lladdr G (w_dev w))
  /\ w_dev (fst res)
     = set_fsm (mk_fsm NI_DHCP6_STATE_WAIT_READY (Some 2000) true)
         (set_config (Some config) (w_dev w))
  /\ w_log (fst res)
     = match dev_config (w_dev w) with
       | Some old => EffConfigFree old :: w_log w1
       | None => w_log w1
       end.
Proof.
  cbv zeta. intros Hduid Hrv. rewrite (acquire_after_build X G o info w Hduid).
  rewrite build_config_dev.
  pose proof (find_lladdr_keeps_device G (w_dev w)) as Hkeep.
  destruct (ni_dhcp6_device_find_lladdr G (w_dev w)) as [d rv]; simpl in *.
  rewrite Hkeep by lia.
  assert (Hb : (rv <? 0) = false) by (apply Z.ltb_ge; lia). rewrite Hb.
  apply Z.ltb_lt in Hrv. rewrite Hrv. simpl.
  unfold ni_dhcp6_device_set_config. simpl.
  destruct (dev_config (w_dev w)); simpl; auto.
Qed.

Lemma acquire_wait_replaces_config_witness :
  w_log (fst (ni_dhcp6_acquire sample_externals (global_with [tentative_addr])
                sample_oracle sample_request configured_world))
  = [EffConfigFree old_config; EffSaveDuid [Byte.x00; Byte.x04]].
Proof.
  destruct (acquire_wait_replaces_config sample_externals (global_with [tentative_addr])
              sample_oracle sample_request configured_world eq_refl)
    as (_ & _ & Hlog); [reflexivity |].
  rewrite Hlog. reflexivity.
Defined.

(** X9: [ni_dhcp6_device_start] without a config returns -1 and changes
    nothing, without calling the FSM; with a config it clears [failed],
    leaves an empty buffer of at least the working size and of no less
    than its earlier size, touches nothing else and returns what
    [ni_dhcp6_fsm_start] returns for that world. *)
Theorem device_start_outcomes (X : externals) (w : world) :
  (dev_config (w_dev w) = None -> ni_dhcp6_device_start X w = (w, -1))
  /\ (dev_config (w_dev w) <> None ->
      exists m,
        ni_dhcp6_device_start X w
        = ni_dhcp6_fsm_start X
            (mk_world (set_message m (set_failed false (w_dev w))) (w_log w))
        /\ ni_buffer_count m = 0
        /\ NI_DHCP6_WBUF_SIZE X <= buf_size m
        /\ buf_size (dev_message (w_dev w)) <= buf_size m).
Proof.
  unfold ni_dhcp6_device_start. split.
  - intros ->. reflexivity.
  - destruct (dev_config (w_dev w)) as [c |]; [intros _ | intros H; contradiction].
    eexists. split; [reflexivity |]. simpl.
    destruct (buf_size (dev_message (w_dev w)) <? NI_DHCP6_WBUF_SIZE X) eqn:E;
      [apply Z.ltb_lt in E | apply Z.ltb_ge in E]; simpl; repeat split; lia.
Qed.

Lemma device_start_outcomes_witness :
  ni_dhcp6_device_start sample_externals init_world = (init_world, -1).
Proof.
  destruct (device_start_outcomes sample_externals init_world) as [H _].
  apply H. reflexivity.
Defined.

(** ** DUID derivation *)

Lemma generate_duid_scan_none (X : externals) (ifindex : Z) (devs : list ni_netdev_t) :
  forall duid,
    existsb (llt_candidate ifindex) devs = false ->
    generate_duid_scan X ifindex devs duid = (duid, false).
Proof.
  induction devs as [| ifp rest IH]; intros duid H; simpl in *; [reflexivity |].
  apply orb_false_iff in H as [Hc Hrest]. unfold llt_candidate in Hc.
  destruct (nd_ifindex ifp =? ifindex); simpl in Hc; [apply IH; exact Hrest |].
  destruct ((nd_arp_type ifp =? ARPHRD_ETHER) || (nd_arp_type ifp =? ARPHRD_IEEE802)
            || (nd_arp_type ifp =? ARPHRD_INFINIBAND)); simpl in Hc;
    [| apply IH; exact Hrest].
  rewrite Hc. apply IH. exact Hrest.
Qed.

(** X10: [ni_dhcp6_generate_duid] leaves the DUID alone when there is no
    global state or the device's interface is not in it; it takes the
    link-layer DUID of the device's own interface whenever that has a
    hardware address and [ni_duid_init_llt] accepts it, whatever the other
    interfaces are; and when the own interface has no hardware address and
    no other interface is an Ethernet, IEEE 802 or InfiniBand interface
    with a hardware address, it produces the UUID-based DUID. *)
Theorem generate_duid_chain (X : externals) (G : global_state) (o : oracle)
  (d : ni_dhcp6_device_t) (duid : list byte) :
  let gen := ni_dhcp6_generate_duid X G o d duid in
  (gs_netconfig G = None -> gen = duid)
  /\ (forall nc, gs_netconfig G = Some nc ->
        ni_netdev_by_index nc (dev_link_ifindex d) = None -> gen = duid)
  /\ (forall nc ifp, gs_netconfig G = Some nc ->
        ni_netdev_by_index nc (dev_link_ifindex d) = Some ifp ->
        (hwaddr_len ifp <> 0 ->
         snd (ni_duid_init_llt X duid (nd_arp_type ifp) (nd_hwaddr ifp)) = true ->
         gen = fst (ni_duid_init_llt X duid (nd_arp_type ifp) (nd_hwaddr ifp)))
        /\ (hwaddr_len ifp = 0 ->
            existsb (llt_candidate (dev_link_ifindex d)) nc = false ->
            gen = ni_duid_init_uuid X duid (o_uuid o))).
Proof.
  cbv zeta. unfold ni_dhcp6_generate_duid. split; [intros ->; reflexivity |].
  split.
  - intros nc -> ->. reflexivity.
  - intros nc ifp -> ->. split.
    + intros Hlen Hok. apply Z.eqb_neq in Hlen. rewrite Hlen. simpl.
      destruct (ni_duid_init_llt X duid (nd_arp_type ifp) (nd_hwaddr ifp))
        as [duid' ok]; simpl in *. rewrite Hok. reflexivity.
    + intros Hlen Hnone. rewrite Hlen. simpl.
      rewrite generate_duid_scan_none by exact Hnone. reflexivity.
Qed.

Lemma generate_duid_chain_witness :
  ni_dhcp6_generate_duid sample_externals (global_with []) sample_oracle
    init_device [] = [Byte.x00; Byte.x04].
Proof.
  destruct (generate_duid_chain sample_externals (global_with []) sample_oracle
              init_device []) as (_ & _ & H).
  destruct (H _ _ eq_refl eq_refl) as [_ Huuid].
  rewrite Huuid; reflexivity.
Defined.

Ltac preferred_not_empty Hpref :=
  try (exfalso;
       match goal with
       | Hp : _ = Some ?p, Hlen : 0 < duid_len _ |- _ =>
         rewrite <- (Hpref p Hp Hlen) in Hlen; lia
       end).

(** X11: [ni_dhcp6_config_init_duid] returns true exactly when the
    resulting client DUID is non-empty; it changes nothing of the config
    but the DUID and nothing of the device; it writes the DUID store at
    most once, with the resulting DUID, and never when it fails; a
    preferred client id that parses to a non-empty DUID is taken and
    saved; once the store has been read successfully nothing is written
    back, and a DUID that the store supplies is taken. *)
Theorem init_duid_outcomes (X : externals) (G : global_state) (o : oracle)
  (config : ni_dhcp6_config_t) (preferred : option string) (w : world) :
  let res := ni_dhcp6_config_init_duid X G o config preferred w in
  let config' := fst (fst res) in
  let w' := snd (fst res) in
  let duid' := cfg_client_duid config' in
  snd res = (0 <? duid_len duid')
  /\ config' = with_client_duid duid' config
  /\ w_dev w' = w_dev w
  /\ (w_log w' = w_log w \/ w_log w' = EffSaveDuid duid' :: w_log w)
  /\ (snd res = false -> w_log w' = w_log w)
  /\ (forall p, preferred = Some p ->
        0 < duid_len (fst (ni_duid_parse_hex X (cfg_client_duid config) p)) ->
        duid' = fst (ni_duid_parse_hex X (cfg_client_duid config) p)
        /\ w_log w' = EffSaveDuid duid' :: w_log w)
  /\ (duid_len (duid_after_preferred X G (cfg_client_duid config) preferred) = 0 ->
      snd (ni_dhcp6_load_duid X
             (duid_after_preferred X G (cfg_client_duid config) preferred)) = 0 ->
      w_log w' = w_log w
      /\ (0 < duid_len (fst (ni_dhcp6_load_duid X
                  (duid_after_preferred X G (cfg_client_duid config) preferred))) ->
          duid' = fst (ni_dhcp6_load_duid X
                    (duid_after_preferred X G (cfg_client_duid config) preferred)))).
Proof.
  cbv zeta. unfold ni_dhcp6_config_init_duid.
  fold (duid_after_preferred X G (cfg_client_duid config) preferred).
  set (d2 := duid_after_preferred X G (cfg_client_duid config) preferred).
  assert (Hpref : forall p, preferred = Some p ->
            0 < duid_len (fst (ni_duid_parse_hex X (cfg_client_duid config) p)) ->
            d2 = fst (ni_duid_parse_hex X (cfg_client_duid config) p)).
  { intros p -> Hlen. unfold d2, duid_after_preferred.
    destruct (duid_len _ =? 0) eqn:E; [apply Z.eqb_eq in E; lia | reflexivity]. }
  destruct (duid_len d2 =? 0) eqn:E2.
  - apply Z.eqb_eq in E2.
    destruct (ni_dhcp6_load_duid X d2) as [d3 rv] eqn:Eload. simpl.
    destruct (duid_len d3 =? 0) eqn:E3;
      [apply Z.eqb_eq in E3 | apply Z.eqb_neq in E3].
    + set (d4 := ni_dhcp6_generate_duid X G o (w_dev w) d3).
      destruct (0 <? duid_len d4) eqn:E4;
        (destruct (rv =? 0) eqn:Erv;
         [apply Z.eqb_eq in Erv | apply Z.eqb_neq in Erv]); simpl;
        repeat split; auto; try discriminate;
        try (intros; lia); preferred_not_empty Hpref.
    + assert (Hpos : (0 <? duid_len d3) = true).
      { apply Z.ltb_lt. unfold duid_len in *. lia. }
      rewrite Hpos.
      destruct (rv =? 0) eqn:Erv;
        [apply Z.eqb_eq in Erv | apply Z.eqb_neq in Erv]; simpl;
        repeat split; auto; try discriminate;
        try (intros; lia); preferred_not_empty Hpref.
  - apply Z.eqb_neq in E2.
    assert (Hpos : (0 <? duid_len d2) = true).
    { apply Z.ltb_lt. unfold duid_len in *. lia. }
    assert (E2b : (duid_len d2 =? 0) = false) by (apply Z.eqb_neq; exact E2).
    simpl. rewrite !E2b, !Hpos. simpl.
    split; [auto |]. split; [reflexivity |]. split; [reflexivity |].
    split; [auto |]. split; [discriminate |]. split.
    + intros p Hp Hlen. rewrite (Hpref p Hp Hlen). auto.
    + intros H. contradiction.
Qed.

Lemma init_duid_outcomes_witness :
  cfg_client_duid (fst (fst (ni_dhcp6_config_init_duid parsing_externals
                               (global_with []) sample_oracle empty_config
                               (Some "ab"%string) init_world)))
  = list_byte_of_string "ab"
  /\ w_log (snd (fst (ni_dhcp6_config_init_duid stored_duid_externals
                        (global_with []) sample_oracle empty_config None init_world)))
     = [].
Proof.
  destruct (init_duid_outcomes parsing_externals (global_with []) sample_oracle
              empty_config (Some "ab"%string) init_world)
    as (_ & _ & _ & _ & _ & Hpref & _).
  destruct (init_duid_outcomes stored_duid_externals (global_with []) sample_oracle
              empty_config None init_world)
    as (_ & _ & _ & _ & _ & _ & Hload).
  split.
  - destruct (Hpref _ eq_refl) as [H _]; [vm_compute; reflexivity | exact H].
  - destruct Hload as [H _]; [reflexivity | reflexivity | exact H].
Defined.

(** ** Vendor data and server preference *)

Lemma var_array_set_names (l : list (string * string)) (name value : string) :
  map fst (ni_var_array_set l name value)
  = if in_dec string_dec name (map fst l) then map fst l else map fst l ++ [name].
Proof.
  induction l as [| [n v] rest IH]; simpl; [reflexivity |].
  destruct (String.eqb_spec n name) as [Heq | Hne]; [subst n |]; simpl.
  - destruct (string_dec name name) as [He | H]; [reflexivity | contradiction].
  - rewrite IH. destruct (string_dec n name) as [H | Hn]; [contradiction |].
    destruct (in_dec string_dec name (map fst rest)); reflexivity.
Qed.

Lemma var_array_set_in (l : list (string * string)) (name value k x : string) :
  In (k, x) (ni_var_array_set l name value) -> (k, x) = (name, value) \/ In (k, x) l.
Proof.
  induction l as [| [n v] rest IH]; simpl.
  - intros [H | []]. left. symmetry. exact H.
  - destruct (String.eqb_spec n name) as [Heq | Hne]; [subst n |]; simpl.
    + intros [H | H]; [left; symmetry; exact H | right; right; exact H].
    + intros [H | H]; [right; left; exact H |].
      destruct (IH H) as [H' | H']; [left; exact H' | right; right; exact H'].
Qed.

Lemma var_array_set_nodup (l : list (string * string)) (name value : string) :
  NoDup (map fst l) -> NoDup (map fst (ni_var_array_set l name value)).
Proof.
  intros H. rewrite var_array_set_names.
  destruct (in_dec string_dec name (map fst l)) as [Hin | Hnin]; [exact H |].
  apply NoDup_app; [exact H | constructor; [intros [] | constructor] |].
  intros a Ha [<- | []]. contradiction.
Qed.

Section VendorOpts.

Variable cfg : list (option string * string).

Let step (acc : list (string * string)) (var : option string * string) :=
  if ni_string_empty (fst var) then acc
  else match fst var with
       | Some name => ni_var_array_set acc name (snd var)
       | None => acc
       end.

Let good (acc : list (string * string)) : Prop :=
  NoDup (map fst acc)
  /\ forall k x, In (k, x) acc -> k <> EmptyString /\ In (Some k, x) cfg.

Lemma vendor_opts_fold (vars : list (option string * string)) :
  forall acc, incl vars cfg -> good acc -> good (fold_left step vars acc).
Proof.
  induction vars as [| var rest IH]; intros acc Hincl Hgood; simpl; [exact Hgood |].
  apply IH; [intros v Hv; apply Hincl; right; exact Hv |].
  unfold step. destruct var as [[name |] value]; simpl; [| exact Hgood].
  destruct (String.length name =? 0)%nat eqn:E; [exact Hgood |].
  destruct Hgood as [Hnd Hin]. split; [apply var_array_set_nodup; exact Hnd |].
  intros k x Hk. destruct (var_array_set_in _ _ _ _ _ Hk) as [Heq | Hold].
  - injection Heq as -> ->. split.
    + intros ->. discriminate E.
    + apply Hincl. left. reflexivity.
  - apply Hin. exact Hold.
Qed.

End VendorOpts.

(** X12: the vendor class never carries enterprise number 0: an
    unconfigured number is replaced by 7075 with the package name and
    version as the only class string.  The vendor options carry the
    configured enterprise number; for number 0 they are empty, and
    otherwise every option has a non-empty name, no name occurs twice, and
    every option is one of the configured ones. *)
Theorem vendor_data_well_formed (G : global_state) :
  fst (ni_dhcp6_config_vendor_class G) <> 0
  /\ (vendor_class_en (gs_dhconf G) = 0 ->
      ni_dhcp6_config_vendor_class G = (7075, ["wicked-dhcp6/0.0.0"%string]))
  /\ (vendor_class_en (gs_dhconf G) <> 0 ->
      ni_dhcp6_config_vendor_class G
      = (vendor_class_en (gs_dhconf G), vendor_class_data (gs_dhconf G)))
  /\ fst (ni_dhcp6_config_vendor_opts G) = vendor_opts_en (gs_dhconf G)
  /\ (vendor_opts_en (gs_dhconf G) = 0 -> snd (ni_dhcp6_config_vendor_opts G) = [])
  /\ NoDup (map fst (snd (ni_dhcp6_config_vendor_opts G)))
  /\ (forall name value,
        In (name, value) (snd (ni_dhcp6_config_vendor_opts G)) ->
        name <> EmptyString
        /\ In (Some name, value) (vendor_opts_data (gs_dhconf G))).
Proof.
  unfold ni_dhcp6_config_vendor_class, ni_dhcp6_config_vendor_opts.
  split; [| split; [| split; [| split; [| split]]]].
  - destruct (vendor_class_en (gs_dhconf G) =? 0) eqn:E; simpl;
      [discriminate | apply Z.eqb_neq in E; exact E].
  - intros ->. reflexivity.
  - intros H. apply Z.eqb_neq in H. rewrite H. reflexivity.
  - destruct (vendor_opts_en (gs_dhconf G) =? 0) eqn:E; simpl;
      [apply Z.eqb_eq in E; congruence | reflexivity].
  - intros ->. reflexivity.
  - destruct (vendor_opts_en (gs_dhconf G) =? 0); simpl.
    + split; [constructor | intros ? ? []].
    + apply (@vendor_opts_fold (vendor_opts_data (gs_dhconf G))
               (vendor_opts_data (gs_dhconf G)) []).
      * apply incl_refl.
      * split; [constructor | intros ? ? []].
Qed.

Lemma vendor_data_well_formed_witness :
  ni_dhcp6_config_vendor_class (mk_global None vendor_dhconf)
  = (7075, ["wicked-dhcp6/0.0.0"%string])
  /\ snd (ni_dhcp6_config_vendor_opts (mk_global None vendor_dhconf))
     = [("a", "4"); ("b", "3")]%string.
Proof.
  destruct (vendor_data_well_formed (mk_global None vendor_dhconf)) as (_ & H & _).
  split; [apply H; reflexivity | reflexivity].
Defined.

Lemma bytes_eqb_eq (a b : list byte) : bytes_eqb a b = true <-> a = b.
Proof.
  revert b. induction a as [| x a IH]; intros [| y b]; simpl;
    try (split; [discriminate | discriminate]); [split; reflexivity |].
  rewrite andb_true_iff, IH. split.
  - intros [Hx ->]. apply Byte.byte_dec_bl in Hx. subst. reflexivity.
  - intros H. injection H as -> ->. split; [apply Byte.byte_dec_lb |]; reflexivity.
Qed.

(** When an entry of the preference list matches a server. *)
Lemma preference_matches_iff (addr duid : option (list byte))
  (pref : ni_server_preference_t) :
  preference_matches addr duid pref = true
  <-> (ss_family (pref_address pref) = AF_INET6
       /\ addr = Some (sin6_addr (pref_address pref)))
      \/ (ss_family (pref_address pref) <> AF_INET6
          /\ 0 < duid_len (pref_serverid pref)
          /\ duid = Some (pref_serverid pref)).
Proof.
  unfold preference_matches.
  destruct (ss_family (pref_address pref) =? AF_INET6) eqn:Ef;
    [apply Z.eqb_eq in Ef | apply Z.eqb_neq in Ef].
  - destruct addr as [a |].
    + rewrite bytes_eqb_eq. split.
      * intros ->. left. auto.
      * intros [[_ H] | [H _]]; [congruence | contradiction].
    + split; [discriminate | intros [[_ H] | [H _]]; [discriminate | contradiction]].
  - destruct (0 <? duid_len (pref_serverid pref)) eqn:El;
      [apply Z.ltb_lt in El | apply Z.ltb_ge in El].
    + destruct duid as [d |].
      * rewrite bytes_eqb_eq. split.
        -- intros ->. right. auto.
        -- intros [[H _] | (_ & _ & H)]; [contradiction | congruence].
      * split; [discriminate |].
        intros [[H _] | (_ & _ & H)]; [contradiction | discriminate].
    + split; [discriminate |].
      intros [[H _] | (_ & H & _)]; [contradiction | lia].
Qed.

(** X13: [ni_dhcp6_config_server_preference] reports the weight of the
    first configured entry that matches and leaves the weight alone when
    none does.  An entry with an IPv6 address matches exactly the server
    with that address, whatever server DUID the entry carries; an entry
    without one matches exactly the server whose DUID is the entry's
    non-empty one; an entry with neither never matches, and a server known
    by neither address nor DUID matches nothing. *)
Theorem server_preference_first_match (prefs : list ni_server_preference_t)
  (addr duid : option (list byte)) (weight : Z) :
  let res := ni_dhcp6_config_server_preference prefs addr duid weight in
  (fst res = true <-> existsb (preference_matches addr duid) prefs = true)
  /\ (fst res = false -> snd res = weight)
  /\ (forall pre p post,
        prefs = pre ++ p :: post ->
        existsb (preference_matches addr duid) pre = false ->
        preference_matches addr duid p = true ->
        res = (true, pref_weight p))
  /\ (forall p,
        preference_matches addr duid p = true
        <-> (ss_family (pref_address p) = AF_INET6
             /\ addr = Some (sin6_addr (pref_address p)))
            \/ (ss_family (pref_address p) <> AF_INET6
                /\ 0 < duid_len (pref_serverid p)
                /\ duid = Some (pref_serverid p)))
  /\ (addr = None -> duid = None -> res = (false, weight)).
Proof.
  cbv zeta. split; [| split; [| split; [| split]]].
  - induction prefs as [| p rest IH]; simpl; [split; discriminate |].
    destruct (preference_matches addr duid p); simpl; [split; reflexivity | exact IH].
  - induction prefs as [| p rest IH]; simpl; [reflexivity |].
    destruct (preference_matches addr duid p); simpl; [discriminate | exact IH].
  - intros pre p post Heq Hpre Hp. subst prefs.
    induction pre as [| q pre IH]; simpl.
    + rewrite Hp. reflexivity.
    + simpl in Hpre. apply orb_false_iff in Hpre as [Hq Hpre].
      rewrite Hq. apply IH. exact Hpre.
  - intros p. apply preference_matches_iff.
  - intros -> ->. induction prefs as [| p rest IH]; simpl; [reflexivity |].
    assert (H : preference_matches None None p = false).
    { destruct (preference_matches None None p) eqn:E; [| reflexivity].
      apply preference_matches_iff in E as [[_ H] | (_ & _ & H)]; discriminate. }
    rewrite H. exact IH.
Qed.

Lemma server_preference_first_match_witness :
  ni_dhcp6_config_server_preference sample_preferences
    (Some (sin6_addr fe80_1)) None 0 = (true, 10)
  /\ ni_dhcp6_config_server_preference sample_preferences
       (Some (repeat Byte.x00 16)) (Some sample_duid) 0 = (true, 20).
Proof.
  destruct (server_preference_first_match sample_preferences
              (Some (sin6_addr fe80_1)) None 0) as (_ & _ & H1 & _).
  destruct (server_preference_first_match sample_preferences
              (Some (repeat Byte.x00 16)) (Some sample_duid) 0) as (_ & _ & H2 & _).
  split.
  - exact (H1 [mk_preference [] sockaddr_unspec 5]
              (mk_preference sample_duid fe80_1 10)
              [mk_preference sample_duid sockaddr_unspec 20]
              eq_refl eq_refl eq_refl).
  - exact (H2 [mk_preference [] sockaddr_unspec 5; mk_preference sample_duid fe80_1 10]
              (mk_preference sample_duid sockaddr_unspec 20) []
              eq_refl eq_refl eq_refl).
Defined.

(** ** Events *)





(** ** Stopping a device *)

Ltac destruct_handle hw :=
  let d := fresh "d" in
  destruct hw as [[d ? ? ? [? ?]] ?];
  destruct d as [? ? ? ? ? ? ? [? ? ?] ? ? ? ?].

(** X15: [ni_dhcp6_device_stop] ends with no lease, no best offer (weight
    -1), no config, no request, no FSM timer and no multicast socket, in
    state [INIT]; it leaves the retransmission block, [xid], the recorded
    link-local address, the IAID, the name and index, the buffer, the
    [failed] and [fail_on_timeout] flags, the reference count and the
    creation time as they were; and it is idempotent on the handle: a
    second stop changes nothing and frees nothing, it only closes the
    socket again. *)
Theorem stop_end_state (L : lease_ptr -> Z * Z) (hw : hworld) :
  let h := hw_handle hw in
  let h' := hw_handle (ni_dhcp6_device_stop L hw) in
  let d := h_dev h in
  let d' := h_dev h' in
  (dev_lease d' = None /\ h_best_offer h' = mk_best_offer (-1) None
   /\ dev_config d' = None /\ h_request h' = None
   /\ dev_fsm d' = mk_fsm NI_DHCP6_STATE_INIT None (fsm_fail_on_timeout (dev_fsm d))
   /\ dev_mcast_sock d' = None)
  /\ (dev_retrans d' = dev_retrans d /\ dev_xid d' = dev_xid d
      /\ dev_link_addr d' = dev_link_addr d /\ dev_iaid d' = dev_iaid d
      /\ dev_ifname d' = dev_ifname d /\ dev_link_ifindex d' = dev_link_ifindex d
      /\ dev_message d' = dev_message d /\ dev_failed d' = dev_failed d
      /\ h_users h' = h_users h /\ h_start_time h' = h_start_time h)
  /\ ni_dhcp6_device_stop L (ni_dhcp6_device_stop L hw)
     = hemit (HDev EffMcastSocketClose) (ni_dhcp6_device_stop L hw).
Proof.
  destruct hw as [[d users st req [bw bl]] log].
  destruct d as [ifn idx la iaid xid msg rt [state timer fot] failed cfg lease sock].
  destruct req, bl, timer, cfg, lease; vm_compute; repeat split.
Qed.

Lemma stop_end_state_witness :
  map (fun e => match e with HDev (EffLeaseFree p) => p | _ => None end)
      (hw_log (ni_dhcp6_device_stop sample_lease_store (mk_hworld busy_handle [])))
  = [None; None; None; None; Some 8; Some 7; None]
  /\ hw_log (ni_dhcp6_device_stop sample_lease_store
               (ni_dhcp6_device_stop sample_lease_store (mk_hworld busy_handle [])))
     = HDev EffMcastSocketClose
         :: hw_log (ni_dhcp6_device_stop sample_lease_store (mk_hworld busy_handle [])).
Proof.
  destruct (stop_end_state sample_lease_store (mk_hworld busy_handle []))
    as (_ & _ & Hidem).
  split; [reflexivity |]. rewrite Hidem. reflexivity.
Defined.

(** X16: of the device events only [DEVICE_DOWN] frees, closes or cancels
    anything, and it does what [ni_dhcp6_device_stop] does; [DEVICE_UP]
    makes the handle carry the interface's current name and changes
    nothing else; every other event leaves the handle as it is. *)
Theorem device_event_outcomes (L : lease_ptr -> Z * Z) (hw : hworld)
  (ifp : ni_netdev_t) (event : ni_event_t) :
  let hw' := ni_dhcp6_device_event L hw ifp event in
  (event = NI_EVENT_DEVICE_DOWN -> hw' = ni_dhcp6_device_stop L hw)
  /\ (event = NI_EVENT_DEVICE_UP ->
      hw' = on_handle_dev (set_ifname (Some (nd_name ifp))) hw)
  /\ (event <> NI_EVENT_DEVICE_DOWN ->
      hw_log hw' = hw_log hw
      /\ hw_handle hw'
         = with_dev (set_ifname (dev_ifname (h_dev (hw_handle hw')))
                       (h_dev (hw_handle hw))) (hw_handle hw))
  /\ (event <> NI_EVENT_DEVICE_DOWN -> event <> NI_EVENT_DEVICE_UP -> hw' = hw).
Proof.
  cbv zeta.
  assert (Hup : ni_dhcp6_device_event L hw ifp NI_EVENT_DEVICE_UP
                = on_handle_dev (set_ifname (Some (nd_name ifp))) hw).
  { simpl. destruct (ni_string_eq _ _) eqn:E; [| reflexivity].
    destruct_handle hw. simpl in *.
    match goal with
    | H : ni_string_eq ?n _ = true |- _ => destruct n as [s |]; [| discriminate H];
        apply String.eqb_eq in H; subst s
    end.
    reflexivity. }
  split; [intros ->; reflexivity |].
  split; [intros ->; exact Hup |].
  split.
  - intros Hd. destruct event; try contradiction;
      try (destruct_handle hw; split; reflexivity).
    rewrite Hup. destruct_handle hw. split; reflexivity.
  - intros Hd Hu. destruct event; try contradiction; reflexivity.
Qed.

Lemma device_event_outcomes_witness :
  dev_ifname (h_dev (hw_handle
     (ni_dhcp6_device_event sample_lease_store (mk_hworld busy_handle [])
        (mk_netdev "lan0" 3 ARPHRD_ETHER [] None true []) NI_EVENT_DEVICE_UP)))
  = Some "lan0"%string
  /\ ni_dhcp6_device_event sample_lease_store (mk_hworld busy_handle [])
       eth0_netdev NI_EVENT_LINK_DOWN = mk_hworld busy_handle [].
Proof.
  destruct (device_event_outcomes sample_lease_store (mk_hworld busy_handle [])
              (mk_netdev "lan0" 3 ARPHRD_ETHER [] None true []) NI_EVENT_DEVICE_UP)
    as (_ & Hup & _).
  destruct (device_event_outcomes sample_lease_store (mk_hworld busy_handle [])
              eth0_netdev NI_EVENT_LINK_DOWN) as (_ & _ & _ & Hother).
  split.
  - rewrite (Hup eq_refl). reflexivity.
  - apply Hother; discriminate.
Defined.

(** ** Registry *)




Lemma deref_in (p : Z) (reg : registry) (h : ni_dhcp6_handle_t) :
  deref p reg = Some h -> In (p, h) reg.
Proof.
  unfold deref. induction reg as [| [q h'] rest IH]; simpl; [discriminate |].
  destruct (q =? p) eqn:E; simpl.
  - apply Z.eqb_eq in E. intros H. injection H as ->. left. congruence.
  - intros H. right. apply IH. exact H.
Qed.

Lemma deref_store_same (p : Z) (h h0 : ni_dhcp6_handle_t) (reg : registry) :
  deref p reg = Some h0 -> deref p (store p h reg) = Some h.
Proof.
  unfold deref. induction reg as [| [q h'] rest IH]; simpl; [discriminate |].
  destruct (q =? p) eqn:E; simpl; rewrite E; simpl; [reflexivity | exact IH].
Qed.

Lemma deref_store_other (p q : Z) (h : ni_dhcp6_handle_t) (reg : registry) :
  q <> p -> deref q (store p h reg) = deref q reg.
Proof.
  intros Hne. unfold deref. induction reg as [| [r h'] rest IH]; simpl; [reflexivity |].
  destruct (r =? p) eqn:E; simpl.
  - apply Z.eqb_eq in E. subst r.
    assert (Hpq : (p =? q) = false) by (apply Z.eqb_neq; congruence).
    rewrite Hpq. reflexivity.
  - destruct (r =? q); [reflexivity | exact IH].
Qed.

Lemma store_store (p : Z) (h h1 : ni_dhcp6_handle_t) (reg : registry) :
  deref p reg = Some h -> store p h (store p h1 reg) = reg.
Proof.
  unfold deref. induction reg as [| [q h'] rest IH]; simpl; [reflexivity |].
  destruct (q =? p) eqn:E; simpl; rewrite E.
  - intros H. injection H as ->. reflexivity.
  - intros H. rewrite IH by exact H. reflexivity.
Qed.

Lemma splice_out_store (p : Z) (h : ni_dhcp6_handle_t) (reg : registry) :
  splice_out p (store p h reg) = splice_out p reg.
Proof.
  induction reg as [| [q h'] rest IH]; simpl; [reflexivity |].
  destruct (q =? p) eqn:E; simpl; rewrite E; [reflexivity |].
  rewrite IH. reflexivity.
Qed.

Lemma splice_out_filter (p : Z) (reg : registry) :
  NoDup (map fst reg) ->
  splice_out p reg = filter (fun e => negb (fst e =? p)) reg.
Proof.
  induction reg as [| [q h] rest IH]; simpl; [reflexivity |].
  intros Hnd. inversion Hnd as [| ? ? Hnin Hnd']; subst.
  destruct (q =? p) eqn:E; simpl.
  - apply Z.eqb_eq in E. subst q. symmetry.
    apply forallb_filter_id. apply forallb_forall. intros [r hr] Hin. simpl.
    apply negb_true_iff, Z.eqb_neq. intros ->.
    apply Hnin. apply (in_map fst) in Hin. exact Hin.
  - rewrite IH by exact Hnd'. reflexivity.
Qed.

Lemma deref_filter_out (p : Z) (reg : registry) :
  deref p (filter (fun e => negb (fst e =? p)) reg) = None.
Proof.
  unfold deref. induction reg as [| [q h] rest IH]; simpl; [reflexivity |].
  destruct (q =? p) eqn:E; simpl; [exact IH |]. rewrite E. exact IH.
Qed.

Lemma deref_filter_other (p q : Z) (reg : registry) :
  q <> p -> deref q (filter (fun e => negb (fst e =? p)) reg) = deref q reg.
Proof.
  intros Hne. unfold deref. induction reg as [| [r h] rest IH]; simpl; [reflexivity |].
  destruct (r =? p) eqn:E; simpl.
  - apply Z.eqb_eq in E. subst r.
    assert (Hpq : (p =? q) = false) by (apply Z.eqb_neq; congruence).
    rewrite Hpq. exact IH.
  - destruct (r =? q); [reflexivity | exact IH].
Qed.

Lemma device_free_active (L : lease_ptr -> Z * Z) (p : Z) (sys sys' : system) :
  ni_dhcp6_device_free L p sys = Some sys' ->
  sys_active sys' = splice_out p (sys_active sys)
  /\ exists h, deref p (sys_active sys) = Some h /\ h_users h = 0.
Proof.
  unfold ni_dhcp6_device_free.
  destruct (deref p (sys_active sys)) as [h |]; [| discriminate].
  destruct (h_users h =? 0) eqn:E; simpl; [| discriminate].
  intros H. injection H as <-. simpl. split; [reflexivity |].
  exists h. split; [reflexivity | apply Z.eqb_eq; exact E].
Qed.

(** X18: [ni_dhcp6_device_free] succeeds only for a live device whose
    reference count is 0; in a registry of distinct devices it removes
    exactly that device: the device is no longer reachable, every other
    device is reached as before and keeps its place in the list, and the
    last effect is the release of the device's memory. *)
Theorem device_free_splices (L : lease_ptr -> Z * Z) (p : Z) (sys sys' : system) :
  NoDup (map fst (sys_active sys)) ->
  ni_dhcp6_device_free L p sys = Some sys' ->
  (exists h, deref p (sys_active sys) = Some h /\ h_users h = 0)
  /\ sys_active sys' = filter (fun e => negb (fst e =? p)) (sys_active sys)
  /\ deref p (sys_active sys') = None
  /\ (forall q, q <> p -> deref q (sys_active sys') = deref q (sys_active sys))
  /\ S (List.length (sys_active sys')) = List.length (sys_active sys)
  /\ (exists rest, sys_log sys' = HDeviceFree p :: rest).
Proof.
  intros Hnd Hfree.
  destruct (device_free_active L p sys Hfree) as [Hact (h & Hh & Hu)].
  assert (Hfil : sys_active sys' = filter (fun e => negb (fst e =? p)) (sys_active sys))
    by (rewrite Hact; apply splice_out_filter; exact Hnd).
  split; [exists h; auto |]. split; [exact Hfil |].
  split; [rewrite Hfil; apply deref_filter_out |].
  split; [intros q Hq; rewrite Hfil; apply deref_filter_other; exact Hq |].
  split.
  - rewrite Hact. apply deref_in in Hh. clear - Hh.
    induction (sys_active sys) as [| [q hq] rest IH]; simpl in *; [contradiction |].
    destruct (q =? p) eqn:E; simpl; [reflexivity |].
    destruct Hh as [Heq | Hin].
    + injection Heq as -> _. rewrite Z.eqb_refl in E. discriminate.
    + rewrite IH by exact Hin. reflexivity.
  - unfold ni_dhcp6_device_free in Hfree. rewrite Hh in Hfree.
    destruct (negb (h_users h =? 0)); [discriminate |].
    injection Hfree as <-. simpl. eexists. reflexivity.
Qed.

Lemma device_free_splices_witness :
  option_map (fun s => map fst (sys_active s))
    (ni_dhcp6_device_free sample_lease_store 100 orphan_system) = Some [200].
Proof.
  destruct (ni_dhcp6_device_free sample_lease_store 100 orphan_system)
    as [sys' |] eqn:E; [| vm_compute in E; discriminate E].
  assert (Hnd : NoDup (map fst (sys_active orphan_system))).
  { simpl. constructor; [intros [H | []]; discriminate H |].
    constructor; [intros [] | constructor]. }
  destruct (device_free_splices sample_lease_store 100 orphan_system Hnd E)
    as (_ & Hfil & _).
  simpl. rewrite Hfil. reflexivity.
Defined.

(** ** Reference counts *)

Lemma all_referenced_store (p : Z) (h : ni_dhcp6_handle_t) (reg : registry) :
  1 <= h_users h -> all_referenced reg -> all_referenced (store p h reg).
Proof.
  intros Hu. unfold all_referenced.
  induction reg as [| [q h'] rest IH]; simpl; intros H; [constructor |].
  inversion H as [| ? ? Hq Hrest]; subst.
  destruct (q =? p); constructor; auto.
Qed.

Lemma all_referenced_splice (p : Z) (h : ni_dhcp6_handle_t) (reg : registry) :
  all_referenced reg -> all_referenced (splice_out p (store p h reg)).
Proof.
  unfold all_referenced.
  induction reg as [| [q h'] rest IH]; simpl; intros H; [constructor |].
  inversion H as [| ? ? Hq Hrest]; subst.
  destruct (q =? p) eqn:E; simpl; rewrite E; [exact Hrest |].
  constructor; auto.
Qed.

(** X19: [ni_dhcp6_device_get] and [ni_dhcp6_device_put] fail (the
    assertion) for a device without references and otherwise balance:
    for a non-negative count, a put after a get restores the registry and
    its effect log exactly; a
    put on a device with several references only decrements the count;
    a put on the last reference frees the device out of the registry; and
    get, put and [ni_dhcp6_device_new] keep every registered device
    referenced at least once. *)
Theorem refcount_balance (L : lease_ptr -> Z * Z) (p : Z) (sys : system) :
  (forall h, deref p (sys_active sys) = Some h -> h_users h = 0 ->
     ni_dhcp6_device_get p sys = None /\ ni_dhcp6_device_put L p sys = None)
  /\ (forall h sys1, deref p (sys_active sys) = Some h -> 0 <= h_users h ->
        ni_dhcp6_device_get p sys = Some sys1 ->
        ni_dhcp6_device_put L p sys1 = Some sys)
  /\ (forall h, deref p (sys_active sys) = Some h -> 1 < h_users h ->
        ni_dhcp6_device_put L p sys
        = Some (mk_system (store p (with_users (h_users h - 1) h) (sys_active sys))
                  (sys_log sys)))
  /\ (forall h sys', deref p (sys_active sys) = Some h -> h_users h = 1 ->
        ni_dhcp6_device_put L p sys = Some sys' ->
        sys_active sys' = splice_out p (sys_active sys))
  /\ (all_referenced (sys_active sys) ->
      (forall sys', ni_dhcp6_device_get p sys = Some sys' ->
                    all_referenced (sys_active sys'))
      /\ (forall sys', ni_dhcp6_device_put L p sys = Some sys' ->
                       all_referenced (sys_active sys'))
      /\ (forall G tmp0 o ifname ifindex,
            all_referenced
              (sys_active (ni_dhcp6_device_new G tmp0 o p ifname ifindex sys)))).
Proof.
  split; [| split; [| split; [| split]]].
  - intros h Hh Hu. unfold ni_dhcp6_device_get, ni_dhcp6_device_put.
    rewrite Hh, Hu. simpl. auto.
  - intros h sys1 Hh Hpos. unfold ni_dhcp6_device_get. rewrite Hh.
    destruct (h_users h =? 0) eqn:Eu; [discriminate |].
    intros H. injection H as <-. apply Z.eqb_neq in Eu.
    unfold ni_dhcp6_device_put. simpl.
    rewrite (@deref_store_same p (with_users (h_users h + 1) h) h (sys_active sys) Hh).
    simpl.
    assert (E1 : (h_users h + 1 =? 0) = false) by (apply Z.eqb_neq; lia).
    assert (E2 : (h_users h + 1 - 1 =? 0) = false) by (apply Z.eqb_neq; lia).
    rewrite E1, E2.
    replace (h_users h + 1 - 1) with (h_users h) by lia.
    replace (with_users (h_users h) (with_users (h_users h + 1) h)) with h
      by (destruct h; reflexivity).
    rewrite store_store by exact Hh.
    destruct sys; reflexivity.
  - intros h Hh Hu. unfold ni_dhcp6_device_put. rewrite Hh.
    assert (E1 : (h_users h =? 0) = false) by (apply Z.eqb_neq; lia).
    assert (E2 : (h_users h - 1 =? 0) = false) by (apply Z.eqb_neq; lia).
    rewrite E1, E2. reflexivity.
  - intros h sys' Hh Hu. unfold ni_dhcp6_device_put. rewrite Hh, Hu. simpl.
    intros Hfree. apply device_free_active in Hfree as [Hact _].
    rewrite Hact. simpl. apply splice_out_store.
  - intros Hall. split; [| split].
    + intros sys'. unfold ni_dhcp6_device_get.
      destruct (deref p (sys_active sys)) as [h |] eqn:Hh; [| discriminate].
      destruct (h_users h =? 0); [discriminate |].
      intros H. injection H as <-. simpl.
      apply all_referenced_store; [| exact Hall]. simpl.
      apply deref_in in Hh. unfold all_referenced in Hall.
      rewrite Forall_forall in Hall. specialize (Hall _ Hh). simpl in Hall. lia.
    + intros sys'. unfold ni_dhcp6_device_put.
      destruct (deref p (sys_active sys)) as [h |] eqn:Hh; [| discriminate].
      destruct (h_users h =? 0) eqn:E0; [discriminate |].
      destruct (h_users h - 1 =? 0) eqn:E1.
      * intros Hfree. apply device_free_active in Hfree as [Hact _].
        rewrite Hact. simpl. apply all_referenced_splice. exact Hall.
      * intros H. injection H as <-. simpl.
        apply all_referenced_store; [| exact Hall]. simpl.
        apply deref_in in Hh. unfold all_referenced in Hall.
        rewrite Forall_forall in Hall. specialize (Hall _ Hh). simpl in Hall.
        apply Z.eqb_neq in E1. lia.
    + intros G tmp0 o ifname ifindex. simpl. unfold all_referenced.
      apply Forall_app. split; [exact Hall |].
      constructor; [simpl; lia | constructor].
Qed.

Lemma refcount_balance_witness :
  option_map sys_active (ni_dhcp6_device_get 200 sample_system)
  = Some [(100, idle_handle 3); (200, with_users 3 (idle_handle 4))]
  /\ ni_dhcp6_device_put sample_lease_store 200
       (mk_system [(100, idle_handle 3); (200, with_users 3 (idle_handle 4))] [])
     = Some sample_system.
Proof.
  destruct (refcount_balance sample_lease_store 200 sample_system)
    as (_ & Hbal & _).
  split; [reflexivity |].
  apply (Hbal (with_users 2 (idle_handle 4))); [reflexivity | simpl; lia | reflexivity].
Defined.

(** ** Range of the IAID *)

Lemma le_decode_bound (bs : list byte) :
  0 <= le_decode bs < 256 ^ Z.of_nat (List.length bs).
Proof.
  induction bs as [| b rest IH]; cbn [le_decode List.length].
  - simpl. lia.
  - rewrite Nat2Z.inj_succ, Z.pow_succ_r by lia.
    pose proof (byte_val_range b). lia.
Qed.

Lemma lxor_bound (n a b : Z) :
  0 <= n -> 0 <= a < 2 ^ n -> 0 <= b < 2 ^ n -> 0 <= Z.lxor a b < 2 ^ n.
Proof.
  intros Hn Ha Hb.
  assert (Hnn : 0 <= Z.lxor a b) by (apply Z.lxor_nonneg; lia).
  split; [exact Hnn |].
  destruct (Z.eq_dec (Z.lxor a b) 0) as [-> | Hne]; [lia |].
  apply Z.log2_lt_pow2; [lia |].
  pose proof (Z.log2_lxor a b) as Hl.
  assert (Hla : a = 0 \/ Z.log2 a < n)
    by (destruct (Z.eq_dec a 0); [auto | right; apply Z.log2_lt_pow2; lia]).
  assert (Hlb : b = 0 \/ Z.log2 b < n)
    by (destruct (Z.eq_dec b 0); [auto | right; apply Z.log2_lt_pow2; lia]).
  assert (Z.log2 a < n /\ Z.log2 b < n).
  { assert (0 < n).
    { destruct (Z.eq_dec n 0) as [-> | ?]; [| lia].
      simpl in *. assert (a = 0) by lia. assert (b = 0) by lia. subst.
      contradiction Hne. reflexivity. }
    split; [destruct Hla as [-> | ?] | destruct Hlb as [-> | ?]];
      simpl; lia. }
  specialize (Hl ltac:(lia) ltac:(lia)). lia.
Qed.

(** X21: for an interface that is found, with a 32 bit ifindex and VLAN
    tag and a zero scratch word, a derived IAID is a 32 bit value; when the
    interface is not found (or there is no global state) the derivation
    fails and leaves the caller's IAID untouched, while the failure for a
    missing name overwrites it with 0. *)
Theorem iaid_range (nc : ni_netconfig_t) (d : ni_dhcp6_device_t)
  (ifp : ni_netdev_t) (iaid0 : Z) :
  ni_netdev_by_index nc (dev_link_ifindex d) = Some ifp ->
  0 <= dev_link_ifindex d < 2 ^ 32 ->
  (forall tag, nd_vlan ifp = Some tag -> tag < 2 ^ 32) ->
  0 <= snd (ni_dhcp6_device_iaid (Some nc) 0 d iaid0) < 2 ^ 32
  /\ (fst (ni_dhcp6_device_iaid (Some nc) 0 d iaid0) = -1 ->
      snd (ni_dhcp6_device_iaid (Some nc) 0 d iaid0) = 0)
  /\ ni_dhcp6_device_iaid None 0 d iaid0 = (-1, iaid0)
  /\ (forall nc', ni_netdev_by_index nc' (dev_link_ifindex d) = None ->
        ni_dhcp6_device_iaid (Some nc') 0 d iaid0 = (-1, iaid0)).
Proof.
  intros Hfound Hidx Htag.
  split; [| split; [| split]].
  - destruct (Nat.lt_ge_cases 4 (List.length (nd_hwaddr ifp))) as [Hlen | Hlen].
    + rewrite (iaid_from_hwaddr nc d iaid0 Hfound 0 Hlen). cbn [snd].
      pose proof (le_decode_bound (skipn (List.length (nd_hwaddr ifp) - 4)
                                     (nd_hwaddr ifp))) as Hb.
      rewrite length_skipn in Hb.
      replace (List.length (nd_hwaddr ifp) - (List.length (nd_hwaddr ifp) - 4))%nat
        with 4%nat in Hb by lia.
      change (256 ^ Z.of_nat 4) with (2 ^ 32) in Hb. exact Hb.
    + destruct (Nat.eq_dec (ni_string_len (dev_ifname d)) 0) as [Hname | Hname].
      * rewrite (iaid_fails nc d iaid0 Hfound Hlen Hname 0). cbn [snd]. lia.
      * rewrite (iaid_from_ifname nc d iaid0 Hfound Hlen Hname). cbn [snd].
        set (k := (ni_string_len (dev_ifname d) mod 4)%nat).
        assert (Hk : (k < 4)%nat) by (apply Nat.mod_upper_bound; lia).
        pose proof (le_decode_bound (firstn k (string_bytes (dev_ifname d)))) as Hb.
        assert (Hw : 0 <= le_decode (firstn k (string_bytes (dev_ifname d))) < 2 ^ 32).
        { split; [lia |]. eapply Z.lt_le_trans; [apply Hb |].
          change (2 ^ 32) with (256 ^ 4).
          apply Z.pow_le_mono_r; [lia |].
          pose proof (length_firstn k (string_bytes (dev_ifname d))). lia. }
        apply lxor_bound; [lia | | exact Hidx].
        destruct (nd_vlan ifp) as [tag |] eqn:Ev;
          [destruct (0 <? tag) eqn:Et; [apply Z.ltb_lt in Et |] |];
          rewrite ?Z.lxor_0_l; try exact Hw.
        apply lxor_bound; [lia | | specialize (Htag tag eq_refl); lia].
        exact Hw.
  - destruct (Nat.lt_ge_cases 4 (List.length (nd_hwaddr ifp))) as [Hlen | Hlen].
    + rewrite (iaid_from_hwaddr nc d iaid0 Hfound 0 Hlen). simpl. discriminate.
    + destruct (Nat.eq_dec (ni_string_len (dev_ifname d)) 0) as [Hname | Hname].
      * rewrite (iaid_fails nc d iaid0 Hfound Hlen Hname 0). reflexivity.
      * rewrite (iaid_from_ifname nc d iaid0 Hfound Hlen Hname). simpl. discriminate.
  - reflexivity.
  - intros nc' Hnone. unfold ni_dhcp6_device_iaid. rewrite Hnone. reflexivity.
Qed.

Lemma iaid_range_witness :
  0 <= snd (ni_dhcp6_device_iaid (Some [mac8_netdev]) 0 sample_device 0) < 2 ^ 32.
Proof.
  refine (proj1 (iaid_range [mac8_netdev] sample_device 0 (ifp := mac8_netdev)
                   eq_refl _ _)).
  - simpl. lia.
  - intros tag H. discriminate H.
Defined.

(** ** Reach of the ignore-server check *)

(** X22: [ni_dhcp6_config_ignore_server] never reports a match for an
    empty ignore list, and its answer depends on the first four bytes of
    the server address only: two servers whose addresses agree there get
    the same answer. *)
Theorem ignore_server_first_four_bytes (G : global_state) (a b : list byte) :
  (ignore_servers (gs_dhconf G) = [] ->
   ni_dhcp6_config_ignore_server G a = false)
  /\ (List.length a = 16%nat -> List.length b = 16%nat ->
      firstn 4 a = firstn 4 b ->
      ni_dhcp6_config_ignore_server G a = ni_dhcp6_config_ignore_server G b).
Proof.
  unfold ni_dhcp6_config_ignore_server. split.
  - intros ->. reflexivity.
  - intros Ha Hb Heq.
    destruct a as [| a0 [| a1 [| a2 [| a3 a']]]]; try discriminate Ha.
    destruct b as [| b0 [| b1 [| b2 [| b3 b']]]]; try discriminate Hb.
    simpl in Heq. injection Heq as -> -> -> ->. reflexivity.
Qed.

Lemma ignore_server_first_four_bytes_witness :
  ni_dhcp6_config_ignore_server (mk_global None sample_dhconf) (sin6_addr fe80_1)
  = ni_dhcp6_config_ignore_server (mk_global None sample_dhconf)
      ([Byte.xfe; Byte.x80; Byte.x00; Byte.x00] ++ repeat Byte.xff 12).
Proof.
  apply (proj2 (ignore_server_first_four_bytes (mk_global None sample_dhconf)
                  (sin6_addr fe80_1)
                  ([Byte.xfe; Byte.x80; Byte.x00; Byte.x00] ++ repeat Byte.xff 12)));
    reflexivity.
Defined.
